(** * NoteCart browser client

    A shallow embedding of [static/js/api.js] (the transport [api.request],
    [showToast] and the catalog/cart controller) and of
    [static/js/dashboard.js] (the notes controller with its modal editor).

    Conventions of the embedding.
    - A JavaScript string is the list of its UTF-16 code units, so that
      [length] and [substring] count what the source counts.
    - Values that reach the client come from [JSON.parse]; they are terms of
      [json].  A JavaScript number is carried as an integer: the fractional
      and non-finite doubles are outside the embedding.
    - An [async] function is a function of the answers it awaits.  A thrown
      exception or a rejected promise is [Throws]; a normal return or a
      fulfilled promise is [Returns].
    - A controller is a record of the page state it owns plus the list of
      requests in flight; every handler runs to its next [await], and the
      settlement of a request is an event of its own. *)

From Stdlib Require Import List ZArith NArith Bool Ascii String DecimalString Lia.
Import ListNotations.
Set Warnings "-register-all,-notation-for-abbreviation".
Local Open Scope list_scope.

(* ================================================================== *)
(** * The JavaScript values the client handles                         *)
(* ================================================================== *)

Module Js.

(** ** Strings *)

Definition code_unit := N.
Definition jsstring := list code_unit.

(** The code units of a source literal.  Rocq keeps a literal as its UTF-8
    bytes; the literals of the two source files are in the Basic
    Multilingual Plane, so one, two and three byte sequences suffice. *)
Fixpoint utf16 (s : string) : jsstring :=
  match s with
  | EmptyString => []
  | String a rest =>
      let b := N_of_ascii a in
      if (b <? 128)%N then b :: utf16 rest
      else if (b <? 224)%N then
        match rest with
        | String a2 r2 =>
            ((b mod 32) * 64 + N_of_ascii a2 mod 64)%N :: utf16 r2
        | EmptyString => []
        end
      else
        match rest with
        | String a2 (String a3 r3) =>
            ((b mod 16) * 4096 + (N_of_ascii a2 mod 64) * 64
             + N_of_ascii a3 mod 64)%N :: utf16 r3
        | _ => []
        end
  end.

Fixpoint str_eqb (a b : jsstring) : bool :=
  match a, b with
  | [], [] => true
  | x :: a', y :: b' => (x =? y)%N && str_eqb a' b'
  | _, _ => false
  end.

(** [s.length] *)
Definition str_length (s : jsstring) : Z := Z.of_nat (List.length s).

(** [s.substring(a, b)] for non-negative integer arguments: both are clamped
    to the length and swapped when out of order. *)
Definition substring (s : jsstring) (a b : nat) : jsstring :=
  let a' := Nat.min a (List.length s) in
  let b' := Nat.min b (List.length s) in
  let lo := Nat.min a' b' in
  let hi := Nat.max a' b' in
  firstn (hi - lo) (skipn lo s).

(** Number::toString for an integer. *)
Definition dec (n : Z) : jsstring := utf16 (NilZero.string_of_int (Z.to_int n)).

(** ** Values *)

(** What [JSON.parse] can produce. *)
Inductive json :=
| JNull
| JBool (b : bool)
| JNum (n : Z)
| JStr (s : jsstring)
| JArr (elems : list json)
| JObj (fields : list (jsstring * json)).

(** [None] is [undefined]. *)
Definition value := option json.
Notation undefined := (@None json).

Definition props := list (jsstring * json).

(** Own-property read.  A parsed object holds each key once; nothing below
    depends on it. *)
Fixpoint lookup (k : jsstring) (o : props) : value :=
  match o with
  | [] => undefined
  | (k', v) :: o' => if str_eqb k k' then Some v else lookup k o'
  end.

(** Own-property write: an existing key keeps its place, a new key goes
    last. *)
Fixpoint set_prop (k : jsstring) (v : json) (o : props) : props :=
  match o with
  | [] => [(k, v)]
  | (k', v') :: o' =>
      if str_eqb k k' then (k', v) :: o' else (k', v') :: set_prop k v o'
  end.

(** ** Exceptions *)

Inductive error :=
| FetchFailed        (* the TypeError [fetch] rejects with on a network error *)
| NotAnObject        (* TypeError: property access or ToObject on null/undefined *)
| NotAFunction       (* TypeError: call of a value that is not callable *)
| NotPrimitive       (* TypeError: ToPrimitive found no callable toString *)
| MalformedURI.      (* URIError: lone surrogate in encodeURIComponent *)

Inductive outcome (A : Type) :=
| Returns (a : A)
| Throws (e : error).
Arguments Returns {A} a.
Arguments Throws {A} e.

Definition bind {A B} (c : outcome A) (k : A -> outcome B) : outcome B :=
  match c with
  | Returns a => k a
  | Throws e => Throws e
  end.

Notation "x <- c ;; k" := (bind c (fun x => k))
  (at level 61, c at next level, right associativity).

(** ** Objects *)

Inductive objkind :=
| Plain
| ArrayObject
| Wrapper (prim : json).

(** An object as the client sees it: its own properties. *)
Record jsobject := { kind : objkind; own : props }.

Fixpoint indexed {A} (f : A -> json) (i : nat) (l : list A) : props :=
  match l with
  | [] => []
  | x :: l' => (dec (Z.of_nat i), f x) :: indexed f (S i) l'
  end.

Definition k_length : jsstring := utf16 "length".

(** The own properties of the object a value converts to: for an array and
    for a string, [length] and the indices. *)
Definition own_props (j : json) : props :=
  match j with
  | JObj o => o
  | JArr l =>
      (k_length, JNum (Z.of_nat (List.length l))) :: indexed (fun x => x) 0 l
  | JStr s =>
      (k_length, JNum (str_length s)) :: indexed (fun c => JStr [c]) 0 s
  | _ => []
  end.

(** ToObject; [None] is the TypeError on [null]. *)
Definition ToObject (j : json) : option jsobject :=
  match j with
  | JNull => None
  | JObj o => Some {| kind := Plain; own := o |}
  | JArr _ => Some {| kind := ArrayObject; own := own_props j |}
  | _ => Some {| kind := Wrapper j; own := own_props j |}
  end.

(** [o.k] for a name that no built-in prototype defines, which is the case
    of every data field the client reads. *)
Definition Get (o : jsobject) (k : jsstring) : value := lookup k (own o).

Definition Set_ (o : jsobject) (k : jsstring) (v : json) : jsobject :=
  {| kind := kind o; own := set_prop k v (own o) |}.

(** [v.k] on any value. *)
Definition GetV (v : value) (k : jsstring) : outcome value :=
  match v with
  | None => Throws NotAnObject
  | Some j =>
      match ToObject j with
      | None => Throws NotAnObject
      | Some o => Returns (Get o k)
      end
  end.

(** [Object.assign(target, source)] for a source whose keys are ordinary
    names (not an index or [length] of an array or string target). *)
Definition Object_assign (target : json) (source : props) : outcome jsobject :=
  match ToObject target with
  | None => Throws NotAnObject
  | Some o => Returns (fold_left (fun o kv => Set_ o (fst kv) (snd kv)) source o)
  end.

(** ToBoolean *)
Definition truthy (v : value) : bool :=
  match v with
  | None => false
  | Some JNull => false
  | Some (JBool b) => b
  | Some (JNum n) => negb (n =? 0)%Z
  | Some (JStr s) => match s with [] => false | _ => true end
  | Some (JArr _) => true
  | Some (JObj _) => true
  end.

Definition k_toString : jsstring := utf16 "toString".
Definition comma : jsstring := utf16 ",".

(** ToString of a parsed value.  An array goes through
    [Array.prototype.join]; an object answers [[object Object]] unless an own
    field named [toString] (never callable in parsed data) hides the
    inherited method, in which case ToPrimitive throws. *)
Fixpoint ToString_json (j : json) : outcome jsstring :=
  match j with
  | JNull => Returns (utf16 "null")
  | JBool true => Returns (utf16 "true")
  | JBool false => Returns (utf16 "false")
  | JNum n => Returns (dec n)
  | JStr s => Returns s
  | JArr l =>
      (fix join (l : list json) : outcome jsstring :=
         match l with
         | [] => Returns []
         | x :: rest =>
             s <- match x with JNull => Returns [] | _ => ToString_json x end ;;
             match rest with
             | [] => Returns s
             | _ => r <- join rest ;; Returns (s ++ comma ++ r)
             end
         end) l
  | JObj o =>
      match lookup k_toString o with
      | Some _ => Throws NotPrimitive
      | None => Returns (utf16 "[object Object]")
      end
  end.

Definition ToString (v : value) : outcome jsstring :=
  match v with
  | None => Returns (utf16 "undefined")
  | Some j => ToString_json j
  end.

(** [a || b] *)
Definition or_else (a b : value) : value := if truthy a then a else b.

(** ** encodeURIComponent *)

Definition in_range (lo hi c : N) : bool := ((lo <=? c) && (c <=? hi))%N.

(** A-Z a-z 0-9 - _ . ! ~ * ' ( ) *)
Definition uri_unreserved (c : code_unit) : bool :=
  in_range 65 90 c || in_range 97 122 c || in_range 48 57 c
  || existsb (N.eqb c) [45; 95; 46; 33; 126; 42; 39; 40; 41]%N.

Definition hex_digit (n : N) : code_unit :=
  if (n <? 10)%N then (48 + n)%N else (55 + n)%N.

Definition percent (byte : N) : jsstring :=
  [37; hex_digit (byte / 16); hex_digit (byte mod 16)]%N.

Definition utf8 (cp : N) : list N :=
  if (cp <? 128)%N then [cp]
  else if (cp <? 2048)%N then [192 + cp / 64; 128 + cp mod 64]%N
  else if (cp <? 65536)%N then
    [224 + cp / 4096; 128 + (cp / 64) mod 64; 128 + cp mod 64]%N
  else
    [240 + cp / 262144; 128 + (cp / 4096) mod 64;
     128 + (cp / 64) mod 64; 128 + cp mod 64]%N.

Definition is_high_surrogate (c : code_unit) : bool := in_range 55296 56319 c.
Definition is_low_surrogate (c : code_unit) : bool := in_range 56320 57343 c.

Fixpoint encodeURIComponent (s : jsstring) : outcome jsstring :=
  match s with
  | [] => Returns []
  | c :: rest =>
      if uri_unreserved c then
        r <- encodeURIComponent rest ;; Returns (c :: r)
      else if is_low_surrogate c then Throws MalformedURI
      else if is_high_surrogate c then
        match rest with
        | c2 :: rest2 =>
            if is_low_surrogate c2 then
              let cp := ((c - 55296) * 1024 + (c2 - 56320) + 65536)%N in
              r <- encodeURIComponent rest2 ;;
              Returns (flat_map percent (utf8 cp) ++ r)
            else Throws MalformedURI
        | [] => Throws MalformedURI
        end
      else
        r <- encodeURIComponent rest ;;
        Returns (flat_map percent (utf8 c) ++ r)
  end.

(** A string literal as a value. *)
Definition str (s : string) : value := Some (JStr (utf16 s)).

(** The receiver of [.forEach] / [.find]: only an array has the method. *)
Definition array_receiver (v : value) : outcome (list json) :=
  match v with
  | Some (JArr l) => Returns l
  | None | Some JNull => Throws NotAnObject
  | Some _ => Throws NotAFunction
  end.

End Js.

(* ================================================================== *)
(** * Handlers: page state, exceptions and requests in flight          *)
(* ================================================================== *)

Module Task.
Import Js.

(** A piece of handler code over the page state [S]: it may change the
    state and then return or throw; what it changed before a throw stays. *)
Definition task (S A : Type) := S -> outcome A * S.

Definition ret {S A} (a : A) : task S A := fun s => (Returns a, s).

Definition tbind {S A B} (c : task S A) (k : A -> task S B) : task S B :=
  fun s =>
    match c s with
    | (Returns a, s') => k a s'
    | (Throws e, s') => (Throws e, s')
    end.

Definition lift {S A} (o : outcome A) : task S A := fun s => (o, s).

Definition modify {S} (f : S -> S) : task S unit := fun s => (Returns tt, f s).

Definition read {S A} (f : S -> A) : task S A := fun s => (Returns (f s), s).

(** A call of an [async] function that is not awaited: it runs to its first
    [await]; a rejection of its promise is not seen by the caller. *)
Definition spawn {S} (c : task S unit) : task S unit :=
  fun s => (Returns tt, snd (c s)).

Definition when {S} (b : bool) (c : task S unit) : task S unit :=
  if b then c else ret tt.

(** [l.forEach(f)] on an array. *)
Fixpoint forEach {S A} (f : A -> task S unit) (l : list A) : task S unit :=
  match l with
  | [] => ret tt
  | x :: l' => tbind (f x) (fun _ => forEach f l')
  end.

Fixpoint remove_nth {A} (n : nat) (l : list A) : list A :=
  match n, l with
  | _, [] => []
  | O, _ :: l' => l'
  | S n', x :: l' => x :: remove_nth n' l'
  end.

(** The state a handler leaves behind. *)
Definition exec {S A} (c : task S A) (s : S) : S := snd (c s).

End Task.

Notation "x <~ c ;; k" := (Task.tbind c (fun x => k))
  (at level 61, c at next level, right associativity).
Notation "c ;;; k" := (Task.tbind c (fun _ => k))
  (at level 61, right associativity).

(* ================================================================== *)
(** * The page: elements the controllers write to                      *)
(* ================================================================== *)

Module Dom.
Import Js.

Inductive content :=
| Html (s : jsstring)      (* assigned through [innerHTML], kept as markup *)
| Text (s : jsstring).     (* assigned through [innerText] *)

(** An element made by [document.createElement('div')]. *)
Record element := { className : jsstring; inner : content }.

(** A list region of the page: the markup last assigned to its
    [innerHTML] and the children appended since. *)
Record container := { markup : jsstring; children : list element }.

Definition set_innerHTML (s : jsstring) (c : container) : container :=
  {| markup := s; children := [] |}.

Definition appendChild (el : element) (c : container) : container :=
  {| markup := markup c; children := children c ++ [el] |}.

(** The [#toast] element: its text and whether it is displayed.  The timer
    that hides it again is not part of the state. *)
Record toast := { toast_text : jsstring; toast_display : bool }.

(** The setter of [innerText] converts its argument to a string, [null] to
    the empty string. *)
Definition to_DOMString (v : value) : outcome jsstring :=
  match v with
  | Some JNull => Returns []
  | _ => ToString v
  end.

End Dom.

(* ================================================================== *)
(** * api.js: the transport                                            *)
(* ================================================================== *)

Module Api.
Import Js Task Dom.

Inductive http_method := GET | POST | PUT | DELETE.

(** The third argument of [request]: a value to serialise or a [FormData]. *)
Inductive request_data :=
| JsonData (j : json)
| FormData (entries : list (jsstring * jsstring)).

(** The body handed to [fetch]: [JsonText j] is the text
    [JSON.stringify(j)]. *)
Inductive request_body :=
| JsonText (j : json)
| Multipart (entries : list (jsstring * jsstring)).

Record fetch_options := {
  method : http_method;
  headers : list (jsstring * jsstring);
  body : option request_body }.

Record http_request := { url : jsstring; options : fetch_options }.

(** A response: its status and what [res.json()] yields, [None] when that
    promise rejects (the body is not valid JSON). *)
Record response := { status : Z; json_body : option json }.

(** How the promise of [fetch] settles. *)
Inductive fetch_outcome :=
| Fulfilled (res : response)
| Rejected.

(** [res.ok] *)
Definition res_ok (res : response) : bool :=
  ((200 <=? status res) && (status res <=? 299))%Z.

Definition k_ok : jsstring := utf16 "ok".
Definition mime_json : jsstring := utf16 "application/json".

Definition data_truthy (d : request_data) : bool :=
  match d with
  | JsonData j => truthy (Some j)
  | FormData _ => true
  end.

(** Lines 3-9 of [request]; [data = None] is the default [null]. *)
Definition request_options (m : http_method) (data : option request_data)
  : fetch_options :=
  let opts := {| method := m; headers := [(utf16 "Accept", mime_json)];
                 body := None |} in
  match data with
  | None => opts
  | Some d =>
      if data_truthy d then
        match d with
        | JsonData j =>
            {| method := m;
               headers := headers opts ++ [(utf16 "Content-Type", mime_json)];
               body := Some (JsonText j) |}
        | FormData fd =>
            {| method := m; headers := headers opts;
               body := Some (Multipart fd) |}
        end
      else opts
  end.

(** Line 11: [await res.json().catch(()=>({}))]. *)
Definition parsed_body (res : response) : json :=
  match json_body res with
  | Some j => j
  | None => JObj []
  end.

(** The arguments of the call of [fetch] on line 10. *)
Definition fetch_call (path : jsstring) (m : http_method)
  (data : option request_data) : http_request :=
  {| url := utf16 "/api" ++ path; options := request_options m data |}.

(** Lines 10-12 of [request], from the settlement of [fetch] on. *)
Definition request_settle (o : fetch_outcome) : outcome jsobject :=
  match o with
  | Rejected => Throws FetchFailed
  | Fulfilled res =>
      let json := parsed_body res in
      if res_ok res then Object_assign json [(k_ok, JBool true)]
      else Object_assign json [(k_ok, JBool false)]
  end.

(** [request(path, method, data)] against a network [fetch]. *)
Definition request (fetch : http_request -> fetch_outcome)
  (path : jsstring) (m : http_method) (data : option request_data)
  : outcome jsobject :=
  request_settle (fetch (fetch_call path m data)).

(** The shorthands [api.get], [api.post], [api.put], [api.del], as the
    requests they send. *)
Definition get (p : jsstring) : http_request := fetch_call p GET None.
Definition post (p : jsstring) (d : option request_data) : http_request :=
  fetch_call p POST d.
Definition put (p : jsstring) (d : option request_data) : http_request :=
  fetch_call p PUT d.
Definition del (p : jsstring) : http_request := fetch_call p DELETE None.

(** The query suffix of both list loaders:
    [(q ? `?q=${encodeURIComponent(q)}` : '')]. *)
Definition query_suffix (q : jsstring) : outcome jsstring :=
  match q with
  | [] => Returns []
  | _ => e <- encodeURIComponent q ;; Returns (utf16 "?q=" ++ e)
  end.

(** [showToast(msg)] *)
Definition showToast {S} (set_toast : toast -> S -> S) (msg : value)
  : task S unit :=
  text <~ lift (to_DOMString msg) ;;
  modify (set_toast {| toast_text := text; toast_display := true |}).

End Api.

(* ================================================================== *)
(** * api.js: the catalog and cart controller                          *)
(* ================================================================== *)

Module Catalog.
Import Js Task Dom.

(** Where an [async] function of the controller is suspended. *)
Inductive continuation :=
| Products_fetched      (* loadProducts, after line 51 *)
| Cart_fetched          (* loadCart, after line 61 *)
| Add_posted            (* click on .add, after the post of line 72 *)
| Checkout_posted       (* checkoutBtn, after the post of line 77 *)
| Clear_posted.         (* clearBtn, after the post of line 79 *)

Record state := {
  productsGrid : container;
  cartItems : container;
  cartTotal : jsstring;            (* cartTotal.innerText *)
  toast : Dom.toast;
  search_value : jsstring;         (* search.value *)
  inflight : list (Api.http_request * continuation) }.

Definition with_productsGrid (f : container -> container) (s : state) : state :=
  {| productsGrid := f (productsGrid s); cartItems := cartItems s;
     cartTotal := cartTotal s; toast := toast s;
     search_value := search_value s; inflight := inflight s |}.

Definition with_cartItems (f : container -> container) (s : state) : state :=
  {| productsGrid := productsGrid s; cartItems := f (cartItems s);
     cartTotal := cartTotal s; toast := toast s;
     search_value := search_value s; inflight := inflight s |}.

Definition set_cartTotal (t : jsstring) (s : state) : state :=
  {| productsGrid := productsGrid s; cartItems := cartItems s;
     cartTotal := t; toast := toast s;
     search_value := search_value s; inflight := inflight s |}.

Definition set_toast (t : Dom.toast) (s : state) : state :=
  {| productsGrid := productsGrid s; cartItems := cartItems s;
     cartTotal := cartTotal s; toast := t;
     search_value := search_value s; inflight := inflight s |}.

Definition set_search_value (v : jsstring) (s : state) : state :=
  {| productsGrid := productsGrid s; cartItems := cartItems s;
     cartTotal := cartTotal s; toast := toast s;
     search_value := v; inflight := inflight s |}.

Definition set_inflight (l : list (Api.http_request * continuation))
  (s : state) : state :=
  {| productsGrid := productsGrid s; cartItems := cartItems s;
     cartTotal := cartTotal s; toast := toast s;
     search_value := search_value s; inflight := l |}.

(** [await api.get(..)] and the like: the request leaves, the function is
    suspended at [k]. *)
Definition await (req : Api.http_request) (k : continuation) : task state unit :=
  modify (fun s => set_inflight (inflight s ++ [(req, k)]) s).

Definition showToast (msg : value) : task state unit :=
  Api.showToast set_toast msg.

(** ** loadProducts *)

Definition loadProducts (q : jsstring) : task state unit :=
  suffix <~ lift (Api.query_suffix q) ;;
  await (Api.get (utf16 "/products" ++ suffix)) Products_fetched.

(** The template of line 55. *)
Definition product_html (p : json) : outcome jsstring :=
  name <- (v <- GetV (Some p) (utf16 "name") ;; ToString v) ;;
  category <- (v <- GetV (Some p) (utf16 "category") ;;
               ToString (or_else v (Some (JStr [])))) ;;
  description <- (v <- GetV (Some p) (utf16 "description") ;;
                  ToString (or_else v (Some (JStr [])))) ;;
  price <- (v <- GetV (Some p) (utf16 "price") ;; ToString v) ;;
  id <- (v <- GetV (Some p) (utf16 "id") ;; ToString v) ;;
  Returns (utf16 "<h4>" ++ name ++ utf16 "</h4><div class='meta'>" ++ category
           ++ utf16 "</div><p>" ++ description
           ++ utf16 "</p><div class='row'><div>" ++ price
           ++ utf16 "₽</div><button data-id='" ++ id
           ++ utf16 "' class='btn add'>В корзину</button></div>").

(** Lines 52-57, with the result of the request. *)
Definition loadProducts_render (res : jsobject) : task state unit :=
  modify (with_productsGrid (set_innerHTML [])) ;;;
  products <~ lift (array_receiver
                      (or_else (Get res (utf16 "products")) (Some (JArr [])))) ;;
  forEach (fun p =>
             html <~ lift (product_html p) ;;
             modify (with_productsGrid
                       (appendChild {| className := utf16 "product";
                                       inner := Html html |})))
          products.

(** ** loadCart *)

Definition loadCart : task state unit :=
  await (Api.get (utf16 "/cart")) Cart_fetched.

(** The template of line 64. *)
Definition cart_line_text (i : json) : outcome jsstring :=
  name <- (product <- GetV (Some i) (utf16 "product") ;;
           v <- GetV product (utf16 "name") ;; ToString v) ;;
  quantity <- (v <- GetV (Some i) (utf16 "quantity") ;; ToString v) ;;
  subtotal <- (v <- GetV (Some i) (utf16 "subtotal") ;; ToString v) ;;
  Returns (name ++ utf16 " x " ++ quantity ++ utf16 " = " ++ subtotal
           ++ utf16 "₽").

(** Lines 62-67, with the result of the request. *)
Definition loadCart_render (res : jsobject) : task state unit :=
  modify (with_cartItems (set_innerHTML [])) ;;;
  modify (set_cartTotal []) ;;;
  items <~ lift (array_receiver
                   (or_else (Get res (utf16 "items")) (Some (JArr [])))) ;;
  forEach (fun i =>
             text <~ lift (cart_line_text i) ;;
             modify (with_cartItems
                       (appendChild {| className := []; inner := Text text |})))
          items ;;;
  total <~ lift (ToString (or_else (Get res (utf16 "total")) (Some (JNum 0)))) ;;
  modify (set_cartTotal (utf16 "Итого: " ++ total ++ utf16 "₽")).

(** ** The click handlers *)

(** The object [{product_id: id, quantity: 1}] as [JSON.stringify] writes
    it: a field whose value is [undefined] is left out. *)
Definition add_payload (id : option jsstring) : json :=
  match id with
  | Some s => JObj [(utf16 "product_id", JStr s); (utf16 "quantity", JNum 1)]
  | None => JObj [(utf16 "quantity", JNum 1)]
  end.

(** Click on an element that matches [.add]; [id] is its [dataset.id]. *)
Definition click_add (id : option jsstring) : task state unit :=
  await (Api.post (utf16 "/cart") (Some (Api.JsonData (add_payload id))))
        Add_posted.

Definition add_done (r : jsobject) : task state unit :=
  when (truthy (Get r Api.k_ok))
       (showToast (str "Добавлено") ;;; spawn loadCart).

Definition click_checkout : task state unit :=
  await (Api.post (utf16 "/checkout") None) Checkout_posted.

Definition checkout_done (r : jsobject) : task state unit :=
  if truthy (Get r Api.k_ok)
  then showToast (str "Заказ оформлен") ;;; spawn loadCart
  else showToast (or_else (Get r (utf16 "error")) (str "Ошибка")).

Definition click_clear : task state unit :=
  await (Api.post (utf16 "/cart/clear") None) Clear_posted.

Definition clear_done (r : jsobject) : task state unit :=
  when (truthy (Get r Api.k_ok))
       (spawn loadCart ;;; showToast (str "Корзина очищена")).

(** ** The event loop *)

Definition resume (k : continuation) (r : jsobject) : task state unit :=
  match k with
  | Products_fetched => loadProducts_render r
  | Cart_fetched => loadCart_render r
  | Add_posted => add_done r
  | Checkout_posted => checkout_done r
  | Clear_posted => clear_done r
  end.

Inductive event :=
| Click_add (data_id : option jsstring)
| Click_checkout
| Click_clear
| Input_search (v : jsstring)           (* the field now holds [v] *)
| Settled (n : nat) (o : Api.fetch_outcome). (* the n-th request in flight *)

Definition handle (e : event) : task state unit :=
  match e with
  | Click_add id => click_add id
  | Click_checkout => click_checkout
  | Click_clear => click_clear
  | Input_search v => modify (set_search_value v) ;;; spawn (loadProducts v)
  | Settled n o =>
      pending <~ read inflight ;;
      match nth_error pending n with
      | None => ret tt
      | Some (_, k) =>
          modify (set_inflight (remove_nth n pending)) ;;;
          r <~ lift (Api.request_settle o) ;;
          resume k r
      end
  end.

Definition step (s : state) (e : event) : state := exec (handle e) s.

(** Line 83: [loadProducts(); loadCart();] on DOMContentLoaded. *)
Definition start : task state unit :=
  spawn (loadProducts []) ;;; spawn loadCart.

End Catalog.

(* ================================================================== *)
(** * dashboard.js: the notes controller                               *)
(* ================================================================== *)

Module Notes.
Import Js Task Dom.

(** The values of the three controls of [#noteForm] the source reads and
    writes, as [control.value] and [new FormData(noteForm)] give them. *)
Record form := { title : jsstring; content : jsstring; tags : jsstring }.

(** The markup of the page is not among the sources, so the kind of each of
    the three controls is a parameter of the page: a one-line text
    [<input>] or a [<textarea>]. *)
Inductive control := Text_input | Textarea.

Record form_controls := {
  title_control : control;
  content_control : control;
  tags_control : control }.

Definition LF : N := 10.
Definition CR : N := 13.

(** The value sanitization of a text input: line breaks are stripped. *)
Fixpoint strip_newlines (v : jsstring) : jsstring :=
  match v with
  | [] => []
  | c :: v' =>
      if (c =? LF)%N || (c =? CR)%N then strip_newlines v'
      else c :: strip_newlines v'
  end.

(** The API value of a textarea: every CR LF pair and every other CR
    becomes one LF. *)
Fixpoint normalize_newlines (v : jsstring) : jsstring :=
  match v with
  | [] => []
  | c :: v' =>
      if (c =? CR)%N then
        match v' with
        | d :: v'' =>
            if (d =? LF)%N then LF :: normalize_newlines v''
            else LF :: normalize_newlines v'
        | [] => [LF]
        end
      else c :: normalize_newlines v'
  end.

(** What a control holds after [control.value = v]. *)
Definition assigned (k : control) (v : jsstring) : jsstring :=
  match k with
  | Text_input => strip_newlines v
  | Textarea => normalize_newlines v
  end.

(** A text without a line break. *)
Definition one_line (v : jsstring) : bool :=
  forallb (fun c => negb ((c =? LF)%N || (c =? CR)%N)) v.

(** Where an [async] function of the controller is suspended. *)
Inductive continuation :=
| Notes_fetched                       (* loadNotes, after line 28 *)
| Put_done                            (* submit, after line 67 *)
| Post_done                           (* submit, after line 74 *)
| Edit_fetched (id : option jsstring) (* click on .edit, after line 86 *)
| Delete_done                         (* click on .del, after line 99 *)
| Me_fetched.                         (* the [then] of line 114 *)

(** [modal_open] is the phase of the editor: set by [openModal] (which drops
    the class [hidden]) and cleared by [closeModalFn] (which drops the class
    [show]).  The class each of them adds from a timer finishes the CSS
    transition and is not part of the state. *)
Record state := {
  editingId : value;               (* [Some JNull] is [null] *)
  modal_open : bool;
  editorTitle : jsstring;          (* #editorTitle.innerText *)
  noteForm : form;
  controls : form_controls;        (* the kinds of the controls of #noteForm *)
  notesList : container;
  toast : Dom.toast;
  search_value : jsstring;
  adminLink : bool;                (* #adminLink displayed *)
  inflight : list (Api.http_request * continuation) }.

Definition null : value := Some JNull.

Definition set_editingId (v : value) (s : state) : state :=
  {| editingId := v; modal_open := modal_open s; editorTitle := editorTitle s;
     noteForm := noteForm s; controls := controls s; notesList := notesList s; toast := toast s;
     search_value := search_value s; adminLink := adminLink s;
     inflight := inflight s |}.

Definition set_modal_open (b : bool) (s : state) : state :=
  {| editingId := editingId s; modal_open := b; editorTitle := editorTitle s;
     noteForm := noteForm s; controls := controls s; notesList := notesList s; toast := toast s;
     search_value := search_value s; adminLink := adminLink s;
     inflight := inflight s |}.

Definition set_editorTitle (t : jsstring) (s : state) : state :=
  {| editingId := editingId s; modal_open := modal_open s; editorTitle := t;
     noteForm := noteForm s; controls := controls s; notesList := notesList s; toast := toast s;
     search_value := search_value s; adminLink := adminLink s;
     inflight := inflight s |}.

Definition set_noteForm (f : form) (s : state) : state :=
  {| editingId := editingId s; modal_open := modal_open s;
     editorTitle := editorTitle s;
     noteForm := f; controls := controls s; notesList := notesList s; toast := toast s;
     search_value := search_value s; adminLink := adminLink s;
     inflight := inflight s |}.

Definition with_notesList (f : container -> container) (s : state) : state :=
  {| editingId := editingId s; modal_open := modal_open s;
     editorTitle := editorTitle s;
     noteForm := noteForm s; controls := controls s; notesList := f (notesList s); toast := toast s;
     search_value := search_value s; adminLink := adminLink s;
     inflight := inflight s |}.

Definition set_toast (t : Dom.toast) (s : state) : state :=
  {| editingId := editingId s; modal_open := modal_open s;
     editorTitle := editorTitle s;
     noteForm := noteForm s; controls := controls s; notesList := notesList s; toast := t;
     search_value := search_value s; adminLink := adminLink s;
     inflight := inflight s |}.

Definition set_search_value (v : jsstring) (s : state) : state :=
  {| editingId := editingId s; modal_open := modal_open s;
     editorTitle := editorTitle s;
     noteForm := noteForm s; controls := controls s; notesList := notesList s; toast := toast s;
     search_value := v; adminLink := adminLink s;
     inflight := inflight s |}.

Definition set_adminLink (b : bool) (s : state) : state :=
  {| editingId := editingId s; modal_open := modal_open s;
     editorTitle := editorTitle s;
     noteForm := noteForm s; controls := controls s; notesList := notesList s; toast := toast s;
     search_value := search_value s; adminLink := b;
     inflight := inflight s |}.

Definition set_inflight (l : list (Api.http_request * continuation))
  (s : state) : state :=
  {| editingId := editingId s; modal_open := modal_open s;
     editorTitle := editorTitle s;
     noteForm := noteForm s; controls := controls s; notesList := notesList s; toast := toast s;
     search_value := search_value s; adminLink := adminLink s;
     inflight := l |}.

Definition await (req : Api.http_request) (k : continuation) : task state unit :=
  modify (fun s => set_inflight (inflight s ++ [(req, k)]) s).

Definition showToast (msg : value) : task state unit :=
  Api.showToast set_toast msg.

Definition dq : jsstring := [34%N].          (* the double quote *)
Definition nl (indent : nat) : jsstring := 10%N :: repeat 32%N indent.

Definition title_new : jsstring := utf16 "Новая заметка".
Definition title_edit : jsstring := utf16 "Редактировать заметку".

(** The value of [e.target.dataset.id]: a string, or [undefined] when the
    element has no [data-id]. *)
Definition of_dataset (id : option jsstring) : value := option_map JStr id.

Section Controller.

(** What the platform and the page supply. *)

(** StringToNumber: the integer a string converts to, [None] for NaN. *)
Variable StringToNumber : jsstring -> option Z.

(** [new Date(v).toLocaleDateString('ru-RU', {day: 'numeric', month:
    'short', year: 'numeric'})] *)
Variable toLocaleDateString : json -> outcome jsstring.

(** The values [noteForm.reset()] restores. *)
Variable form_defaults : form.

(** ToNumber, [None] for NaN. *)
Definition ToNumber (v : value) : outcome (option Z) :=
  match v with
  | None => Returns None
  | Some JNull => Returns (Some 0%Z)
  | Some (JBool b) => Returns (Some (if b then 1 else 0)%Z)
  | Some (JNum n) => Returns (Some n)
  | Some (JStr s) => Returns (StringToNumber s)
  | Some j => s <- ToString_json j ;; Returns (StringToNumber s)
  end.

(** [v > n] *)
Definition greater (v : value) (n : Z) : outcome bool :=
  x <- ToNumber v ;;
  Returns match x with Some m => (n <? m)%Z | None => false end.

(** [x == id] where [id] comes from a [dataset]. *)
Definition loose_eq (x : value) (id : option jsstring) : outcome bool :=
  match id, x with
  | None, (None | Some JNull) => Returns true
  | None, Some _ => Returns false
  | Some _, (None | Some JNull) => Returns false
  | Some s, Some (JStr t) => Returns (str_eqb t s)
  | Some s, Some (JNum _ | JBool _) =>
      n <- ToNumber x ;;
      Returns match n, StringToNumber s with
              | Some a, Some b => (a =? b)%Z
              | _, _ => false
              end
  | Some s, Some j => t <- ToString_json j ;; Returns (str_eqb t s)
  end.

(** [l.find(p)] *)
Fixpoint find {A} (p : A -> outcome bool) (l : list A) : outcome (option A) :=
  match l with
  | [] => Returns None
  | x :: l' => b <- p x ;; if b then Returns (Some x) else find p l'
  end.

(** ** The modal *)

Definition openModal (t : jsstring) : task state unit :=
  modify (set_editorTitle t) ;;; modify (set_modal_open true).

Definition closeModalFn : task state unit :=
  modify (set_modal_open false) ;;;
  modify (set_editingId null) ;;;
  modify (set_noteForm form_defaults).

(** ** loadNotes *)

Definition loadNotes (q : jsstring) : task state unit :=
  suffix <~ lift (Api.query_suffix q) ;;
  await (Api.get (utf16 "/notes" ++ suffix)) Notes_fetched.

Definition placeholder : jsstring :=
  utf16 "<p style=" ++ dq
  ++ utf16 "color:var(--text-secondary);text-align:center;padding:40px" ++ dq
  ++ utf16 ">Заметок пока нет. Создайте первую!</p>".

Definition ellipsis : jsstring := utf16 "...".

(** Line 40. *)
Definition preview (content : value) : outcome value :=
  len <- GetV content k_length ;;
  long <- greater len 150 ;;
  if long then
    match content with
    | Some (JStr s) => Returns (Some (JStr (substring s 0 150 ++ ellipsis)))
    | _ => Throws NotAFunction
    end
  else Returns content.

(** Line 41. *)
Definition date_text (updated_at : value) : outcome jsstring :=
  match updated_at with
  | Some j => if truthy updated_at then toLocaleDateString j else Returns []
  | None => Returns []
  end.

(** The template of lines 43-51 around its five substitutions. *)
Definition card_html (t p d id : jsstring) : jsstring :=
  nl 16 ++ utf16 "<h3>" ++ t ++ utf16 "</h3>"
  ++ nl 16 ++ utf16 "<p>" ++ p ++ utf16 "</p>"
  ++ nl 16 ++ utf16 "<div class=" ++ dq ++ utf16 "note-meta" ++ dq
  ++ utf16 ">" ++ d ++ utf16 "</div>"
  ++ nl 16 ++ utf16 "<div class=" ++ dq ++ utf16 "note-actions" ++ dq ++ utf16 ">"
  ++ nl 20 ++ utf16 "<button data-id=" ++ dq ++ id ++ dq ++ utf16 " class=" ++ dq
  ++ utf16 "btn-secondary edit" ++ dq ++ utf16 ">Редактировать</button>"
  ++ nl 20 ++ utf16 "<button data-id=" ++ dq ++ id ++ dq ++ utf16 " class=" ++ dq
  ++ utf16 "btn--ghost del" ++ dq ++ utf16 ">Удалить</button>"
  ++ nl 16 ++ utf16 "</div>"
  ++ nl 12.

(** Lines 37-51: the card of one note. *)
Definition note_card (n : json) : outcome element :=
  p <- (c <- GetV (Some n) (utf16 "content") ;; preview c) ;;
  d <- (u <- GetV (Some n) (utf16 "updated_at") ;; date_text u) ;;
  t <- (v <- GetV (Some n) (utf16 "title") ;; ToString v) ;;
  p' <- ToString p ;;
  id <- (v <- GetV (Some n) (utf16 "id") ;; ToString v) ;;
  Returns {| className := utf16 "note-card"; inner := Html (card_html t p' d id) |}.

(** [v.length === 0] *)
Definition length_is_zero (v : value) : outcome bool :=
  len <- GetV v k_length ;;
  Returns match len with Some (JNum 0) => true | _ => false end.

(** Lines 29-53, with the result of the request. *)
Definition loadNotes_render (res : jsobject) : task state unit :=
  modify (with_notesList (set_innerHTML [])) ;;;
  let notes := Get res (utf16 "notes") in
  empty <~ lift (if truthy notes then length_is_zero notes else Returns true) ;;
  if (empty : bool) then modify (with_notesList (set_innerHTML placeholder))
  else
    l <~ lift (array_receiver (or_else notes (Some (JArr [])))) ;;
    forEach (fun n =>
               el <~ lift (note_card n) ;;
               modify (with_notesList (appendChild el)))
            l.

(** ** The handlers *)

(** Lines 56-60. *)
Definition click_new : task state unit :=
  modify (set_editingId null) ;;;
  modify (set_noteForm form_defaults) ;;;
  openModal title_new.

(** [Object.fromEntries(new FormData(noteForm))] *)
Definition form_data (f : form) : json :=
  JObj [(utf16 "title", JStr (title f)); (utf16 "content", JStr (content f));
        (utf16 "tags", JStr (tags f))].

(** Lines 62-81 up to the [await]. *)
Definition submit : task state unit :=
  f <~ read noteForm ;;
  id <~ read editingId ;;
  if truthy id then
    path <~ lift (ToString id) ;;
    await (Api.put (utf16 "/notes/" ++ path) (Some (Api.JsonData (form_data f))))
          Put_done
  else
    await (Api.post (utf16 "/notes") (Some (Api.JsonData (form_data f))))
          Post_done.

(** Lines 68-72 and 75-79. *)
Definition submit_done (msg : value) (res : jsobject) : task state unit :=
  when (truthy (Get res Api.k_ok))
       (showToast msg ;;;
        closeModalFn ;;;
        (q <~ read search_value ;; spawn (loadNotes q))).

(** Click on an element that matches [.edit], lines 85-86. *)
Definition click_edit (id : option jsstring) : task state unit :=
  await (Api.get (utf16 "/notes")) (Edit_fetched id).

(** The receiver [(all.notes||[])] of line 87. *)
Definition fetched_notes (all : jsobject) : outcome (list json) :=
  array_receiver (or_else (Get all (utf16 "notes")) (Some (JArr []))).

(** The test [x.id == id] of line 87. *)
Definition matches (id : option jsstring) (x : json) : outcome bool :=
  v <- GetV (Some x) (utf16 "id") ;; loose_eq v id.

(** Lines 87-94. *)
Definition edit_fetched (id : option jsstring) (all : jsobject)
  : task state unit :=
  l <~ lift (fetched_notes all) ;;
  note <~ lift (find (matches id) l) ;;
  if truthy note then
    modify (set_editingId (of_dataset id)) ;;;
    t <~ lift (v <- GetV note (utf16 "title") ;; to_DOMString v) ;;
    modify (fun s => set_noteForm
              {| title := assigned (title_control (controls s)) t;
                 content := content (noteForm s);
                 tags := tags (noteForm s) |} s) ;;;
    c <~ lift (v <- GetV note (utf16 "content") ;; to_DOMString v) ;;
    modify (fun s => set_noteForm
              {| title := title (noteForm s);
                 content := assigned (content_control (controls s)) c;
                 tags := tags (noteForm s) |} s) ;;;
    g <~ lift (v <- GetV note (utf16 "tags") ;;
               to_DOMString (or_else v (Some (JStr [])))) ;;
    modify (fun s => set_noteForm
              {| title := title (noteForm s); content := content (noteForm s);
                 tags := assigned (tags_control (controls s)) g |} s) ;;;
    openModal title_edit
  else ret tt.

(** Click on an element that matches [.del], lines 97-99; [confirmed] is
    the answer to [confirm]. *)
Definition click_del (id : option jsstring) (confirmed : bool)
  : task state unit :=
  if confirmed then
    path <~ lift (ToString (of_dataset id)) ;;
    await (Api.del (utf16 "/notes/" ++ path)) Delete_done
  else ret tt.

(** Lines 100-103. *)
Definition delete_done (res : jsobject) : task state unit :=
  when (truthy (Get res Api.k_ok))
       (showToast (str "Заметка удалена") ;;;
        (q <~ read search_value ;; spawn (loadNotes q))).

(** Lines 115-117. *)
Definition me_fetched (res : jsobject) : task state unit :=
  let user := Get res (utf16 "user") in
  if truthy (Get res Api.k_ok) && truthy user then
    role <~ lift (GetV user (utf16 "role")) ;;
    match role with
    | Some (JStr r) => when (str_eqb r (utf16 "admin")) (modify (set_adminLink true))
    | _ => ret tt
    end
  else ret tt.

(** ** The event loop *)

Definition resume (k : continuation) (r : jsobject) : task state unit :=
  match k with
  | Notes_fetched => loadNotes_render r
  | Put_done => submit_done (str "Заметка обновлена") r
  | Post_done => submit_done (str "Заметка создана") r
  | Edit_fetched id => edit_fetched id r
  | Delete_done => delete_done r
  | Me_fetched => me_fetched r
  end.

Inductive event :=
| Click_new                                (* #newNoteBtn *)
| Click_close                              (* #closeModal *)
| Click_cancel                             (* #cancelEdit *)
| Click_overlay                            (* #modalOverlay *)
| Submit                                   (* submit of #noteForm *)
| Click_edit (data_id : option jsstring)
| Click_del (data_id : option jsstring) (confirmed : bool)
| Input_search (v : jsstring)              (* the search field now holds [v] *)
| Input_form (f : form)                    (* the user changed the form to [f] *)
| Settled (n : nat) (o : Api.fetch_outcome). (* the n-th request in flight *)

Definition handle (e : event) : task state unit :=
  match e with
  | Click_new => click_new
  | Click_close => closeModalFn
  | Click_cancel => closeModalFn
  | Click_overlay => closeModalFn
  | Submit => submit
  | Click_edit id => click_edit id
  | Click_del id confirmed => click_del id confirmed
  | Input_search v => modify (set_search_value v) ;;; spawn (loadNotes v)
  | Input_form f => modify (set_noteForm f)
  | Settled n o =>
      pending <~ read inflight ;;
      match nth_error pending n with
      | None => ret tt
      | Some (_, k) =>
          modify (set_inflight (remove_nth n pending)) ;;;
          r <~ lift (Api.request_settle o) ;;
          resume k r
      end
  end.

Definition step (s : state) (e : event) : state := exec (handle e) s.

(** Lines 11 and 114-120 on DOMContentLoaded, on the page as served. *)
Definition start : task state unit :=
  modify (set_editingId null) ;;;
  await (Api.get (utf16 "/auth/me")) Me_fetched ;;;
  spawn (loadNotes []).

(** ** Runs of the controller *)

(** Modelled from the spec: the page as served, before the script runs, has
    the editor Closed (the HTML document is not among the sources). *)
Definition served (page : state) : Prop := modal_open page = false.

(** A note whose field [k] is a string. *)
Definition text_field (n : json) (k : jsstring) : bool :=
  match GetV (Some n) k with
  | Returns (Some (JStr _)) => true
  | _ => false
  end.

(** The three texts lines 90-92 hand to the controls, when none of the
    conversions throws. *)
Definition form_texts (n : json) : outcome (jsstring * jsstring * jsstring) :=
  t <- (v <- GetV (Some n) (utf16 "title") ;; to_DOMString v) ;;
  c <- (v <- GetV (Some n) (utf16 "content") ;; to_DOMString v) ;;
  g <- (v <- GetV (Some n) (utf16 "tags") ;;
        to_DOMString (or_else v (Some (JStr [])))) ;;
  Returns (t, c, g).

(** A note the editor can take: its [title], [content] and [tags] convert
    to text.  Strings, numbers, booleans, [null] and missing fields do;
    an object with an own [toString] field (and an array that holds one)
    does not. *)
Definition note_conforms (n : json) : bool :=
  match form_texts n with
  | Returns _ => true
  | Throws _ => false
  end.

(** An event whose answer, if it carries a list of notes, carries only
    notes the editor can take; every other event does. *)
Definition conforms (e : event) : bool :=
  match e with
  | Settled _ o =>
      match Api.request_settle o with
      | Returns r =>
          match fetched_notes r with
          | Returns l => forallb note_conforms l
          | Throws _ => true
          end
      | Throws _ => true
      end
  | _ => true
  end.

(** The states the controller reaches, with the events that led there
    (latest first). *)
Inductive reaches : list event -> state -> Prop :=
| reaches_start (page : state) :
    served page -> reaches [] (exec start page)
| reaches_step (tr : list event) (s : state) (e : event) :
    reaches tr s -> reaches (e :: tr) (step s e).

(** [v] is the id of a clicked edit button for which a list fetched during
    the run holds a note with an equal ([==]) id. *)
Definition located (tr : list event) (v : value) : Prop :=
  exists n o r l x id,
    In (Settled n o) tr /\ Api.request_settle o = Returns r /\
    fetched_notes r = Returns l /\ In x l /\
    matches id x = Returns true /\ v = of_dataset id.

(** ** The editor's part of the state *)

Definition core (s : state) : value * bool * jsstring * form :=
  (editingId s, modal_open s, editorTitle s, noteForm s).

(** A piece of handler code that leaves the editor alone. *)
Definition keeps {A} (c : task state A) : Prop :=
  forall s, core (snd (c s)) = core s.

(** The effect of one event on the editor. *)
Inductive effect (s : state) (e : event) (s' : state) : Prop :=
| effect_none :
    core s' = core s -> effect s e s'
| effect_typed (f : form) :
    e = Input_form f ->
    core s' = (editingId s, modal_open s, editorTitle s, f) ->
    effect s e s'
| effect_closed :
    core s' = (null, false, editorTitle s, form_defaults) ->
    effect s e s'
| effect_new :
    e = Click_new ->
    core s' = (null, true, title_new, form_defaults) ->
    effect s e s'
| effect_edit (n : nat) (o : Api.fetch_outcome) (req : Api.http_request)
    (id : option jsstring) (r : jsobject) (l : list json) (x : json) :
    e = Settled n o ->
    nth_error (inflight s) n = Some (req, Edit_fetched id) ->
    Api.request_settle o = Returns r ->
    fetched_notes r = Returns l -> In x l -> matches id x = Returns true ->
    editingId s' = of_dataset id ->
    ((modal_open s' = true /\ editorTitle s' = title_edit) \/
     (note_conforms x = false /\ modal_open s' = modal_open s /\
      editorTitle s' = editorTitle s)) ->
    effect s e s'.

(** What line 40 computes for a string. *)
Definition shown_preview (c : jsstring) : jsstring :=
  if (150 <? str_length c)%Z then substring c 0 150 ++ ellipsis else c.

End Controller.

End Notes.

(* ================================================================== *)
(** * Sample pages, requests and answers                               *)
(* ================================================================== *)

Module Samples.
Import Js Task Dom Api.

(** The request [api.get(path)] sends. *)
Definition get_request (path : jsstring) : http_request :=
  {| url := utf16 "/api" ++ path;
     options := {| method := GET; headers := [(utf16 "Accept", mime_json)];
                   body := None |} |}.

(** The request [api.post(path)] sends when no data is passed. *)
Definition post_request (path : jsstring) : http_request :=
  {| url := utf16 "/api" ++ path;
     options := {| method := POST; headers := [(utf16 "Accept", mime_json)];
                   body := None |} |}.

(** The toast while it displays [text]. *)
Definition shown (text : string) : Dom.toast :=
  {| toast_text := utf16 text; toast_display := true |}.

(** A string without surrogate code units. *)
Definition no_surrogates (q : jsstring) : bool :=
  forallb (fun c => negb (is_high_surrogate c || is_low_surrogate c)) q.

Definition blank_toast : Dom.toast :=
  {| toast_text := []; toast_display := false |}.
Definition blank_list : container := {| markup := []; children := [] |}.

Definition blank_catalog : Catalog.state :=
  {| Catalog.productsGrid := blank_list; Catalog.cartItems := blank_list;
     Catalog.cartTotal := []; Catalog.toast := blank_toast;
     Catalog.search_value := []; Catalog.inflight := [] |}.

Definition empty_form : Notes.form :=
  {| Notes.title := []; Notes.content := []; Notes.tags := [] |}.

(** A one-line title and tags, a textarea for the content. *)
Definition usual_controls : Notes.form_controls :=
  {| Notes.title_control := Notes.Text_input;
     Notes.content_control := Notes.Textarea;
     Notes.tags_control := Notes.Text_input |}.

Definition blank_notes : Notes.state :=
  {| Notes.editingId := Notes.null; Notes.modal_open := false;
     Notes.editorTitle := []; Notes.noteForm := empty_form;
     Notes.controls := usual_controls;
     Notes.notesList := blank_list; Notes.toast := blank_toast;
     Notes.search_value := []; Notes.adminLink := false;
     Notes.inflight := [] |}.

(** StringToNumber on the strings of decimal digits, NaN elsewhere. *)
Fixpoint digits (acc : Z) (s : jsstring) : option Z :=
  match s with
  | [] => Some acc
  | c :: s' =>
      if in_range 48 57 c then digits (acc * 10 + Z.of_N (c - 48)) s'
      else None
  end.

Definition decimal (s : jsstring) : option Z := digits 0 s.

(** A platform that prints no date. *)
Definition no_date (_ : json) : outcome jsstring := Returns [].

Definition answer (code : Z) (payload : json) : fetch_outcome :=
  Fulfilled {| status := code; json_body := Some payload |}.

Definition payload_with_ok : json :=
  JObj [(utf16 "ok", JBool true); (utf16 "error", JStr (utf16 "Cart is empty"))].

(** The Result of a response that is not JSON, or of an error answer with
    an empty object. *)
Definition bare_failure : jsobject :=
  {| kind := Plain; own := [(k_ok, JBool false)] |}.

Definition checkout_refused : jsobject :=
  {| kind := Plain;
     own := [(utf16 "error", JStr (utf16 "Cart is empty"));
             (k_ok, JBool false)] |}.

Definition groceries : json :=
  JObj [(utf16 "id", JNum 7); (utf16 "title", JStr (utf16 "Groceries"));
        (utf16 "content", JStr (utf16 "Milk, eggs"));
        (utf16 "tags", JStr (utf16 "home"))].

Definition one_note : fetch_outcome :=
  answer 200 (JObj [(utf16 "notes", JArr [groceries])]).

Definition long_note : json :=
  JObj [(utf16 "id", JNum 8); (utf16 "title", JStr (utf16 "Log"));
        (utf16 "content", JStr (repeat 97%N 151))].

Definition seven : option jsstring := Some (utf16 "7").
Definition nine : option jsstring := Some (utf16 "9").

(** The notes page on the sample platform. *)
Definition notes_step : Notes.state -> Notes.event -> Notes.state :=
  Notes.step decimal no_date empty_form.

(** After the script has run and an edit button was clicked. *)
Definition edit_clicked (id : option jsstring) : Notes.state :=
  notes_step (exec Notes.start blank_notes) (Notes.Click_edit id).

(** The editor open on the note [groceries]. *)
Definition editing_groceries : Notes.state :=
  notes_step (edit_clicked seven) (Notes.Settled 2 one_note).

(** The editor open for a new note. *)
Definition composing : Notes.state := notes_step blank_notes Notes.Click_new.

(** A note whose title is an object that hides [toString], and the answer
    that lists it. *)
Definition opaque_note : json :=
  JObj [(utf16 "id", JNum 7);
        (utf16 "title", JObj [(utf16 "toString", JNull)]);
        (utf16 "content", JStr (utf16 "Milk, eggs"))].

Definition opaque_answer : fetch_outcome :=
  answer 200 (JObj [(utf16 "notes", JArr [opaque_note])]).

(** The edit of note 7 answered with [opaque_answer]: on the page as it
    was, and after the new-note button was clicked in between. *)
Definition stranded : Notes.state :=
  notes_step (edit_clicked seven) (Notes.Settled 2 opaque_answer).

Definition mislabelled : Notes.state :=
  notes_step (notes_step (edit_clicked seven) Notes.Click_new)
             (Notes.Settled 2 opaque_answer).

(** The catalog page with a checkout request in flight. *)
Definition checkout_pending : Catalog.state :=
  Catalog.step blank_catalog Catalog.Click_checkout.

Definition refusal : fetch_outcome :=
  answer 400 (JObj [(utf16 "error", JStr (utf16 "Cart is empty"))]).

Definition not_json : fetch_outcome :=
  Fulfilled {| status := 500; json_body := None |}.

End Samples.


(* ================================================================== *)
(** * Views: what a list of items renders to                           *)
(* ================================================================== *)

Module Views.
Import Js Task Dom.

(** The results of [g] on the elements of [l] up to the first element on
    which [g] throws, and that exception. *)
Fixpoint rendered {A B} (g : A -> outcome B) (l : list A)
  : list B * option error :=
  match l with
  | [] => ([], None)
  | x :: l' =>
      match g x with
      | Returns b => let (bs, e) := rendered g l' in (b :: bs, e)
      | Throws e => ([], Some e)
      end
  end.

Definition finished (e : option error) : outcome unit :=
  match e with
  | None => Returns tt
  | Some x => Throws x
  end.

(** Appending elements one by one through the setter [w] of a list
    region. *)
Definition appended {S} (w : (container -> container) -> S -> S)
  (els : list element) (s : S) : S :=
  fold_left (fun s el => w (appendChild el) s) els s.

(** The element of line 54-56 around its markup. *)
Definition product_element (h : jsstring) : element :=
  {| className := utf16 "product"; inner := Html h |}.

(** The element of line 64 around its text. *)
Definition cart_line_element (t : jsstring) : element :=
  {| className := []; inner := Text t |}.

(** A list region showing exactly [els]. *)
Definition showing (els : list element) : container :=
  {| markup := []; children := els |}.

(** Null, a boolean, a number or a string. *)
Definition scalar (j : json) : bool :=
  match j with
  | JArr _ | JObj _ => false
  | _ => true
  end.

(** An object all of whose fields are scalars. *)
Definition flat_object (p : json) : bool :=
  match p with
  | JObj o => forallb (fun kv => scalar (snd kv)) o
  | _ => false
  end.

End Views.

(* ================================================================== *)
(** * Requests as [fetch] receives them, and frames                    *)
(* ================================================================== *)

Module Requests.
Import Js Task Dom Api.

(** A request without a body: only the [Accept] header. *)
Definition bare_request (m : http_method) (path : jsstring) : http_request :=
  {| url := utf16 "/api" ++ path;
     options := {| method := m; headers := [(utf16 "Accept", mime_json)];
                   body := None |} |}.

(** A request whose body is the JSON text of [j]. *)
Definition json_request (m : http_method) (path : jsstring) (j : json)
  : http_request :=
  {| url := utf16 "/api" ++ path;
     options := {| method := m;
                   headers := [(utf16 "Accept", mime_json);
                               (utf16 "Content-Type", mime_json)];
                   body := Some (JsonText j) |} |}.

(** A piece of handler code that leaves the part [proj] of the state as it
    found it. *)
Definition preserves {S A B} (proj : S -> B) (c : task S A) : Prop :=
  forall s, proj (snd (c s)) = proj s.

(** The test of line 115 of dashboard.js on a Result. *)
Definition is_admin (r : jsobject) : bool :=
  truthy (Get r k_ok) && truthy (Get r (utf16 "user"))
  && match GetV (Get r (utf16 "user")) (utf16 "role") with
     | Returns (Some (JStr role)) => str_eqb role (utf16 "admin")
     | _ => false
     end.

(** A code unit the encoding may produce: unreserved, or the percent
    sign. *)
Definition plain (c : code_unit) : Prop :=
  uri_unreserved c = true \/ c = 37%N.

(** The text a form control gets from an optional string field. *)
Definition text_or_empty (v : value) : jsstring :=
  match v with
  | Some (JStr x) => x
  | _ => []
  end.

End Requests.

(* ================================================================== *)
(** * dashboard.js: the class list of the modal                        *)
(* ================================================================== *)

Module ModalView.
Import Js Task.

(** The callbacks [openModal] and [closeModalFn] hand to [setTimeout]. *)
Inductive timer :=
| Add_show        (* line 16: [modal.classList.add('show')], after 10 ms *)
| Add_hidden.     (* line 22: [modal.classList.add('hidden')], after 300 ms *)

(** Whether [#noteEditorModal] carries the classes [hidden] and [show],
    and the timers that were started and have not fired.  No timer is ever
    cleared. *)
Record modal := { hidden : bool; show : bool; timers : list timer }.

(** Lines 15-16 of [openModal]. *)
Definition openModal (m : modal) : modal :=
  {| hidden := false; show := show m; timers := timers m ++ [Add_show] |}.

(** Lines 21-22 of [closeModalFn]. *)
Definition closeModalFn (m : modal) : modal :=
  {| hidden := hidden m; show := false; timers := timers m ++ [Add_hidden] |}.

(** The n-th pending timer fires. *)
Definition fire (n : nat) (m : modal) : modal :=
  match nth_error (timers m) n with
  | None => m
  | Some Add_show =>
      {| hidden := hidden m; show := true;
         timers := remove_nth n (timers m) |}
  | Some Add_hidden =>
      {| hidden := true; show := show m;
         timers := remove_nth n (timers m) |}
  end.

(** The timers of [ns] fire one after the other. *)
Definition fire_all (ns : list nat) (m : modal) : modal :=
  fold_left (fun m n => fire n m) ns m.

End ModalView.

(* ================================================================== *)
(** * api.js: the logout button                                        *)
(* ================================================================== *)

Module Logout.
Import Js Task Dom.

(** The part of the page lines 32-40 touch: whether it has a [#logoutBtn]
    and the [hidden] of that button, whether the click listener is attached,
    the toast, the redirect timers of line 38 that have not fired, the
    address in [location.href] and the logout requests in flight. *)
Record page := {
  button : option bool;
  listening : bool;
  toast : Dom.toast;
  redirects : nat;
  location : jsstring;
  inflight : list Api.http_request }.

(** The [load] listener, lines 33-36. *)
Definition on_load (p : page) : page :=
  match button p with
  | None => p
  | Some _ =>
      {| button := Some false; listening := true; toast := toast p;
         redirects := redirects p; location := location p;
         inflight := inflight p |}
  end.

Inductive event :=
| Click                                   (* click on [#logoutBtn] *)
| Settled (n : nat) (o : Api.fetch_outcome)
| Redirect.                               (* a timer of line 38 fires *)

(** Line 37 up to the [await]. *)
Definition click (p : page) : page :=
  if listening p then
    {| button := button p; listening := listening p; toast := toast p;
       redirects := redirects p; location := location p;
       inflight := inflight p ++ [Api.post (utf16 "/auth/logout") None] |}
  else p.

(** Line 38, with the result of the request. *)
Definition logged_out (r : jsobject) (p : page) : page :=
  if truthy (Get r Api.k_ok) then
    {| button := button p; listening := listening p;
       toast := {| toast_text := utf16 "Вы вышли"; toast_display := true |};
       redirects := S (redirects p); location := location p;
       inflight := inflight p |}
  else p.

Definition step (p : page) (e : event) : page :=
  match e with
  | Click => click p
  | Settled n o =>
      match nth_error (inflight p) n with
      | None => p
      | Some _ =>
          let p1 := {| button := button p; listening := listening p;
                       toast := toast p; redirects := redirects p;
                       location := location p;
                       inflight := remove_nth n (inflight p) |} in
          match Api.request_settle o with
          | Returns r => logged_out r p1
          | Throws _ => p1
          end
      end
  | Redirect =>
      match redirects p with
      | O => p
      | S k =>
          {| button := button p; listening := listening p; toast := toast p;
             redirects := k; location := utf16 "/";
             inflight := inflight p |}
      end
  end.

(** The page after the events of [es], the first of them first. *)
Definition run (es : list event) (p : page) : page := fold_left step es p.

(** A settlement of [es] that brought a Result whose [ok] is true. *)
Definition confirmed (e : event) : bool :=
  match e with
  | Settled _ o =>
      match Api.request_settle o with
      | Returns r => truthy (Get r Api.k_ok)
      | Throws _ => false
      end
  | _ => false
  end.

End Logout.

(* ================================================================== *)
(** * More sample pages and answers                                    *)
(* ================================================================== *)

Module MoreSamples.
Import Js Task Dom Api Views Requests Samples.

Definition widget : json :=
  JObj [(utf16 "id", JNum 7); (utf16 "name", JStr (utf16 "Widget"));
        (utf16 "price", JNum 10)].

Definition gadget : json :=
  JObj [(utf16 "id", JNum 8); (utf16 "name", JStr (utf16 "Gadget"));
        (utf16 "category", JStr (utf16 "tools")); (utf16 "price", JNum 5)].

(** A Result with one field besides [ok]. *)
Definition result_with (k : string) (v : json) : jsobject :=
  {| kind := Plain; own := [(utf16 k, v); (k_ok, JBool true)] |}.

Definition widget_line : json :=
  JObj [(utf16 "product", widget); (utf16 "quantity", JNum 1);
        (utf16 "subtotal", JNum 10)].

Definition cart_of (items : list json) : jsobject :=
  {| kind := Plain;
     own := [(utf16 "items", JArr items); (utf16 "total", JNum 10);
             (k_ok, JBool true)] |}.

(** An item that names no product. *)
Definition orphan_line : json := JObj [(utf16 "quantity", JNum 2)].

(** A note without [content]. *)
Definition stub_note : json :=
  JObj [(utf16 "id", JNum 9); (utf16 "title", JStr (utf16 "Stub"))].

(** A note with a line break in its title and a CR LF in its content. *)
Definition two_lines : json :=
  JObj [(utf16 "id", JNum 7);
        (utf16 "title", JStr (utf16 "To" ++ [Notes.LF] ++ utf16 "do"));
        (utf16 "content",
         JStr (utf16 "a" ++ [Notes.CR; Notes.LF] ++ utf16 "b"))].

Definition two_lines_answer : fetch_outcome :=
  answer 200 (JObj [(utf16 "notes", JArr [two_lines])]).

(** The catalog page with one product search in flight. *)
Definition searching (q : string) : Catalog.state :=
  Catalog.step blank_catalog (Catalog.Input_search (utf16 q)).

(** The catalog page with an add-to-cart request in flight. *)
Definition adding : Catalog.state :=
  Catalog.step blank_catalog (Catalog.Click_add seven).

(** The notes page with one list search in flight. *)
Definition listing (q : string) : Notes.state :=
  notes_step blank_notes (Notes.Input_search (utf16 q)).

(** The editor open on [groceries], its form submitted. *)
Definition submitted : Notes.state :=
  notes_step editing_groceries Notes.Submit.

Definition accepted : fetch_outcome := answer 200 (JObj []).

Definition admin_answer : fetch_outcome :=
  answer 200 (JObj [(utf16 "user",
                     JObj [(utf16 "role", JStr (utf16 "admin"))])]).

(** The modal fully open, then closed, its hide timer pending. *)
Definition closing : ModalView.modal :=
  ModalView.closeModalFn
    {| ModalView.hidden := false; ModalView.show := true;
       ModalView.timers := [] |}.

Definition plain_page (b : option bool) : Logout.page :=
  {| Logout.button := b; Logout.listening := false;
     Logout.toast := blank_toast; Logout.redirects := 0;
     Logout.location := utf16 "/dashboard"; Logout.inflight := [] |}.

End MoreSamples.

(* ================================================================== *)
(** * Properties                                                       *)
(* ================================================================== *)

Module JsFacts.
Import Js.

Lemma str_eqb_eq (a b : jsstring) : str_eqb a b = true <-> a = b.
Proof.
  revert b; induction a as [|x a IH]; intros [|y b]; simpl;
    try (split; discriminate); try tauto.
  rewrite andb_true_iff, N.eqb_eq, IH. split.
  - intros [-> ->]; reflexivity.
  - intros E; injection E; auto.
Qed.

Lemma str_eqb_refl (a : jsstring) : str_eqb a a = true.
Proof. apply str_eqb_eq; reflexivity. Qed.

Lemma str_eqb_neq (a b : jsstring) : a <> b -> str_eqb a b = false.
Proof.
  intros H. destruct (str_eqb a b) eqn:E; [|reflexivity].
  apply str_eqb_eq in E. contradiction.
Qed.

Lemma lookup_set_prop_same (k : jsstring) (v : json) (o : props) :
  lookup k (set_prop k v o) = Some v.
Proof.
  induction o as [|[k' v'] o IH]; simpl.
  - rewrite str_eqb_refl; reflexivity.
  - destruct (str_eqb k k') eqn:E; simpl; rewrite E; auto.
Qed.

Lemma lookup_set_prop_other (k k' : jsstring) (v : json) (o : props) :
  k' <> k -> lookup k' (set_prop k v o) = lookup k' o.
Proof.
  intros Hne. induction o as [|[k1 v1] o IH]; simpl.
  - rewrite (str_eqb_neq _ _ Hne); reflexivity.
  - destruct (str_eqb k k1) eqn:E; simpl.
    + apply str_eqb_eq in E; subst k1.
      rewrite (str_eqb_neq _ _ Hne); reflexivity.
    + rewrite IH; reflexivity.
Qed.

Lemma ToObject_not_null (j : json) :
  j <> JNull -> exists o, ToObject j = Some o /\ own o = own_props j.
Proof.
  destruct j; simpl; try congruence; intros _; eexists; split; reflexivity.
Qed.

Lemma bind_Returns {A B} (a : A) (k : A -> outcome B) :
  bind (Returns a) k = k a.
Proof. reflexivity. Qed.

Lemma substring_0 (s : jsstring) (n : nat) : substring s 0 n = firstn n s.
Proof.
  unfold substring. simpl. rewrite Nat.sub_0_r.
  destruct (Nat.le_gt_cases n (List.length s)) as [H|H].
  - rewrite Nat.min_l by assumption. reflexivity.
  - rewrite Nat.min_r by lia. rewrite !firstn_all2 by lia. reflexivity.
Qed.

Lemma encodeURIComponent_returns (q : jsstring) :
  Samples.no_surrogates q = true -> exists e, encodeURIComponent q = Returns e.
Proof.
  induction q as [|c q IH]; simpl; intros H.
  - eexists; reflexivity.
  - apply andb_true_iff in H. destruct H as [Hc Hq].
    destruct (IH Hq) as [e He].
    apply negb_true_iff, orb_false_iff in Hc. destruct Hc as [Hh Hl].
    rewrite He, Hl, Hh. simpl.
    destruct (uri_unreserved c); eexists; reflexivity.
Qed.

End JsFacts.

(* ------------------------------------------------------------------ *)
(** ** The transport                                                   *)
(* ------------------------------------------------------------------ *)

Module ApiFacts.
Import Js Api JsFacts.

(** What [Object.assign(json, {ok: b})] returns when [json] is not null. *)
Lemma assign_ok (j : json) (b : bool) :
  j <> JNull ->
  exists o, Object_assign j [(k_ok, JBool b)] = Returns (Set_ o k_ok (JBool b))
            /\ own o = own_props j.
Proof.
  intros H. unfold Object_assign.
  destruct (ToObject_not_null j H) as [o [-> Ho]].
  exists o. split; [reflexivity | exact Ho].
Qed.

Lemma res_ok_range (res : response) :
  res_ok res = true <-> (200 <= status res <= 299)%Z.
Proof. unfold res_ok. rewrite andb_true_iff, !Z.leb_le. tauto. Qed.

Lemma request_settle_tag (res : response) :
  request_settle (Fulfilled res)
  = Object_assign (parsed_body res) [(k_ok, JBool (res_ok res))].
Proof. simpl. destruct (res_ok res); reflexivity. Qed.

End ApiFacts.

Section Transport.
Import Js Api JsFacts ApiFacts Samples.

(** C1, as the claim states it, fails: on a network where [fetch] rejects,
    [request] does not resolve to a Result with [ok: false]; it resolves to
    no Result at all. *)
Lemma request_network_failure_no_result :
  (fun _ : http_request => Rejected) (fetch_call (utf16 "/cart") GET None)
  = Rejected /\
  ~ exists r : jsobject,
      request (fun _ => Rejected) (utf16 "/cart") GET None = Returns r /\
      Get r k_ok = Some (JBool false).
Proof.
  split; [reflexivity|].
  intros [r [H _]]. unfold request in H. simpl in H. discriminate.
Qed.

(** C1 (amended): whenever the underlying [fetch] of a call of [request]
    fails, the promise of [request] rejects with the error of [fetch]: the
    failure propagates to the caller and no Result is produced. *)
Theorem request_network_failure_rejects
  (fetch : http_request -> fetch_outcome) (path : jsstring)
  (m : http_method) (data : option request_data) :
  fetch (fetch_call path m data) = Rejected ->
  request fetch path m data = Throws FetchFailed /\
  forall r, request fetch path m data <> Returns r.
Proof.
  intros H. unfold request. rewrite H. simpl.
  split; [reflexivity | discriminate].
Qed.

Lemma request_network_failure_rejects_witness :
  (fun _ : http_request => Rejected) (fetch_call (utf16 "/notes") GET None)
  = Rejected /\
  request (fun _ => Rejected) (utf16 "/notes") GET None = Throws FetchFailed.
Proof.
  split; [reflexivity|].
  apply (request_network_failure_rejects (fun _ => Rejected)
           (utf16 "/notes") GET None).
  reflexivity.
Defined.

(** C2: for every response, the Result [request] returns has [ok] true
    exactly when the status is in 200..299; that [ok] replaces a field [ok]
    of the parsed payload, and every other field of the payload is read from
    the Result unchanged.  A Result is returned for every payload but
    [null]. *)
Theorem request_ok_tag
  (fetch : http_request -> fetch_outcome) (path : jsstring)
  (m : http_method) (data : option request_data) (res : response) :
  fetch (fetch_call path m data) = Fulfilled res ->
  (parsed_body res <> JNull ->
   exists r : jsobject, request fetch path m data = Returns r) /\
  forall r : jsobject,
    request fetch path m data = Returns r ->
    Get r k_ok = Some (JBool (res_ok res)) /\
    (Get r k_ok = Some (JBool true) <-> (200 <= status res <= 299)%Z) /\
    forall k, k <> k_ok -> Get r k = lookup k (own_props (parsed_body res)).
Proof.
  intros Hf. unfold request. rewrite Hf, request_settle_tag.
  split.
  - intros Hnn. destruct (assign_ok _ (res_ok res) Hnn) as [o [Ha _]].
    rewrite Ha. eexists; reflexivity.
  - intros r Hr.
    assert (Hnn : parsed_body res <> JNull).
    { intros E. rewrite E in Hr. discriminate. }
    destruct (assign_ok _ (res_ok res) Hnn) as [o [Ha Ho]].
    rewrite Ha in Hr. injection Hr as <-.
    unfold Get, Set_; simpl. rewrite lookup_set_prop_same.
    split; [reflexivity|]. split.
    + rewrite <- res_ok_range. split; [congruence | intros ->; reflexivity].
    + intros k Hk. rewrite lookup_set_prop_other by assumption.
      rewrite Ho; reflexivity.
Qed.

Lemma request_ok_tag_witness :
  exists r : jsobject,
    request (fun _ => answer 400 payload_with_ok) (utf16 "/checkout") POST None
    = Returns r /\
    Get r k_ok = Some (JBool false) /\
    Get r (utf16 "error") = Some (JStr (utf16 "Cart is empty")).
Proof.
  destruct (request_ok_tag (fun _ => answer 400 payload_with_ok)
              (utf16 "/checkout") POST None
              {| status := 400; json_body := Some payload_with_ok |}
              eq_refl) as [Hex Hall].
  destruct Hex as [r Hr]; [simpl; discriminate|].
  destruct (Hall r Hr) as [Hok [_ Hk]].
  exists r. split; [exact Hr|]. split; [exact Hok|].
  rewrite Hk by (vm_compute; discriminate). reflexivity.
Defined.

(** C3: for every response whose body is not valid JSON, [request] does not
    throw: the payload is the empty object and the Result is the plain
    object whose only field is the transport's [ok]. *)
Theorem request_malformed_body
  (fetch : http_request -> fetch_outcome) (path : jsstring)
  (m : http_method) (data : option request_data) (res : response) :
  fetch (fetch_call path m data) = Fulfilled res ->
  json_body res = None ->
  parsed_body res = JObj [] /\
  request fetch path m data
  = Returns {| kind := Plain; own := [(k_ok, JBool (res_ok res))] |}.
Proof.
  intros Hf Hb. unfold request. rewrite Hf, request_settle_tag.
  unfold parsed_body. rewrite Hb. split; reflexivity.
Qed.

Lemma request_malformed_body_witness :
  request (fun _ => Fulfilled {| status := 502; json_body := None |})
          (utf16 "/cart") GET None
  = Returns bare_failure.
Proof.
  apply (request_malformed_body
           (fun _ => Fulfilled {| status := 502; json_body := None |})
           (utf16 "/cart") GET None
           {| status := 502; json_body := None |}); reflexivity.
Defined.

End Transport.

(* ------------------------------------------------------------------ *)
(** ** Search requests                                                 *)
(* ------------------------------------------------------------------ *)

Section Search.
Import Js Task Api JsFacts Samples.

(** C7: for every non-empty query [q], [loadProducts(q)] and [loadNotes(q)]
    each send one GET request, to [/api/products?q=E] and [/api/notes?q=E]
    where [E] is [encodeURIComponent(q)]; the encoding exists for every
    string without surrogate code units. *)
Theorem search_request_query (q : jsstring)
  (cs : Catalog.state) (ns : Notes.state) :
  q <> [] ->
  (no_surrogates q = true -> exists e, encodeURIComponent q = Returns e) /\
  forall e, encodeURIComponent q = Returns e ->
    Catalog.loadProducts q cs
    = (Returns tt,
       Catalog.set_inflight
         (Catalog.inflight cs
          ++ [(get_request (utf16 "/products" ++ utf16 "?q=" ++ e),
               Catalog.Products_fetched)]) cs) /\
    Notes.loadNotes q ns
    = (Returns tt,
       Notes.set_inflight
         (Notes.inflight ns
          ++ [(get_request (utf16 "/notes" ++ utf16 "?q=" ++ e),
               Notes.Notes_fetched)]) ns).
Proof.
  intros Hq. split; [apply encodeURIComponent_returns|].
  intros e He.
  unfold Catalog.loadProducts, Notes.loadNotes, query_suffix.
  destruct q as [|c q']; [contradiction|].
  rewrite He. split; reflexivity.
Qed.

Lemma search_request_query_witness :
  utf16 "abc" <> [] /\
  encodeURIComponent (utf16 "abc") = Returns (utf16 "abc") /\
  Catalog.inflight (exec (Catalog.loadProducts (utf16 "abc")) blank_catalog)
  = [(get_request (utf16 "/products?q=abc"), Catalog.Products_fetched)] /\
  Notes.inflight (exec (Notes.loadNotes (utf16 "abc")) blank_notes)
  = [(get_request (utf16 "/notes?q=abc"), Notes.Notes_fetched)].
Proof.
  assert (Hne : utf16 "abc" <> []) by (vm_compute; discriminate).
  split; [exact Hne|]. split; [reflexivity|].
  destruct (search_request_query (utf16 "abc") blank_catalog blank_notes Hne)
    as [_ H].
  destruct (H (utf16 "abc") eq_refl) as [Hc Hn].
  unfold exec. rewrite Hc, Hn. split; reflexivity.
Defined.

End Search.

(* ------------------------------------------------------------------ *)
(** ** The catalog controller                                          *)
(* ------------------------------------------------------------------ *)

Module CatalogFacts.
Import Js Task Dom Api Catalog.

Lemma catalog_settled_unfold (s : state) (n : nat) (o : fetch_outcome) :
  step s (Settled n o)
  = match nth_error (inflight s) n with
    | None => s
    | Some (_, k) =>
        let s1 := set_inflight (remove_nth n (inflight s)) s in
        match request_settle o with
        | Returns r => exec (resume k r) s1
        | Throws _ => s1
        end
    end.
Proof.
  unfold step, exec, handle. unfold tbind at 1. unfold read.
  destruct (nth_error (inflight s) n) as [[req k]|]; [|reflexivity].
  unfold tbind at 1. unfold modify at 1.
  unfold tbind at 1. unfold lift at 1.
  destruct (request_settle o); reflexivity.
Qed.

End CatalogFacts.

Section Checkout.
Import Js Task Dom Api Samples.

(** C8: the checkout action posts to [/api/checkout] with no body.  When
    the request settles with a Result whose [ok] is true the handler shows
    the order toast and reloads the cart; with [ok] false it shows the
    Result's [error] when that is a non-empty message, and the generic
    message when [error] is absent (or empty, or null). *)
Theorem checkout_notifies (s : Catalog.state) :
  Catalog.step s Catalog.Click_checkout
  = Catalog.set_inflight
      (Catalog.inflight s
       ++ [(post_request (utf16 "/checkout"), Catalog.Checkout_posted)]) s
  /\
  forall n o req r,
    nth_error (Catalog.inflight s) n = Some (req, Catalog.Checkout_posted) ->
    request_settle o = Returns r ->
    let s1 := Catalog.set_inflight (remove_nth n (Catalog.inflight s)) s in
    (truthy (Get r k_ok) = true ->
     Catalog.step s (Catalog.Settled n o)
     = Catalog.set_inflight
         (Catalog.inflight s1
          ++ [(get_request (utf16 "/cart"), Catalog.Cart_fetched)])
         (Catalog.set_toast (shown "Заказ оформлен") s1))
    /\ (truthy (Get r k_ok) = false ->
        forall msg, msg <> [] -> Get r (utf16 "error") = Some (JStr msg) ->
        Catalog.step s (Catalog.Settled n o)
        = Catalog.set_toast {| toast_text := msg; toast_display := true |} s1)
    /\ (truthy (Get r k_ok) = false ->
        truthy (Get r (utf16 "error")) = false ->
        Catalog.step s (Catalog.Settled n o)
        = Catalog.set_toast (shown "Ошибка") s1).
Proof.
  split; [reflexivity|].
  intros n o req r Hn Hs s1.
  rewrite CatalogFacts.catalog_settled_unfold, Hn, Hs. fold s1. cbv zeta.
  unfold Catalog.resume, Catalog.checkout_done, exec.
  split; [|split].
  - intros ->. reflexivity.
  - intros -> msg Hm He. rewrite He.
    destruct msg as [|c msg]; [contradiction|]. reflexivity.
  - intros -> He. unfold or_else. rewrite He. reflexivity.
Qed.

Lemma checkout_notifies_witness :
  Catalog.toast (Catalog.step checkout_pending (Catalog.Settled 0 refusal))
  = shown "Cart is empty" /\
  Catalog.toast (Catalog.step checkout_pending (Catalog.Settled 0 not_json))
  = shown "Ошибка".
Proof.
  destruct (checkout_notifies checkout_pending) as [_ H].
  split.
  - destruct (H 0 refusal (post_request (utf16 "/checkout")) checkout_refused
                eq_refl eq_refl) as [_ [Hm _]].
    rewrite (Hm eq_refl (utf16 "Cart is empty")); [reflexivity| |reflexivity].
    vm_compute; discriminate.
  - destruct (H 0 not_json (post_request (utf16 "/checkout")) bare_failure
                eq_refl eq_refl) as [_ [_ Hg]].
    rewrite (Hg eq_refl eq_refl). reflexivity.
Defined.

End Checkout.

(* ------------------------------------------------------------------ *)
(** ** Loaders on a Result without the list                            *)
(* ------------------------------------------------------------------ *)

Section EmptyViews.
Import Js Task Dom Api Samples.

Variable StringToNumber : jsstring -> option Z.
Variable toLocaleDateString : json -> outcome jsstring.

(** C9: on a Result without the list field each loader returns normally
    and leaves an empty view: [loadProducts] no product element,
    [loadCart] no cart line and the total text for 0, [loadNotes] the
    placeholder and no card. *)
Theorem loaders_on_missing_fields
  (r : jsobject) (cs : Catalog.state) (ns : Notes.state) :
  (Get r (utf16 "products") = undefined ->
   Catalog.loadProducts_render r cs
   = (Returns tt, Catalog.with_productsGrid (fun _ => blank_list) cs))
  /\ (Get r (utf16 "items") = undefined ->
      Get r (utf16 "total") = undefined ->
      Catalog.loadCart_render r cs
      = (Returns tt,
         Catalog.set_cartTotal (utf16 "Итого: 0₽")
           (Catalog.with_cartItems (fun _ => blank_list) cs)))
  /\ (Get r (utf16 "notes") = undefined ->
      Notes.loadNotes_render StringToNumber toLocaleDateString r ns
      = (Returns tt,
         Notes.with_notesList
           (fun _ => {| markup := Notes.placeholder; children := [] |}) ns)).
Proof.
  split; [|split].
  - intros H. unfold Catalog.loadProducts_render. rewrite H. reflexivity.
  - intros Hi Ht. unfold Catalog.loadCart_render. rewrite Hi, Ht. reflexivity.
  - intros H. unfold Notes.loadNotes_render. rewrite H. reflexivity.
Qed.

End EmptyViews.

Section EmptyViewsSample.
Import Js Task Dom Api Samples.

Lemma loaders_on_missing_fields_witness :
  Catalog.productsGrid (exec (Catalog.loadProducts_render bare_failure)
                             blank_catalog) = blank_list /\
  Catalog.cartItems (exec (Catalog.loadCart_render bare_failure) blank_catalog)
  = blank_list /\
  Catalog.cartTotal (exec (Catalog.loadCart_render bare_failure) blank_catalog)
  = utf16 "Итого: 0₽" /\
  Notes.notesList
    (exec (Notes.loadNotes_render decimal no_date bare_failure) blank_notes)
  = {| markup := Notes.placeholder; children := [] |}.
Proof.
  destruct (loaders_on_missing_fields decimal no_date
              bare_failure blank_catalog blank_notes) as [Hp [Hc Hn]].
  unfold exec.
  rewrite (Hp eq_refl), (Hc eq_refl eq_refl), (Hn eq_refl).
  repeat split; reflexivity.
Defined.

End EmptyViewsSample.

(* ------------------------------------------------------------------ *)
(** ** The note cards                                                  *)
(* ------------------------------------------------------------------ *)

Section NotePreview.
Import Js Task Dom Api JsFacts.

Variable StringToNumber : jsstring -> option Z.
Variable toLocaleDateString : json -> outcome jsstring.

Notation preview := (Notes.preview StringToNumber).
Notation note_card := (Notes.note_card StringToNumber toLocaleDateString).
Notation loadNotes_render :=
  (Notes.loadNotes_render StringToNumber toLocaleDateString).

Lemma preview_of_string (c : jsstring) :
  preview (Some (JStr c)) = Returns (Some (JStr (Notes.shown_preview c))).
Proof.
  unfold Notes.preview, Notes.shown_preview, GetV, Get. simpl.
  destruct (150 <? str_length c)%Z; reflexivity.
Qed.

(** The cards of a list of notes, in order. *)
Lemma forEach_cards (l : list json) (els : list element) (s : Notes.state) :
  Forall2 (fun n el => note_card n = Returns el) l els ->
  forEach (fun n => el <~ lift (note_card n) ;;
                    modify (Notes.with_notesList (appendChild el))) l s
  = (Returns tt,
     Notes.with_notesList
       (fun c => {| markup := markup c; children := children c ++ els |}) s).
Proof.
  intros H. revert s. induction H as [|n el l els Hn _ IH]; intros s.
  - simpl. unfold ret. destruct s as [? ? ? ? ? [m ch] ? ? ? ?].
    unfold Notes.with_notesList; simpl. rewrite app_nil_r. reflexivity.
  - simpl. unfold tbind at 1. unfold tbind at 1. unfold lift. rewrite Hn.
    unfold modify at 1. rewrite IH.
    destruct s as [? ? ? ? ? [m ch] ? ? ? ?].
    unfold Notes.with_notesList, appendChild; simpl.
    rewrite <- app_assoc. reflexivity.
Qed.

(** [loadNotes] renders a non-empty list as the cards of its notes. *)
Lemma loadNotes_render_cards (r : jsobject) (n : json) (l : list json)
  (els : list element) (s : Notes.state) :
  Get r (utf16 "notes") = Some (JArr (n :: l)) ->
  Forall2 (fun n el => note_card n = Returns el) (n :: l) els ->
  loadNotes_render r s
  = (Returns tt,
     Notes.with_notesList (fun _ => {| markup := []; children := els |}) s).
Proof.
  intros Hr Hc. unfold Notes.loadNotes_render. rewrite Hr.
  unfold tbind at 1. unfold modify at 1.
  assert (E : Notes.length_is_zero (Some (JArr (n :: l))) = Returns false).
  { unfold Notes.length_is_zero, GetV, Get. simpl.
    destruct (Pos.of_succ_nat (List.length l)); reflexivity. }
  simpl truthy. cbv iota. rewrite E.
  unfold tbind at 1. unfold lift at 1.
  unfold or_else. simpl truthy. cbv iota. simpl array_receiver.
  unfold tbind at 1. unfold lift at 1.
  rewrite (forEach_cards _ _ _ Hc).
  destruct s; reflexivity.
Qed.

(** C6: for every note whose content is a string, the preview in the card
    [loadNotes] renders is the first 150 code units of the content followed
    by [...] exactly when the content is longer than 150, and the content
    itself otherwise. *)
Theorem preview_truncates (n : json) (c t d i : jsstring) :
  GetV (Some n) (utf16 "content") = Returns (Some (JStr c)) ->
  (v <- GetV (Some n) (utf16 "title") ;; ToString v) = Returns t ->
  (u <- GetV (Some n) (utf16 "updated_at") ;;
   Notes.date_text toLocaleDateString u) = Returns d ->
  (v <- GetV (Some n) (utf16 "id") ;; ToString v) = Returns i ->
  exists p,
    note_card n
    = Returns {| className := utf16 "note-card";
                 inner := Html (Notes.card_html t p d i) |} /\
    (p = firstn 150 c ++ utf16 "..." <-> 150 < List.length c) /\
    (List.length c <= 150 -> p = c).
Proof.
  intros Hc Ht Hd Hi. exists (Notes.shown_preview c). split; [|split].
  - unfold Notes.note_card.
    rewrite Hc, bind_Returns, preview_of_string, bind_Returns.
    rewrite Hd, bind_Returns, Ht, bind_Returns.
    simpl ToString. rewrite bind_Returns, Hi. reflexivity.
  - unfold Notes.shown_preview, str_length. rewrite substring_0.
    destruct (150 <? Z.of_nat (List.length c))%Z eqn:E.
    + apply Z.ltb_lt in E. split; [intros _; lia | reflexivity].
    + apply Z.ltb_ge in E. split; [|lia].
      intros Heq. apply (f_equal (@List.length _)) in Heq.
      rewrite length_app, length_firstn in Heq.
      change (List.length (utf16 "...")) with 3 in Heq. lia.
  - intros Hle. unfold Notes.shown_preview, str_length.
    destruct (150 <? Z.of_nat (List.length c))%Z eqn:E;
      [apply Z.ltb_lt in E; lia | reflexivity].
Qed.

End NotePreview.

Section NotePreviewSample.
Import Js Task Dom Api Samples.

Lemma preview_truncates_witness :
  Notes.note_card decimal no_date long_note
  = Returns {| className := utf16 "note-card";
               inner := Html (Notes.card_html (utf16 "Log")
                                (repeat 97%N 150 ++ utf16 "...")
                                [] (utf16 "8")) |} /\
  Notes.note_card decimal no_date groceries
  = Returns {| className := utf16 "note-card";
               inner := Html (Notes.card_html (utf16 "Groceries")
                                (utf16 "Milk, eggs") [] (utf16 "7")) |}.
Proof.
  split.
  - destruct (preview_truncates decimal no_date long_note (repeat 97%N 151)
                (utf16 "Log") [] (utf16 "8") eq_refl eq_refl eq_refl eq_refl)
      as [p [Hcard [Hlong _]]].
    rewrite Hcard.
    assert (Hp : p = firstn 150 (repeat 97%N 151) ++ utf16 "...").
    { apply Hlong. rewrite repeat_length. lia. }
    rewrite Hp. reflexivity.
  - destruct (preview_truncates decimal no_date groceries (utf16 "Milk, eggs")
                (utf16 "Groceries") [] (utf16 "7")
                eq_refl eq_refl eq_refl eq_refl)
      as [p [Hcard [_ Hshort]]].
    rewrite Hcard. rewrite Hshort; [reflexivity|].
    vm_compute. repeat constructor.
Defined.

End NotePreviewSample.

(* ------------------------------------------------------------------ *)
(** ** The editor                                                      *)
(* ------------------------------------------------------------------ *)

Module NotesFacts.
Import Js Task Dom Api JsFacts Notes.

Lemma keeps_ret {A} (a : A) : keeps (ret a).
Proof. intros s; reflexivity. Qed.

Lemma keeps_lift {A} (o : outcome A) : keeps (lift o).
Proof. intros s; reflexivity. Qed.

Lemma keeps_read {A} (f : state -> A) : keeps (read f).
Proof. intros s; reflexivity. Qed.

Lemma keeps_modify (f : state -> state) :
  (forall s, core (f s) = core s) -> keeps (modify f).
Proof. intros H s; apply H. Qed.

Lemma keeps_bind {A B} (c : task state A) (k : A -> task state B) :
  keeps c -> (forall a, keeps (k a)) -> keeps (tbind c k).
Proof.
  intros Hc Hk s. unfold tbind. specialize (Hc s).
  destruct (c s) as [[a|e] s']; simpl in *.
  - rewrite Hk. exact Hc.
  - exact Hc.
Qed.

Lemma keeps_spawn (c : task state unit) : keeps c -> keeps (spawn c).
Proof. intros H s. apply H. Qed.

Lemma keeps_when (b : bool) (c : task state unit) : keeps c -> keeps (when b c).
Proof. intros H. destruct b; [exact H | apply keeps_ret]. Qed.

Lemma keeps_forEach {A} (f : A -> task state unit) (l : list A) :
  (forall x, keeps (f x)) -> keeps (forEach f l).
Proof.
  intros H. induction l as [|x l IH]; simpl.
  - apply keeps_ret.
  - apply keeps_bind; [apply H | intros _; exact IH].
Qed.

Ltac keeps_step :=
  match goal with
  | |- keeps (ret _) => apply keeps_ret
  | |- keeps (lift _) => apply keeps_lift
  | |- keeps (read _) => apply keeps_read
  | |- keeps (spawn _) => apply keeps_spawn
  | |- keeps (when _ _) => apply keeps_when
  | |- keeps (forEach _ _) => apply keeps_forEach; intros ?
  | |- keeps (tbind _ _) => apply keeps_bind; [|intros ?]
  | |- keeps (modify _) => apply keeps_modify; intros ?; reflexivity
  | |- keeps (if ?b then _ else _) => destruct b
  | |- keeps (match ?x with _ => _ end) => destruct x
  end.

Ltac keeps_all := repeat keeps_step.

Lemma keeps_await (req : http_request) (k : continuation) : keeps (await req k).
Proof. unfold await. keeps_all. Qed.

Lemma keeps_showToast (msg : value) : keeps (showToast msg).
Proof. unfold showToast, Api.showToast. keeps_all. Qed.

Lemma keeps_loadNotes (q : jsstring) : keeps (loadNotes q).
Proof. unfold loadNotes. keeps_all. apply keeps_await. Qed.

Lemma core_fields (s s' : state) :
  core s' = core s ->
  editingId s' = editingId s /\ modal_open s' = modal_open s /\
  editorTitle s' = editorTitle s /\ noteForm s' = noteForm s.
Proof. unfold core. intros H; injection H; auto. Qed.

Lemma titles_differ : title_edit <> title_new.
Proof. vm_compute. discriminate. Qed.

Lemma find_some {A} (p : A -> outcome bool) (l : list A) (x : A) :
  find p l = Returns (Some x) -> In x l /\ p x = Returns true.
Proof.
  induction l as [|y l IH]; simpl; [discriminate|].
  destruct (p y) as [[|]|e] eqn:E; simpl; try discriminate.
  - intros H; injection H as ->. auto.
  - intros H. destruct (IH H). auto.
Qed.

Lemma find_none {A} (p : A -> outcome bool) (l : list A) :
  Forall (fun x => p x = Returns false) l -> find p l = Returns None.
Proof.
  induction 1 as [|x l Hx _ IH]; simpl; [reflexivity|].
  rewrite Hx. exact IH.
Qed.

(** A note the editor can take converts to the three form values. *)
Lemma conforms_fields (x : json) :
  note_conforms x = true ->
  exists t c g,
    (v <- GetV (Some x) (utf16 "title") ;; to_DOMString v) = Returns t /\
    (v <- GetV (Some x) (utf16 "content") ;; to_DOMString v) = Returns c /\
    (v <- GetV (Some x) (utf16 "tags") ;;
     to_DOMString (or_else v (Some (JStr [])))) = Returns g.
Proof.
  unfold note_conforms, form_texts.
  destruct (v <- GetV (Some x) (utf16 "title") ;; to_DOMString v) as [t|];
    [|discriminate].
  destruct (v <- GetV (Some x) (utf16 "content") ;; to_DOMString v) as [c|];
    [|discriminate].
  destruct (v <- GetV (Some x) (utf16 "tags") ;;
            to_DOMString (or_else v (Some (JStr [])))) as [g|];
    [|discriminate].
  intros _. exists t, c, g. repeat split.
Qed.

Section Facts.

Variable StringToNumber : jsstring -> option Z.
Variable toLocaleDateString : json -> outcome jsstring.
Variable form_defaults : form.

Notation step := (Notes.step StringToNumber toLocaleDateString form_defaults).
Notation resume := (Notes.resume StringToNumber toLocaleDateString form_defaults).
Notation edit_fetched := (Notes.edit_fetched StringToNumber).
Notation closeModalFn := (Notes.closeModalFn form_defaults).
Notation matches := (Notes.matches StringToNumber).
Notation effect := (Notes.effect StringToNumber form_defaults).

Lemma keeps_loadNotes_render (r : jsobject) :
  keeps (loadNotes_render StringToNumber toLocaleDateString r).
Proof. unfold loadNotes_render. keeps_all. Qed.

Lemma keeps_delete_done (r : jsobject) : keeps (delete_done r).
Proof.
  unfold delete_done. keeps_all; auto using keeps_showToast, keeps_loadNotes.
Qed.

Lemma keeps_me_fetched (r : jsobject) : keeps (me_fetched r).
Proof. unfold me_fetched. keeps_all. Qed.

Lemma keeps_submit : keeps submit.
Proof. unfold submit. keeps_all; apply keeps_await. Qed.

Lemma keeps_click_del (id : option jsstring) (b : bool) : keeps (click_del id b).
Proof. unfold click_del. keeps_all. apply keeps_await. Qed.

(** What [closeModalFn] leaves. *)
Lemma closeModalFn_effect (s : state) :
  closeModalFn s
  = (Returns tt,
     set_noteForm form_defaults (set_editingId null (set_modal_open false s))).
Proof. reflexivity. Qed.

(** What lines 87-94 can do to the state. *)
Lemma edit_fetched_cases (id : option jsstring) (all : jsobject)
  (s s' : state) :
  exec (edit_fetched id all) s = s' ->
  core s' = core s \/
  exists l x,
    fetched_notes all = Returns l /\ In x l /\ matches id x = Returns true /\
    editingId s' = of_dataset id /\
    ((modal_open s' = true /\ editorTitle s' = title_edit) \/
     (note_conforms x = false /\ modal_open s' = modal_open s /\
      editorTitle s' = editorTitle s)).
Proof.
  unfold exec, Notes.edit_fetched.
  unfold tbind at 1. unfold lift at 1.
  destruct (fetched_notes all) as [l|e]; [|intros <-; left; reflexivity].
  unfold tbind at 1. unfold lift at 1.
  destruct (find _ l) as [[x|]|e] eqn:F; try (intros <-; left; reflexivity).
  destruct (truthy (Some x)) eqn:T; [|intros <-; left; reflexivity].
  apply find_some in F. destruct F as [Hin Hm].
  intros E. right. exists l, x. split; [reflexivity|]. split; [exact Hin|].
  split; [exact Hm|]. revert E.
  unfold tbind, lift, modify.
  destruct (note_conforms x) eqn:C.
  - destruct (conforms_fields x C) as [t [c [g [Ht [Hc Hg]]]]].
    rewrite Ht, Hc, Hg. simpl. intros <-.
    split; [reflexivity|]. left. split; reflexivity.
  - destruct (v <- GetV (Some x) (utf16 "title") ;; to_DOMString v);
      [|simpl; intros <-; auto].
    destruct (v <- GetV (Some x) (utf16 "content") ;; to_DOMString v);
      [|simpl; intros <-; auto].
    destruct (v <- GetV (Some x) (utf16 "tags") ;;
              to_DOMString (or_else v (Some (JStr []))));
      simpl; intros <-; auto.
Qed.

(** What a successful submit leaves: lines 69-71 and 76-78. *)
Lemma submit_done_ok (msg : string) (r : jsobject) (s : state) :
  truthy (Get r k_ok) = true ->
  core (exec (submit_done form_defaults (str msg) r) s)
  = (null, false, editorTitle s, form_defaults).
Proof.
  intros Hok. unfold exec, Notes.submit_done. rewrite Hok. unfold when.
  unfold tbind at 1. unfold showToast, Api.showToast.
  unfold tbind at 1. unfold lift at 1. simpl to_DOMString.
  unfold modify at 1.
  unfold tbind at 1. rewrite closeModalFn_effect.
  unfold tbind at 1. unfold read at 1. unfold spawn.
  cbv beta iota. unfold snd at 1. rewrite keeps_loadNotes. reflexivity.
Qed.

Lemma settled_unfold (s : state) (n : nat) (o : fetch_outcome) :
  step s (Settled n o)
  = match nth_error (inflight s) n with
    | None => s
    | Some (_, k) =>
        let s1 := set_inflight (remove_nth n (inflight s)) s in
        match request_settle o with
        | Returns r => exec (resume k r) s1
        | Throws _ => s1
        end
    end.
Proof.
  unfold Notes.step, exec, Notes.handle. unfold tbind at 1. unfold read.
  destruct (nth_error (inflight s) n) as [[req k]|]; [|reflexivity].
  unfold tbind at 1. unfold modify at 1.
  unfold tbind at 1. unfold lift at 1.
  destruct (request_settle o); reflexivity.
Qed.

Lemma step_effect (s : state) (e : event) : effect s e (step s e).
Proof.
  destruct e as [| | | | |id|id b|v|f|n o].
  - apply effect_new; reflexivity.
  - apply effect_closed; reflexivity.
  - apply effect_closed; reflexivity.
  - apply effect_closed; reflexivity.
  - apply effect_none. apply keeps_submit.
  - apply effect_none. apply keeps_await.
  - apply effect_none. apply keeps_click_del.
  - apply effect_none. unfold Notes.step, exec, Notes.handle.
    unfold tbind, modify, spawn. simpl snd. rewrite keeps_loadNotes.
    reflexivity.
  - apply (effect_typed _ _ _ _ _ f); reflexivity.
  - rewrite settled_unfold.
    destruct (nth_error (inflight s) n) as [[req k]|] eqn:N;
      [|apply effect_none; reflexivity].
    cbv zeta.
    destruct (request_settle o) as [r|err] eqn:R;
      [|apply effect_none; reflexivity].
    set (s1 := set_inflight (remove_nth n (inflight s)) s).
    assert (H1 : core s1 = core s) by reflexivity.
    destruct k as [| | |id| |]; unfold Notes.resume.
    + apply effect_none. unfold exec.
      rewrite keeps_loadNotes_render. exact H1.
    + destruct (truthy (Get r k_ok)) eqn:Hok.
      * apply effect_closed. rewrite submit_done_ok by exact Hok. reflexivity.
      * apply effect_none. unfold exec, Notes.submit_done. rewrite Hok.
        exact H1.
    + destruct (truthy (Get r k_ok)) eqn:Hok.
      * apply effect_closed. rewrite submit_done_ok by exact Hok. reflexivity.
      * apply effect_none. unfold exec, Notes.submit_done. rewrite Hok.
        exact H1.
    + destruct (edit_fetched_cases id r s1 _ eq_refl)
        as [Hk | [l [x [Hl [Hin [Hm [Hid Hcase]]]]]]].
      * apply effect_none. rewrite Hk. exact H1.
      * apply (effect_edit _ _ _ _ _ n o req id r l x); auto.
    + apply effect_none. unfold exec. rewrite keeps_delete_done. exact H1.
    + apply effect_none. unfold exec. rewrite keeps_me_fetched. exact H1.
Qed.

Lemma located_later (e : event) (tr : list event) (v : value) :
  located StringToNumber tr v -> located StringToNumber (e :: tr) v.
Proof.
  intros (n & o & r & l & x & id & Hin & H).
  exists n, o, r, l, x, id. split; [right; exact Hin | exact H].
Qed.

(** The invariant of the editor. *)
Lemma editing_or_null (tr : list event) (s : state) :
  reaches StringToNumber toLocaleDateString form_defaults tr s ->
  editingId s = null \/
  (located StringToNumber tr (editingId s) /\
   (forallb conforms tr = true ->
    modal_open s = true /\ editorTitle s = title_edit)).
Proof.
  induction 1 as [page Hp | tr s e Hr IH].
  - left. unfold exec, Notes.start, tbind, modify, spawn. simpl snd.
    destruct (core_fields _ _ (keeps_loadNotes []
      (set_inflight (inflight (set_editingId null page)
                     ++ [(Api.get (utf16 "/auth/me"), Me_fetched)])
                    (set_editingId null page)))) as [E _].
    unfold await, modify. simpl. exact E.
  - assert (Hkeep :
      editingId (step s e) = editingId s ->
      modal_open (step s e) = modal_open s ->
      editorTitle (step s e) = editorTitle s ->
      editingId (step s e) = null \/
      (located StringToNumber (e :: tr) (editingId (step s e)) /\
       (forallb conforms (e :: tr) = true ->
        modal_open (step s e) = true /\ editorTitle (step s e) = title_edit))).
    { intros E1 E2 E3. rewrite E1, E2, E3.
      destruct IH as [IH | [I1 I2]]; [left; exact IH|].
      right. split; [apply located_later; exact I1|].
      simpl. intros Hc. apply andb_true_iff in Hc. apply I2, Hc. }
    destruct (step_effect s e)
      as [Hk | f He Hk | Hk | He Hk
         | n o req id r l x He Hn Hs Hl Hin Hm Hid Hcase].
    + destruct (core_fields _ _ Hk) as (E1 & E2 & E3 & _). auto.
    + unfold core in Hk. injection Hk as E1 E2 E3 _. auto.
    + unfold core in Hk. injection Hk as E1 _ _ _. left; exact E1.
    + unfold core in Hk. injection Hk as E1 _ _ _. left; exact E1.
    + right. rewrite Hid. split.
      * exists n, o, r, l, x, id. subst e.
        repeat split; auto. left; reflexivity.
      * simpl. intros Hc. apply andb_true_iff in Hc. destruct Hc as [Hc _].
        assert (Cx : note_conforms x = true).
        { subst e. unfold conforms in Hc. rewrite Hs, Hl in Hc.
          rewrite forallb_forall in Hc. apply Hc. exact Hin. }
        destruct Hcase as [[Ho Ht] | [Hbad _]]; [auto | congruence].
Qed.

End Facts.

End NotesFacts.

Section Editor.
Import Js Task Dom Api JsFacts Notes NotesFacts.

Variable StringToNumber : jsstring -> option Z.
Variable toLocaleDateString : json -> outcome jsstring.
Variable form_defaults : form.

Notation step := (Notes.step StringToNumber toLocaleDateString form_defaults).
Notation matches := (Notes.matches StringToNumber).
Notation reaches :=
  (Notes.reaches StringToNumber toLocaleDateString form_defaults).
Notation located := (Notes.located StringToNumber).

(** C4 (amended): in every state the notes controller reaches, a non-null
    [editingId] is the id of a clicked edit button for which a fetched list
    held a note with an equal id; and on every run in which the title,
    content and tags of every fetched note convert to text, it is non-null
    only while the editor is open for editing, and null whenever the editor
    is closed and whenever it is open for a new note. *)
Theorem editing_invariant (tr : list event) (s : state) :
  reaches tr s ->
  (editingId s <> null -> located tr (editingId s)) /\
  (forallb conforms tr = true ->
   (editingId s <> null ->
    modal_open s = true /\ editorTitle s = title_edit) /\
   (modal_open s = false -> editingId s = null) /\
   (modal_open s = true -> editorTitle s = title_new -> editingId s = null)).
Proof.
  intros H. apply editing_or_null in H.
  destruct H as [H | [Hl Ho]].
  - split; [intros Hn; contradiction|].
    intros _. split; [intros Hn; contradiction|]. split; auto.
  - split; [intros _; exact Hl|].
    intros Hc. destruct (Ho Hc) as [Hopen Ht].
    split; [intros _; auto|]. split.
    + intros Hclosed. congruence.
    + intros _ Hn. rewrite Ht in Hn. destruct (titles_differ Hn).
Qed.

(** C5: every step that takes the modal from open to closed leaves
    [editingId] null and the form reset; the close button, the cancel
    button, a click on the overlay and the settlement of a submit with a
    Result whose [ok] is true are such steps. *)
Theorem closing_clears (s : state) :
  (forall e, modal_open s = true -> modal_open (step s e) = false ->
     editingId (step s e) = null /\ noteForm (step s e) = form_defaults) /\
  (forall e, In e [Click_close; Click_cancel; Click_overlay] ->
     modal_open (step s e) = false /\
     editingId (step s e) = null /\ noteForm (step s e) = form_defaults) /\
  (forall n o req k r,
     nth_error (inflight s) n = Some (req, k) ->
     k = Put_done \/ k = Post_done ->
     request_settle o = Returns r -> truthy (Get r k_ok) = true ->
     modal_open (step s (Settled n o)) = false /\
     editingId (step s (Settled n o)) = null /\
     noteForm (step s (Settled n o)) = form_defaults).
Proof.
  split; [|split].
  - intros e Hopen Hclosed.
    destruct (step_effect StringToNumber toLocaleDateString form_defaults s e)
      as [Hk | f He Hk | Hk | He Hk
         | n o req id r l x He Hn Hs Hl Hin Hm Hid Hcase].
    + destruct (core_fields _ _ Hk) as (_ & E2 & _). congruence.
    + unfold core in Hk. injection Hk as _ E2 _ _. congruence.
    + unfold core in Hk. injection Hk as E1 _ _ E4. auto.
    + unfold core in Hk. injection Hk as _ E2 _ _. congruence.
    + destruct Hcase as [[Ho _] | (_ & Ho & _)]; congruence.
  - intros e [<- | [<- | [<- | []]]]; repeat split.
  - intros n o req k r Hn Hk Hs Hok.
    rewrite settled_unfold, Hn, Hs. cbv zeta.
    assert (H : core (exec (Notes.resume StringToNumber toLocaleDateString
                              form_defaults k r)
                           (set_inflight (remove_nth n (inflight s)) s))
                = (null, false, editorTitle s, form_defaults)).
    { destruct Hk as [-> | ->]; simpl Notes.resume;
        rewrite submit_done_ok by exact Hok; reflexivity. }
    unfold core in H. injection H; auto.
Qed.

(** C10: when the list fetched for an edit click holds no note whose id
    equals the clicked id, the settlement changes nothing but the list of
    requests in flight: [editingId], the form, the modal and its title are
    as before. *)
Theorem edit_without_match (s : state) (n : nat) (o : fetch_outcome)
  (req : http_request) (id : option jsstring) (r : jsobject) (l : list json) :
  nth_error (inflight s) n = Some (req, Edit_fetched id) ->
  request_settle o = Returns r ->
  fetched_notes r = Returns l ->
  Forall (fun x => matches id x = Returns false) l ->
  step s (Settled n o) = set_inflight (remove_nth n (inflight s)) s /\
  editingId (step s (Settled n o)) = editingId s /\
  noteForm (step s (Settled n o)) = noteForm s /\
  modal_open (step s (Settled n o)) = modal_open s /\
  editorTitle (step s (Settled n o)) = editorTitle s.
Proof.
  intros Hn Hs Hl Hnone.
  assert (E : step s (Settled n o)
              = set_inflight (remove_nth n (inflight s)) s).
  { rewrite settled_unfold, Hn, Hs. cbv zeta.
    unfold Notes.resume, exec, Notes.edit_fetched. rewrite Hl.
    unfold tbind at 1. unfold lift at 1.
    unfold tbind at 1. unfold lift at 1.
    rewrite (find_none _ _ Hnone). reflexivity. }
  rewrite E. repeat split.
Qed.

End Editor.

Section EditorSample.
Import Js Task Dom Api Notes Samples.

(** C4, as the claim states it, fails: line 89 sets [editingId] before
    lines 90-92 convert the fields of the note, so a title that cannot be
    converted to text leaves the id of the note in [editingId] while the
    modal is closed, or while it is open for a new note. *)
Lemma editing_id_outlives_failed_edit :
  reaches decimal no_date empty_form
    [Settled 2 opaque_answer; Click_edit seven] stranded /\
  editingId stranded = Some (JStr (utf16 "7")) /\
  modal_open stranded = false /\
  reaches decimal no_date empty_form
    [Settled 2 opaque_answer; Click_new; Click_edit seven] mislabelled /\
  editingId mislabelled = Some (JStr (utf16 "7")) /\
  modal_open mislabelled = true /\
  editorTitle mislabelled = title_new /\
  ~ (forall tr s, reaches decimal no_date empty_form tr s ->
       (modal_open s = false -> editingId s = null) /\
       (modal_open s = true -> editorTitle s = title_new ->
        editingId s = null)).
Proof.
  assert (R1 : reaches decimal no_date empty_form
                 [Settled 2 opaque_answer; Click_edit seven] stranded).
  { apply reaches_step. apply reaches_step. apply reaches_start. reflexivity. }
  assert (R2 : reaches decimal no_date empty_form
                 [Settled 2 opaque_answer; Click_new; Click_edit seven]
                 mislabelled).
  { apply reaches_step. apply reaches_step. apply reaches_step.
    apply reaches_start. reflexivity. }
  assert (E1 : editingId stranded = Some (JStr (utf16 "7")))
    by (vm_compute; reflexivity).
  assert (M1 : modal_open stranded = false) by (vm_compute; reflexivity).
  repeat split; try assumption; try (vm_compute; reflexivity).
  intros H. destruct (H _ _ R1) as [H1 _].
  rewrite (H1 M1) in E1. discriminate.
Qed.

Lemma editing_invariant_witness :
  reaches decimal no_date empty_form
    [Settled 2 one_note; Click_edit seven] editing_groceries /\
  forallb conforms [Settled 2 one_note; Click_edit seven] = true /\
  editingId editing_groceries = Some (JStr (utf16 "7")) /\
  modal_open editing_groceries = true /\
  editorTitle editing_groceries = title_edit /\
  located decimal [Settled 2 one_note; Click_edit seven]
    (editingId editing_groceries).
Proof.
  assert (R : reaches decimal no_date empty_form
                [Settled 2 one_note; Click_edit seven] editing_groceries).
  { apply reaches_step. apply reaches_step. apply reaches_start. reflexivity. }
  assert (C : forallb conforms [Settled 2 one_note; Click_edit seven] = true)
    by (vm_compute; reflexivity).
  assert (E : editingId editing_groceries = Some (JStr (utf16 "7")))
    by (vm_compute; reflexivity).
  assert (N : editingId editing_groceries <> null)
    by (rewrite E; vm_compute; discriminate).
  destruct (editing_invariant decimal no_date empty_form _ _ R) as [Hl H].
  destruct (H C) as [Hopen _]. destruct (Hopen N) as [Ho Ht].
  repeat split; auto.
Defined.

Lemma closing_clears_witness :
  modal_open composing = true /\
  modal_open (notes_step composing Click_cancel) = false /\
  editingId (notes_step composing Click_cancel) = null /\
  noteForm (notes_step composing Click_cancel) = empty_form.
Proof.
  split; [reflexivity|]. split; [reflexivity|].
  destruct (closing_clears decimal no_date empty_form composing) as [H _].
  apply (H Click_cancel); reflexivity.
Defined.

Lemma edit_without_match_witness :
  Forall (fun x => matches decimal nine x = Returns false) [groceries] /\
  editingId (notes_step (edit_clicked nine) (Settled 2 one_note)) = null /\
  noteForm (notes_step (edit_clicked nine) (Settled 2 one_note)) = empty_form /\
  modal_open (notes_step (edit_clicked nine) (Settled 2 one_note)) = false.
Proof.
  assert (F : Forall (fun x => matches decimal nine x = Returns false)
                [groceries]).
  { constructor; [vm_compute; reflexivity | constructor]. }
  split; [exact F|].
  destruct (edit_without_match decimal no_date empty_form (edit_clicked nine)
              2 one_note (Api.get (utf16 "/notes")) nine
              {| kind := Plain;
                 own := [(utf16 "notes", JArr [groceries]);
                         (k_ok, JBool true)] |}
              [groceries] eq_refl eq_refl eq_refl F)
    as (_ & E1 & E2 & E3 & _).
  unfold notes_step. rewrite E1, E2, E3. repeat split.
Defined.

End EditorSample.

(* ------------------------------------------------------------------ *)
(** ** Rendering lists                                                 *)
(* ------------------------------------------------------------------ *)

Module ViewFacts.
Import Js Task Dom Views.

Lemma rendered_all {A B} (g : A -> outcome B) (l : list A) (bs : list B) :
  Forall2 (fun x b => g x = Returns b) l bs -> rendered g l = (bs, None).
Proof.
  induction 1 as [|x b l bs Hx _ IH]; simpl; [reflexivity|].
  rewrite Hx, IH. reflexivity.
Qed.

Lemma rendered_stops {A B} (g : A -> outcome B) (l1 l2 : list A) (x : A)
  (bs : list B) (e : error) :
  Forall2 (fun x b => g x = Returns b) l1 bs -> g x = Throws e ->
  rendered g (l1 ++ x :: l2) = (bs, Some e).
Proof.
  intros H Hx. induction H as [|y b l bs Hy _ IH]; simpl.
  - rewrite Hx. reflexivity.
  - rewrite Hy, IH. reflexivity.
Qed.

Lemma rendered_total {A B} (g : A -> outcome B) (l : list A) :
  Forall (fun x => exists b, g x = Returns b) l ->
  exists bs, Forall2 (fun x b => g x = Returns b) l bs.
Proof.
  induction 1 as [|x l [b Hb] _ [bs IH]].
  - exists []. constructor.
  - exists (b :: bs). constructor; assumption.
Qed.

(** A [forEach] whose body builds an element from [g] and appends it. *)
Lemma forEach_rendered {S A B} (w : (container -> container) -> S -> S)
  (g : A -> outcome B) (mk : B -> element) (l : list A) (s : S) :
  forEach (fun x => b <~ lift (g x) ;; modify (w (appendChild (mk b)))) l s
  = (finished (snd (rendered g l)),
     appended w (map mk (fst (rendered g l))) s).
Proof.
  revert s. induction l as [|x l IH]; intros s; simpl.
  - reflexivity.
  - unfold tbind at 1. unfold tbind at 1. unfold lift at 1.
    destruct (g x) as [b|e]; simpl.
    + unfold modify at 1. rewrite IH.
      destruct (rendered g l) as [bs e]. reflexivity.
    + reflexivity.
Qed.

Lemma ToString_scalar (j : json) :
  scalar j = true -> exists t, ToString_json j = Returns t.
Proof.
  destruct j as [|[|]| | | |]; simpl; try discriminate;
    intros _; eexists; reflexivity.
Qed.

Lemma lookup_flat (o : props) (k : jsstring) :
  forallb (fun kv => scalar (snd kv)) o = true ->
  match lookup k o with
  | Some v => scalar v = true
  | None => True
  end.
Proof.
  induction o as [|[k' v] o IH]; simpl; [auto|].
  intros H. apply andb_true_iff in H. destruct H as [Hv Ho].
  destruct (str_eqb k k'); [exact Hv | apply IH, Ho].
Qed.

(** Reading a field of a flat object and converting it to text. *)
Lemma field_text (o : props) (k : jsstring) :
  forallb (fun kv => scalar (snd kv)) o = true ->
  exists t, (v <- GetV (Some (JObj o)) k ;; ToString v) = Returns t.
Proof.
  intros H. pose proof (lookup_flat o k H) as L.
  unfold GetV, Get. simpl. destruct (lookup k o) as [v|].
  - apply ToString_scalar, L.
  - eexists; reflexivity.
Qed.

Lemma field_text_or_empty (o : props) (k : jsstring) :
  forallb (fun kv => scalar (snd kv)) o = true ->
  exists t, (v <- GetV (Some (JObj o)) k ;;
             ToString (or_else v (Some (JStr [])))) = Returns t.
Proof.
  intros H. pose proof (lookup_flat o k H) as L.
  unfold GetV, Get, or_else. simpl. destruct (lookup k o) as [v|].
  - destruct (truthy (Some v)); [apply ToString_scalar, L|].
    eexists; reflexivity.
  - eexists; reflexivity.
Qed.

End ViewFacts.

Module CatalogViews.
Import Js Task Dom Api Views ViewFacts Catalog.

Lemma appended_products (els : list element) (s : state) :
  appended with_productsGrid els s
  = with_productsGrid
      (fun c => {| markup := markup c; children := children c ++ els |}) s.
Proof.
  revert s. induction els as [|el els IH]; intros s.
  - destruct s as [[m ch] ? ? ? ? ?]. unfold appended, with_productsGrid.
    simpl. rewrite app_nil_r. reflexivity.
  - change (appended with_productsGrid (el :: els) s)
      with (appended with_productsGrid els
              (with_productsGrid (appendChild el) s)).
    rewrite IH. unfold with_productsGrid, appendChild. simpl.
    rewrite <- app_assoc. reflexivity.
Qed.

Lemma appended_cart (els : list element) (s : state) :
  appended with_cartItems els s
  = with_cartItems
      (fun c => {| markup := markup c; children := children c ++ els |}) s.
Proof.
  revert s. induction els as [|el els IH]; intros s.
  - destruct s as [? [m ch] ? ? ? ?]. unfold appended, with_cartItems.
    simpl. rewrite app_nil_r. reflexivity.
  - change (appended with_cartItems (el :: els) s)
      with (appended with_cartItems els (with_cartItems (appendChild el) s)).
    rewrite IH. unfold with_cartItems, appendChild. simpl.
    rewrite <- app_assoc. reflexivity.
Qed.

(** [loadProducts] on a Result, whatever its field [products] holds. *)
Lemma loadProducts_render_view (r : jsobject) (s : state) :
  loadProducts_render r s
  = match array_receiver (or_else (Get r (utf16 "products"))
                                  (Some (JArr []))) with
    | Returns l =>
        (finished (snd (rendered product_html l)),
         with_productsGrid
           (fun _ => showing (map product_element
                                (fst (rendered product_html l)))) s)
    | Throws e => (Throws e, with_productsGrid (fun _ => showing []) s)
    end.
Proof.
  unfold loadProducts_render. unfold tbind at 1. unfold modify at 1.
  unfold tbind at 1. unfold lift at 1.
  destruct (array_receiver _) as [l|e]; [|reflexivity].
  change (forEach _ l)
    with (forEach (fun p => h <~ lift (product_html p) ;;
                            modify (with_productsGrid
                                      (appendChild (product_element h)))) l).
  rewrite forEach_rendered, appended_products. reflexivity.
Qed.

(** [loadCart] on a Result, whatever its fields [items] and [total] hold. *)
Lemma loadCart_render_view (r : jsobject) (s : state) :
  loadCart_render r s
  = match array_receiver (or_else (Get r (utf16 "items"))
                                  (Some (JArr []))) with
    | Returns l =>
        let lines := showing (map cart_line_element
                                (fst (rendered cart_line_text l))) in
        match snd (rendered cart_line_text l),
              ToString (or_else (Get r (utf16 "total")) (Some (JNum 0))) with
        | None, Returns t =>
            (Returns tt,
             set_cartTotal (utf16 "Итого: " ++ t ++ utf16 "₽")
               (with_cartItems (fun _ => lines) s))
        | None, Throws e =>
            (Throws e, set_cartTotal [] (with_cartItems (fun _ => lines) s))
        | Some e, _ =>
            (Throws e, set_cartTotal [] (with_cartItems (fun _ => lines) s))
        end
    | Throws e =>
        (Throws e, set_cartTotal [] (with_cartItems (fun _ => showing []) s))
    end.
Proof.
  unfold loadCart_render. unfold tbind at 1. unfold modify at 1.
  unfold tbind at 1. unfold modify at 1.
  unfold tbind at 1. unfold lift at 1.
  destruct (array_receiver _) as [l|e]; [|reflexivity].
  unfold tbind at 1.
  change (forEach _ l)
    with (forEach (fun i => t <~ lift (cart_line_text i) ;;
                            modify (with_cartItems
                                      (appendChild (cart_line_element t)))) l).
  rewrite forEach_rendered, appended_cart.
  destruct (snd (rendered cart_line_text l)) as [e|]; simpl finished.
  - cbv iota. reflexivity.
  - cbv iota. unfold tbind at 1. unfold lift at 1.
    destruct (ToString _) as [t|e]; reflexivity.
Qed.

Lemma product_html_flat (p : json) :
  flat_object p = true -> exists h, product_html p = Returns h.
Proof.
  destruct p as [| | | | |o]; simpl; try discriminate. intros H.
  unfold product_html.
  destruct (field_text o (utf16 "name") H) as [t1 ->].
  destruct (field_text_or_empty o (utf16 "category") H) as [t2 ->].
  destruct (field_text_or_empty o (utf16 "description") H) as [t3 ->].
  destruct (field_text o (utf16 "price") H) as [t4 ->].
  destruct (field_text o (utf16 "id") H) as [t5 ->].
  eexists; reflexivity.
Qed.

End CatalogViews.

Section CatalogRendering.
Import Js Task Dom Api Views ViewFacts CatalogViews Catalog.

(** X1: when every product of the list is an object with scalar fields,
    [loadProducts] returns normally and the grid holds exactly one
    [.product] element per product, in the order of the list. *)
Theorem products_rendered_in_order (r : jsobject) (l : list json) (s : state) :
  Get r (utf16 "products") = Some (JArr l) ->
  forallb flat_object l = true ->
  exists hs,
    Forall2 (fun p h => product_html p = Returns h) l hs /\
    loadProducts_render r s
    = (Returns tt,
       with_productsGrid (fun _ => showing (map product_element hs)) s).
Proof.
  intros Hr Hl.
  destruct (rendered_total product_html l) as [hs Hhs].
  { rewrite forallb_forall in Hl. apply Forall_forall. intros p Hp.
    apply product_html_flat, Hl, Hp. }
  exists hs. split; [exact Hhs|].
  rewrite loadProducts_render_view, Hr. simpl.
  rewrite (rendered_all _ _ _ Hhs). reflexivity.
Qed.

(** X2: the first product whose markup cannot be built (a [null] entry,
    for one) ends [loadProducts] with that exception; the grid keeps the
    elements of the products before it and none after. *)
Theorem products_render_stops_at_throw (r : jsobject) (l1 l2 : list json)
  (x : json) (hs : list jsstring) (e : error) (s : state) :
  Get r (utf16 "products") = Some (JArr (l1 ++ x :: l2)) ->
  Forall2 (fun p h => product_html p = Returns h) l1 hs ->
  product_html x = Throws e ->
  loadProducts_render r s
  = (Throws e,
     with_productsGrid (fun _ => showing (map product_element hs)) s).
Proof.
  intros Hr H1 Hx. rewrite loadProducts_render_view, Hr. simpl.
  rewrite (rendered_stops _ _ _ _ _ _ H1 Hx). reflexivity.
Qed.

(** X3: a [products] or [items] field that is falsy (null, 0, false, the
    empty string) is treated like a missing one; one that is truthy and not
    an array makes the loader throw (it has no [forEach]) after the region
    was emptied, and [loadCart] then leaves the total text empty. *)
Theorem list_field_not_an_array (r : jsobject) (v : json) (s : state) :
  (forall l, v <> JArr l) ->
  (Get r (utf16 "products") = Some v ->
   loadProducts_render r s
   = (if truthy (Some v) then Throws NotAFunction else Returns tt,
      with_productsGrid (fun _ => showing []) s)) /\
  (Get r (utf16 "items") = Some v ->
   Get r (utf16 "total") = undefined ->
   loadCart_render r s
   = (if truthy (Some v) then Throws NotAFunction else Returns tt,
      set_cartTotal (if truthy (Some v) then [] else utf16 "Итого: 0₽")
        (with_cartItems (fun _ => showing []) s))).
Proof.
  intros Hv. split.
  - intros Hr. rewrite loadProducts_render_view, Hr. unfold or_else.
    destruct (truthy (Some v)) eqn:T; [|reflexivity].
    destruct v as [| | | |l|]; simpl in *; try discriminate; try reflexivity.
    destruct (Hv l eq_refl).
  - intros Hr Ht. rewrite loadCart_render_view, Hr, Ht. unfold or_else.
    destruct (truthy (Some v)) eqn:T; [|reflexivity].
    destruct v as [| | | |l|]; simpl in *; try discriminate; try reflexivity.
    destruct (Hv l eq_refl).
Qed.

(** X4: when the text of every cart line can be built, [loadCart] shows
    one line per item in order and the total text [Итого: T₽], where [T] is
    the text of [total], or [0] when [total] is missing or falsy. *)
Theorem cart_rendered_in_order (r : jsobject) (l : list json)
  (ts : list jsstring) (t : jsstring) (s : state) :
  Get r (utf16 "items") = Some (JArr l) ->
  Forall2 (fun i x => cart_line_text i = Returns x) l ts ->
  ToString (or_else (Get r (utf16 "total")) (Some (JNum 0))) = Returns t ->
  loadCart_render r s
  = (Returns tt,
     set_cartTotal (utf16 "Итого: " ++ t ++ utf16 "₽")
       (with_cartItems (fun _ => showing (map cart_line_element ts)) s)) /\
  (truthy (Get r (utf16 "total")) = false -> t = utf16 "0").
Proof.
  intros Hr Hl Ht. split.
  - rewrite loadCart_render_view, Hr.
    change (array_receiver (or_else (Some (JArr l)) (Some (JArr []))))
      with (Returns l).
    cbv iota zeta. rewrite (rendered_all _ _ _ Hl), Ht. reflexivity.
  - intros Hf. unfold or_else in Ht. rewrite Hf in Ht.
    simpl in Ht. injection Ht as <-. reflexivity.
Qed.

(** X5: a cart item without a [product] ends [loadCart] with a TypeError;
    the lines of the items before it stay, and the total text is left
    empty. *)
Theorem cart_line_without_product (r : jsobject) (l1 l2 : list json)
  (i : json) (ts : list jsstring) (s : state) :
  Get r (utf16 "items") = Some (JArr (l1 ++ i :: l2)) ->
  Forall2 (fun i x => cart_line_text i = Returns x) l1 ts ->
  GetV (Some i) (utf16 "product") = Returns undefined ->
  loadCart_render r s
  = (Throws NotAnObject,
     set_cartTotal []
       (with_cartItems (fun _ => showing (map cart_line_element ts)) s)).
Proof.
  intros Hr H1 Hi.
  assert (Hx : cart_line_text i = Throws NotAnObject).
  { unfold cart_line_text. rewrite Hi. reflexivity. }
  rewrite loadCart_render_view, Hr. simpl.
  rewrite (rendered_stops _ _ _ _ _ _ H1 Hx). reflexivity.
Qed.

End CatalogRendering.

(* ------------------------------------------------------------------ *)
(** ** The catalog controller, event by event                          *)
(* ------------------------------------------------------------------ *)

Module CatalogSteps.
Import Js Task Dom Api Views ViewFacts CatalogViews CatalogFacts Catalog Samples.

Lemma remove_nth_beyond {A} (n : nat) (l : list A) :
  nth_error l n = None -> remove_nth n l = l.
Proof.
  revert n. induction l as [|x l IH]; intros [|n]; simpl; try reflexivity.
  - discriminate.
  - intros H. rewrite IH by exact H. reflexivity.
Qed.

Lemma set_inflight_same (s : state) : set_inflight (inflight s) s = s.
Proof. destruct s; reflexivity. Qed.

(** A settlement that throws inside [request] only leaves the list. *)
Lemma settled_thrown (s : state) (n : nat) (o : fetch_outcome) (e : error) :
  request_settle o = Throws e ->
  step s (Settled n o) = set_inflight (remove_nth n (inflight s)) s.
Proof.
  intros H. rewrite catalog_settled_unfold.
  destruct (nth_error (inflight s) n) as [[req k]|] eqn:N.
  - rewrite H. reflexivity.
  - rewrite remove_nth_beyond by exact N. rewrite set_inflight_same.
    reflexivity.
Qed.

Lemma settled_resumed (s : state) (n : nat) (o : fetch_outcome)
  (req : http_request) (k : continuation) (r : jsobject) :
  nth_error (inflight s) n = Some (req, k) ->
  request_settle o = Returns r ->
  step s (Settled n o)
  = exec (resume k r) (set_inflight (remove_nth n (inflight s)) s).
Proof.
  intros N H. rewrite catalog_settled_unfold, N, H. reflexivity.
Qed.

Lemma input_search_unfold (s : state) (v : jsstring) :
  step s (Input_search v)
  = match query_suffix v with
    | Returns x =>
        set_inflight
          (inflight s
           ++ [(Api.get (utf16 "/products" ++ x), Products_fetched)])
          (set_search_value v s)
    | Throws _ => set_search_value v s
    end.
Proof.
  unfold step, exec, handle, loadProducts, tbind, modify, spawn, lift, await.
  simpl. destruct (query_suffix v); reflexivity.
Qed.

Lemma query_suffix_returns (v : jsstring) :
  no_surrogates v = true -> exists x, query_suffix v = Returns x.
Proof.
  intros H. unfold query_suffix. destruct v as [|c v]; [eexists; reflexivity|].
  destruct (JsFacts.encodeURIComponent_returns _ H) as [e ->].
  eexists; reflexivity.
Qed.

Lemma last_default {A} (x : A) (l : list A) (d d' : A) :
  last (x :: l) d = last (x :: l) d'.
Proof.
  revert x. induction l as [|y l IH]; intros x; [reflexivity|].
  change (last (y :: l) d = last (y :: l) d'). apply IH.
Qed.

Lemma showToast_inflight (v : value) (s : state) :
  inflight (snd (showToast v s)) = inflight s.
Proof.
  unfold showToast, Api.showToast, tbind, lift, modify.
  destruct (to_DOMString v); reflexivity.
Qed.

End CatalogSteps.

Section CatalogEvents.
Import Js Task Dom Api Views ViewFacts CatalogViews CatalogFacts CatalogSteps.
Import Catalog Samples.

(** X6: what the grid shows after a product response, and what the cart
    shows after a cart response, depends on that response alone: not on
    what was shown before, on the query the request carried or on the
    search field.  A response that arrives late replaces newer content. *)
Theorem list_view_from_response_alone (s s' : state) (n n' : nat)
  (req req' : http_request) (o : fetch_outcome) (r : jsobject) :
  request_settle o = Returns r ->
  (nth_error (inflight s) n = Some (req, Products_fetched) ->
   nth_error (inflight s') n' = Some (req', Products_fetched) ->
   productsGrid (step s (Settled n o)) = productsGrid (step s' (Settled n' o)))
  /\
  (nth_error (inflight s) n = Some (req, Cart_fetched) ->
   nth_error (inflight s') n' = Some (req', Cart_fetched) ->
   cartItems (step s (Settled n o)) = cartItems (step s' (Settled n' o)) /\
   cartTotal (step s (Settled n o)) = cartTotal (step s' (Settled n' o))).
Proof.
  intros Hr. split; intros N N'.
  - rewrite (settled_resumed _ _ _ _ _ _ N Hr),
      (settled_resumed _ _ _ _ _ _ N' Hr).
    unfold resume, exec. rewrite !loadProducts_render_view.
    destruct (array_receiver _); reflexivity.
  - rewrite (settled_resumed _ _ _ _ _ _ N Hr),
      (settled_resumed _ _ _ _ _ _ N' Hr).
    unfold resume, exec. rewrite !loadCart_render_view.
    destruct (array_receiver _) as [l|e]; [|split; reflexivity].
    cbv zeta. destruct (snd (rendered cart_line_text l));
      [split; reflexivity|].
    destruct (ToString _); split; reflexivity.
Qed.

(** X7: after an add-to-cart or a clear-cart request settles with a Result
    whose [ok] is true, the toast shows the confirmation and exactly one
    [GET /api/cart] has been issued; nothing else changes. *)
Theorem cart_reloaded_after_success (s : state) (n : nat)
  (req : http_request) (k : continuation) (o : fetch_outcome) (r : jsobject) :
  nth_error (inflight s) n = Some (req, k) ->
  request_settle o = Returns r ->
  truthy (Get r k_ok) = true ->
  (k = Add_posted ->
   step s (Settled n o)
   = set_inflight
       (remove_nth n (inflight s)
        ++ [(get_request (utf16 "/cart"), Cart_fetched)])
       (set_toast (shown "Добавлено") s)) /\
  (k = Clear_posted ->
   step s (Settled n o)
   = set_inflight
       (remove_nth n (inflight s)
        ++ [(get_request (utf16 "/cart"), Cart_fetched)])
       (set_toast (shown "Корзина очищена") s)).
Proof.
  intros N Hr Hok.
  rewrite (settled_resumed _ _ _ _ _ _ N Hr).
  split; intros ->; unfold resume, add_done, clear_done, exec;
    rewrite Hok; reflexivity.
Qed.

(** X8: a settlement that fails leaves the catalog page as it was, apart
    from the request leaving the list of those in flight: so when [request]
    itself throws (network failure), whatever was awaiting it, and so when
    add-to-cart or clear-cart gets a Result whose [ok] is false.  No toast
    is shown and the cart is not reloaded. *)
Theorem catalog_failure_is_silent (s : state) (n : nat) (o : fetch_outcome) :
  (forall e, request_settle o = Throws e ->
   step s (Settled n o) = set_inflight (remove_nth n (inflight s)) s) /\
  (forall req k r,
     nth_error (inflight s) n = Some (req, k) ->
     k = Add_posted \/ k = Clear_posted ->
     request_settle o = Returns r -> truthy (Get r k_ok) = false ->
     step s (Settled n o) = set_inflight (remove_nth n (inflight s)) s).
Proof.
  split.
  - intros e H. exact (settled_thrown s n o e H).
  - intros req k r N Hk Hr Hok.
    rewrite (settled_resumed _ _ _ _ _ _ N Hr).
    destruct Hk as [-> | ->]; unfold resume, add_done, clear_done, exec;
      rewrite Hok; reflexivity.
Qed.

(** X9: the search field is not debounced: every input event whose value
    can be encoded issues its own product request, in the order of the
    events, and none is withdrawn. *)
Theorem every_keystroke_requests (vs : list jsstring) (s : state) :
  Forall (fun v => no_surrogates v = true) vs ->
  exists reqs,
    Forall2 (fun v req =>
               exists x, query_suffix v = Returns x /\
                         req = (Api.get (utf16 "/products" ++ x),
                                Products_fetched)) vs reqs /\
    inflight (fold_left step (map Input_search vs) s) = inflight s ++ reqs /\
    search_value (fold_left step (map Input_search vs) s)
    = last vs (search_value s).
Proof.
  intros H. revert s. induction H as [|v vs Hv _ IH]; intros s.
  - exists []. split; [constructor|]. split; [|reflexivity].
    simpl. rewrite app_nil_r. reflexivity.
  - destruct (query_suffix_returns v Hv) as [x Hx].
    destruct (IH (step s (Input_search v))) as [reqs [HF [Hi Hs]]].
    exists ((Api.get (utf16 "/products" ++ x), Products_fetched) :: reqs).
    split; [constructor; [exists x; auto | exact HF]|].
    simpl fold_left. rewrite Hi, Hs, input_search_unfold, Hx. simpl.
    split; [rewrite <- app_assoc; reflexivity|].
    destruct vs as [|w vs]; [reflexivity|]. apply last_default.
Qed.

(** X10: no handler of the catalog withdraws a request: a request leaves
    the list of those in flight only when it settles itself, and every
    event adds at most one request at the end of the list. *)
Theorem catalog_never_cancels (s : state) (e : event) :
  exists added,
    List.length added <= 1 /\
    inflight (step s e)
    = match e with
      | Settled n _ => remove_nth n (inflight s)
      | _ => inflight s
      end ++ added.
Proof.
  destruct e as [id| | |v|n o].
  - eexists [_]. split; [simpl; lia | reflexivity].
  - eexists [_]. split; [simpl; lia | reflexivity].
  - eexists [_]. split; [simpl; lia | reflexivity].
  - rewrite input_search_unfold. destruct (query_suffix v).
    + eexists [_]. split; [simpl; lia | reflexivity].
    + exists []. split; [simpl; lia | simpl; rewrite app_nil_r; reflexivity].
  - destruct (request_settle o) as [r|err] eqn:Hr.
    2:{ rewrite (settled_thrown _ _ _ _ Hr). exists [].
        split; [simpl; lia | simpl; rewrite app_nil_r; reflexivity]. }
    destruct (nth_error (inflight s) n) as [[req k]|] eqn:N.
    2:{ rewrite catalog_settled_unfold, N, (remove_nth_beyond _ _ N).
        exists []. split; [simpl; lia | rewrite app_nil_r; reflexivity]. }
    rewrite (settled_resumed _ _ _ _ _ _ N Hr).
    set (s1 := set_inflight (remove_nth n (inflight s)) s).
    change (remove_nth n (inflight s)) with (inflight s1).
    destruct k; unfold resume, exec.
    + rewrite loadProducts_render_view. exists [].
      split; [simpl; lia|]. rewrite app_nil_r.
      destruct (array_receiver _); reflexivity.
    + rewrite loadCart_render_view. exists [].
      split; [simpl; lia|]. rewrite app_nil_r.
      destruct (array_receiver _) as [l|]; [|reflexivity].
      cbv zeta. destruct (snd (rendered cart_line_text l)); [reflexivity|].
      destruct (ToString _); reflexivity.
    + unfold add_done. destruct (truthy (Get r k_ok)).
      * eexists [_]. split; [simpl; lia | reflexivity].
      * exists []. split; [simpl; lia | rewrite app_nil_r; reflexivity].
    + unfold checkout_done. destruct (truthy (Get r k_ok)).
      * eexists [_]. split; [simpl; lia | reflexivity].
      * exists []. split; [simpl; lia|]. rewrite app_nil_r.
        apply showToast_inflight.
    + unfold clear_done. destruct (truthy (Get r k_ok)).
      * eexists [_]. split; [simpl; lia | reflexivity].
      * exists []. split; [simpl; lia | rewrite app_nil_r; reflexivity].
Qed.

End CatalogEvents.

(* ------------------------------------------------------------------ *)
(** ** The notes controller, event by event                            *)
(* ------------------------------------------------------------------ *)

Module FrameFacts.
Import Js Task Dom Requests.

Section Preserved.
Context {S B : Type} (proj : S -> B).

Lemma preserves_ret {A} (a : A) : preserves proj (ret a).
Proof. intros s; reflexivity. Qed.

Lemma preserves_lift {A} (o : outcome A) : preserves proj (lift o).
Proof. intros s; reflexivity. Qed.

Lemma preserves_read {A} (f : S -> A) : preserves proj (read f).
Proof. intros s; reflexivity. Qed.

Lemma preserves_modify (f : S -> S) :
  (forall s, proj (f s) = proj s) -> preserves proj (modify f).
Proof. intros H s; apply H. Qed.

Lemma preserves_bind {A C} (c : task S A) (k : A -> task S C) :
  preserves proj c -> (forall a, preserves proj (k a)) ->
  preserves proj (tbind c k).
Proof.
  intros Hc Hk s. unfold tbind. specialize (Hc s).
  destruct (c s) as [[a|e] s']; simpl in *.
  - rewrite Hk. exact Hc.
  - exact Hc.
Qed.

Lemma preserves_spawn (c : task S unit) :
  preserves proj c -> preserves proj (spawn c).
Proof. intros H s. apply H. Qed.

Lemma preserves_when (b : bool) (c : task S unit) :
  preserves proj c -> preserves proj (when b c).
Proof. intros H. destruct b; [exact H | apply preserves_ret]. Qed.

Lemma preserves_forEach {A} (f : A -> task S unit) (l : list A) :
  (forall x, preserves proj (f x)) -> preserves proj (forEach f l).
Proof.
  intros H. induction l as [|x l IH]; simpl.
  - apply preserves_ret.
  - apply preserves_bind; [apply H | intros _; exact IH].
Qed.

End Preserved.

Ltac preserves_step :=
  match goal with
  | |- preserves _ (ret _) => apply preserves_ret
  | |- preserves _ (lift _) => apply preserves_lift
  | |- preserves _ (read _) => apply preserves_read
  | |- preserves _ (spawn _) => apply preserves_spawn
  | |- preserves _ (when _ _) => apply preserves_when
  | |- preserves _ (forEach _ _) => apply preserves_forEach; intros ?
  | |- preserves _ (tbind _ _) => apply preserves_bind; [|intros ?]
  | |- preserves _ (modify _) => apply preserves_modify; intros ?; reflexivity
  | |- preserves _ (if ?b then _ else _) => destruct b
  | |- preserves _ (match ?x with _ => _ end) => destruct x
  end.

Ltac preserves_all := repeat preserves_step.

End FrameFacts.

Module NotesSteps.
Import Js Task Dom Api Views ViewFacts Requests FrameFacts Notes NotesFacts.
Import Samples.

Lemma remove_nth_out {A} (n : nat) (l : list A) :
  nth_error l n = None -> remove_nth n l = l.
Proof.
  revert n. induction l as [|x l IH]; intros [|n]; simpl; try reflexivity.
  - discriminate.
  - intros H. rewrite IH by exact H. reflexivity.
Qed.

Lemma notes_set_inflight_same (s : state) : set_inflight (inflight s) s = s.
Proof. destruct s; reflexivity. Qed.

Lemma appended_notes (els : list element) (s : state) :
  appended with_notesList els s
  = with_notesList
      (fun c => {| markup := markup c; children := children c ++ els |}) s.
Proof.
  revert s. induction els as [|el els IH]; intros s.
  - destruct s as [? ? ? ? ? [m ch] ? ? ? ?]. unfold appended, with_notesList.
    simpl. rewrite app_nil_r. reflexivity.
  - change (appended with_notesList (el :: els) s)
      with (appended with_notesList els (with_notesList (appendChild el) s)).
    rewrite IH. unfold with_notesList, appendChild. simpl.
    rewrite <- app_assoc. reflexivity.
Qed.

Lemma find_first {A} (p : A -> outcome bool) (l1 l2 : list A) (x : A) :
  Forall (fun y => p y = Returns false) l1 -> p x = Returns true ->
  find p (l1 ++ x :: l2) = Returns (Some x).
Proof.
  intros H Hx. induction H as [|y l Hy _ IH]; simpl.
  - rewrite Hx. reflexivity.
  - rewrite Hy. exact IH.
Qed.

Lemma showToast_literal (msg : string) (s : state) :
  showToast (str msg) s = (Returns tt, set_toast (shown msg) s).
Proof. reflexivity. Qed.

Lemma loadNotes_unfold (q : jsstring) (s : state) :
  snd (loadNotes q s)
  = match query_suffix q with
    | Returns x =>
        set_inflight
          (inflight s ++ [(Api.get (utf16 "/notes" ++ x), Notes_fetched)]) s
    | Throws _ => s
    end.
Proof.
  unfold loadNotes, tbind, lift, await, modify.
  destruct (query_suffix q); reflexivity.
Qed.

Section Steps.

Variable StringToNumber : jsstring -> option Z.
Variable toLocaleDateString : json -> outcome jsstring.
Variable form_defaults : form.

Notation step := (Notes.step StringToNumber toLocaleDateString form_defaults).
Notation resume := (Notes.resume StringToNumber toLocaleDateString form_defaults).
Notation note_card := (Notes.note_card StringToNumber toLocaleDateString).
Notation loadNotes_render :=
  (Notes.loadNotes_render StringToNumber toLocaleDateString).

Lemma notes_settled_thrown (s : state) (n : nat) (o : fetch_outcome)
  (e : error) :
  request_settle o = Throws e ->
  step s (Settled n o) = set_inflight (remove_nth n (inflight s)) s.
Proof.
  intros H. rewrite settled_unfold.
  destruct (nth_error (inflight s) n) as [[req k]|] eqn:N.
  - rewrite H. reflexivity.
  - rewrite remove_nth_out by exact N. rewrite notes_set_inflight_same.
    reflexivity.
Qed.

Lemma notes_settled_resumed (s : state) (n : nat) (o : fetch_outcome)
  (req : http_request) (k : continuation) (r : jsobject) :
  nth_error (inflight s) n = Some (req, k) ->
  request_settle o = Returns r ->
  step s (Settled n o)
  = exec (resume k r) (set_inflight (remove_nth n (inflight s)) s).
Proof.
  intros N H. rewrite settled_unfold, N, H. reflexivity.
Qed.

(** [loadNotes] on a Result, whatever its field [notes] holds. *)
Lemma loadNotes_render_view (r : jsobject) (s : state) :
  loadNotes_render r s
  = let notes := Get r (utf16 "notes") in
    match (if truthy notes then length_is_zero notes else Returns true) with
    | Returns true =>
        (Returns tt,
         with_notesList
           (fun _ => {| markup := placeholder; children := [] |}) s)
    | Returns false =>
        match array_receiver (or_else notes (Some (JArr []))) with
        | Returns l =>
            (finished (snd (rendered note_card l)),
             with_notesList (fun _ => showing (fst (rendered note_card l))) s)
        | Throws e => (Throws e, with_notesList (fun _ => showing []) s)
        end
    | Throws e => (Throws e, with_notesList (fun _ => showing []) s)
    end.
Proof.
  unfold Notes.loadNotes_render. cbv zeta.
  unfold tbind at 1. unfold modify at 1.
  unfold tbind at 1. unfold lift at 1.
  destruct (if truthy (Get r (utf16 "notes")) then _ else _) as [[|]|e];
    try reflexivity.
  unfold tbind at 1. unfold lift at 1.
  destruct (array_receiver _) as [l|e]; [|reflexivity].
  change (forEach _ l)
    with (forEach (fun n => el <~ lift (note_card n) ;;
                            modify (with_notesList
                                      (appendChild ((fun e => e) el)))) l).
  rewrite forEach_rendered, appended_notes, map_id. reflexivity.
Qed.

End Steps.

End NotesSteps.

Section NotesRendering.
Import Js Task Dom Api Views ViewFacts Requests Notes NotesFacts NotesSteps.

Variable StringToNumber : jsstring -> option Z.
Variable toLocaleDateString : json -> outcome jsstring.
Variable form_defaults : form.

Notation step := (Notes.step StringToNumber toLocaleDateString form_defaults).
Notation note_card := (Notes.note_card StringToNumber toLocaleDateString).
Notation loadNotes_render :=
  (Notes.loadNotes_render StringToNumber toLocaleDateString).

Lemma length_is_zero_array (l : list json) :
  length_is_zero (Some (JArr l))
  = Returns match l with [] => true | _ => false end.
Proof.
  unfold length_is_zero, GetV, Get. simpl. destruct l as [|x l].
  - reflexivity.
  - simpl. destruct (Pos.of_succ_nat (List.length l)); reflexivity.
Qed.

Lemma note_card_flat (n : json) :
  (forall j, scalar j = true -> exists d, toLocaleDateString j = Returns d) ->
  flat_object n = true -> text_field n (utf16 "content") = true ->
  exists el, note_card n = Returns el.
Proof.
  intros Hdate Hflat Hc. destruct n as [| | | | |o]; try discriminate.
  simpl in Hflat. unfold Notes.note_card.
  unfold text_field in Hc.
  destruct (GetV (Some (JObj o)) (utf16 "content")) as [[[| | |c| |]|]|];
    try discriminate.
  rewrite JsFacts.bind_Returns, preview_of_string, JsFacts.bind_Returns.
  assert (Hd : exists d, (u <- GetV (Some (JObj o)) (utf16 "updated_at") ;;
                          date_text toLocaleDateString u) = Returns d).
  { pose proof (lookup_flat o (utf16 "updated_at") Hflat) as L.
    change (GetV (Some (JObj o)) (utf16 "updated_at"))
      with (Returns (lookup (utf16 "updated_at") o)).
    rewrite JsFacts.bind_Returns.
    destruct (lookup (utf16 "updated_at") o) as [u|].
    - unfold date_text. destruct (truthy (Some u));
        [apply Hdate, L | eexists; reflexivity].
    - eexists; reflexivity. }
  destruct Hd as [d ->].
  destruct (field_text o (utf16 "title") Hflat) as [t ->].
  destruct (field_text o (utf16 "id") Hflat) as [i ->].
  eexists; reflexivity.
Qed.

(** X11: for a Result whose [notes] is an array, [loadNotes] shows the
    placeholder when the array is empty; when every note is an object with
    scalar fields and a string [content], it shows one card per note, in
    the order of the array, and no placeholder. *)
Theorem notes_rendered_in_order (r : jsobject) (l : list json) (s : state) :
  (forall j, scalar j = true -> exists d, toLocaleDateString j = Returns d) ->
  Get r (utf16 "notes") = Some (JArr l) ->
  Forall (fun n => flat_object n = true /\
                   text_field n (utf16 "content") = true) l ->
  (l = [] ->
   loadNotes_render r s
   = (Returns tt,
      with_notesList (fun _ => {| markup := placeholder; children := [] |}) s))
  /\
  (l <> [] ->
   exists els,
     Forall2 (fun n el => note_card n = Returns el) l els /\
     loadNotes_render r s
     = (Returns tt, with_notesList (fun _ => showing els) s)).
Proof.
  intros Hdate Hr Hl. rewrite loadNotes_render_view, Hr. cbv zeta.
  simpl truthy. cbv iota. rewrite length_is_zero_array. split.
  - intros ->. reflexivity.
  - intros Hne. destruct l as [|n l]; [contradiction|].
    destruct (rendered_total note_card (n :: l)) as [els Hels].
    { eapply Forall_impl; [|exact Hl]. intros x [Hf Hc].
      apply note_card_flat; assumption. }
    exists els. split; [exact Hels|].
    change (array_receiver (or_else (Some (JArr (n :: l))) (Some (JArr []))))
      with (Returns (n :: l)).
    cbv iota. rewrite (rendered_all _ _ _ Hels). reflexivity.
Qed.

(** X12: a note without [content] ends [loadNotes] with a TypeError (line
    40 reads [length] of undefined); the cards of the notes before it stay,
    the notes after it are not shown, and there is no placeholder. *)
Theorem note_without_content_stops (r : jsobject) (l1 l2 : list json)
  (x : json) (els : list element) (s : state) :
  Get r (utf16 "notes") = Some (JArr (l1 ++ x :: l2)) ->
  Forall2 (fun n el => note_card n = Returns el) l1 els ->
  GetV (Some x) (utf16 "content") = Returns undefined ->
  loadNotes_render r s
  = (Throws NotAnObject, with_notesList (fun _ => showing els) s).
Proof.
  intros Hr H1 Hx.
  assert (Hc : note_card x = Throws NotAnObject).
  { unfold Notes.note_card. rewrite Hx. reflexivity. }
  rewrite loadNotes_render_view, Hr. cbv zeta.
  simpl truthy. cbv iota. rewrite length_is_zero_array.
  destruct (l1 ++ x :: l2) as [|y l] eqn:E.
  { destruct l1; discriminate. }
  change (array_receiver (or_else (Some (JArr (y :: l))) (Some (JArr []))))
    with (Returns (y :: l)).
  cbv iota. rewrite <- E, (rendered_stops _ _ _ _ _ _ H1 Hc). reflexivity.
Qed.

(** X13: what the notes list shows after a list response depends on that
    response alone, not on what was shown before, on the query the request
    carried or on the search field; the editor is not touched. *)
Theorem notes_view_from_response_alone (s s' : state) (n n' : nat)
  (req req' : http_request) (o : fetch_outcome) (r : jsobject) :
  request_settle o = Returns r ->
  nth_error (inflight s) n = Some (req, Notes_fetched) ->
  nth_error (inflight s') n' = Some (req', Notes_fetched) ->
  notesList (step s (Settled n o)) = notesList (step s' (Settled n' o)) /\
  core (step s (Settled n o)) = core s.
Proof.
  intros Hr N N'.
  rewrite (notes_settled_resumed _ _ _ _ _ _ _ _ _ N Hr),
    (notes_settled_resumed _ _ _ _ _ _ _ _ _ N' Hr).
  unfold Notes.resume, exec. split.
  - rewrite !loadNotes_render_view. cbv zeta.
    destruct (if truthy (Get r (utf16 "notes")) then _ else _) as [[|]|e];
      try reflexivity.
    destruct (array_receiver _); reflexivity.
  - rewrite keeps_loadNotes_render. reflexivity.
Qed.

End NotesRendering.

Module EditorSteps.
Import Js Task Dom Api Views ViewFacts Requests FrameFacts Notes NotesFacts.
Import NotesSteps Samples.

Section Steps.

Variable StringToNumber : jsstring -> option Z.
Variable toLocaleDateString : json -> outcome jsstring.
Variable form_defaults : form.

Notation step := (Notes.step StringToNumber toLocaleDateString form_defaults).
Notation matches := (Notes.matches StringToNumber).

(** A text without a line break is kept by either kind of control. *)
Lemma assigned_one_line (k : control) (v : jsstring) :
  one_line v = true -> assigned k v = v.
Proof.
  unfold one_line. destruct k; simpl.
  - induction v as [|c v IH]; simpl; [reflexivity|].
    intros H. apply andb_true_iff in H. destruct H as [Hc Hv].
    apply negb_true_iff in Hc. rewrite Hc, (IH Hv). reflexivity.
  - induction v as [|c v IH]; [reflexivity|].
    intros H. simpl in H. apply andb_true_iff in H. destruct H as [Hc Hv].
    apply negb_true_iff, orb_false_iff in Hc. destruct Hc as [_ Hc].
    simpl. rewrite Hc, (IH Hv). reflexivity.
Qed.


(** Lines 88-93 on the first note of the list whose id matches, when that
    note is an object with string title and content. *)
Lemma edit_fetched_found (id : option jsstring) (all : jsobject)
  (l1 l2 : list json) (fields : props) (t c : jsstring) (s : state) :
  fetched_notes all = Returns (l1 ++ JObj fields :: l2) ->
  Forall (fun y => matches id y = Returns false) l1 ->
  matches id (JObj fields) = Returns true ->
  lookup (utf16 "title") fields = Some (JStr t) ->
  lookup (utf16 "content") fields = Some (JStr c) ->
  match lookup (utf16 "tags") fields with
  | None | Some JNull | Some (JStr _) => True
  | _ => False
  end ->
  exec (Notes.edit_fetched StringToNumber id all) s
  = set_modal_open true
      (set_editorTitle title_edit
         (set_noteForm
            {| title := assigned (title_control (controls s)) t;
               content := assigned (content_control (controls s)) c;
               tags := assigned (tags_control (controls s))
                         (text_or_empty (lookup (utf16 "tags") fields)) |}
            (set_editingId (of_dataset id) s))).
Proof.
  intros Hl H1 Hx Ht Hc Hg.
  unfold exec, Notes.edit_fetched. rewrite Hl.
  unfold tbind at 1. unfold lift at 1.
  rewrite (find_first _ _ _ _ H1 Hx).
  unfold tbind at 1. unfold lift at 1.
  simpl truthy. cbv iota.
  change (GetV (Some (JObj fields)) (utf16 "title"))
    with (Returns (lookup (utf16 "title") fields)).
  change (GetV (Some (JObj fields)) (utf16 "content"))
    with (Returns (lookup (utf16 "content") fields)).
  change (GetV (Some (JObj fields)) (utf16 "tags"))
    with (Returns (lookup (utf16 "tags") fields)).
  rewrite Ht, Hc, !JsFacts.bind_Returns.
  assert (Hg' : to_DOMString (or_else (lookup (utf16 "tags") fields)
                                      (Some (JStr [])))
                = Returns (text_or_empty (lookup (utf16 "tags") fields))).
  { destruct (lookup (utf16 "tags") fields) as [[| | |g| |]|];
      try destruct Hg; try reflexivity.
    destruct g; reflexivity. }
  rewrite Hg'. destruct s; reflexivity.
Qed.

Lemma submit_unfold (s : state) :
  step s Submit
  = if truthy (editingId s) then
      match ToString (editingId s) with
      | Returns path =>
          set_inflight
            (inflight s
             ++ [(Api.put (utf16 "/notes/" ++ path)
                    (Some (JsonData (form_data (noteForm s)))), Put_done)]) s
      | Throws _ => s
      end
    else
      set_inflight
        (inflight s
         ++ [(Api.post (utf16 "/notes")
                (Some (JsonData (form_data (noteForm s)))), Post_done)]) s.
Proof.
  unfold Notes.step, exec, Notes.handle, submit, tbind, read, lift, await,
    modify.
  destruct (truthy (editingId s)); [|reflexivity].
  destruct (ToString (editingId s)); reflexivity.
Qed.

(** What a submit that succeeded leaves, before the list is reloaded. *)
Lemma submit_done_state (msg : string) (r : jsobject) (s : state) :
  truthy (Get r k_ok) = true ->
  exec (submit_done form_defaults (str msg) r) s
  = snd (loadNotes (search_value s)
           (set_noteForm form_defaults
              (set_editingId null
                 (set_modal_open false (set_toast (shown msg) s))))).
Proof.
  intros Hok. unfold exec, submit_done. rewrite Hok. reflexivity.
Qed.

Lemma delete_done_state (r : jsobject) (s : state) :
  truthy (Get r k_ok) = true ->
  exec (delete_done r) s
  = snd (loadNotes (search_value s)
           (set_toast (shown "Заметка удалена") s)).
Proof.
  intros Hok. unfold exec, delete_done. rewrite Hok. reflexivity.
Qed.

Lemma preserves_await {B} (proj : state -> B) (req : http_request)
  (k : continuation) :
  (forall l s, proj (set_inflight l s) = proj s) ->
  preserves proj (await req k).
Proof. intros H s. apply H. Qed.

Lemma admin_showToast (msg : value) : preserves adminLink (showToast msg).
Proof. unfold showToast, Api.showToast. preserves_all. Qed.

Lemma admin_loadNotes (q : jsstring) : preserves adminLink (loadNotes q).
Proof. unfold loadNotes, await. preserves_all. Qed.

Lemma admin_loadNotes_render (r : jsobject) :
  preserves adminLink
    (loadNotes_render StringToNumber toLocaleDateString r).
Proof. unfold loadNotes_render. preserves_all. Qed.

Lemma admin_edit_fetched (id : option jsstring) (r : jsobject) :
  preserves adminLink (Notes.edit_fetched StringToNumber id r).
Proof. unfold Notes.edit_fetched, openModal. preserves_all. Qed.

Lemma admin_submit_done (msg : value) (r : jsobject) :
  preserves adminLink (submit_done form_defaults msg r).
Proof.
  unfold submit_done, closeModalFn. preserves_all;
    auto using admin_showToast, admin_loadNotes.
Qed.

Lemma admin_delete_done (r : jsobject) : preserves adminLink (delete_done r).
Proof.
  unfold delete_done. preserves_all; auto using admin_showToast, admin_loadNotes.
Qed.

Lemma inflight_loadNotes_render (r : jsobject) :
  preserves inflight (loadNotes_render StringToNumber toLocaleDateString r).
Proof. unfold loadNotes_render. preserves_all. Qed.

Lemma inflight_edit_fetched (id : option jsstring) (r : jsobject) :
  preserves inflight (Notes.edit_fetched StringToNumber id r).
Proof. unfold Notes.edit_fetched, openModal. preserves_all. Qed.

Lemma inflight_me_fetched (r : jsobject) : preserves inflight (me_fetched r).
Proof. unfold me_fetched. preserves_all. Qed.

(** Lines 115-117: when the link is revealed. *)
Lemma me_fetched_admin (r : jsobject) (s : state) :
  adminLink (exec (me_fetched r) s)
  = adminLink s
    || (truthy (Get r k_ok) && truthy (Get r (utf16 "user"))
        && match GetV (Get r (utf16 "user")) (utf16 "role") with
           | Returns (Some (JStr role)) => str_eqb role (utf16 "admin")
           | _ => false
           end).
Proof.
  unfold exec, me_fetched. cbv zeta.
  destruct (truthy (Get r k_ok) && truthy (Get r (utf16 "user")));
    [|simpl; rewrite orb_false_r; reflexivity].
  unfold tbind, lift. rewrite andb_true_l.
  destruct (GetV (Get r (utf16 "user")) (utf16 "role")) as [[[| | |role| |]|]|];
    try (simpl; rewrite orb_false_r; reflexivity).
  destruct (str_eqb role (utf16 "admin")); simpl.
  - rewrite orb_true_r. reflexivity.
  - rewrite orb_false_r. reflexivity.
Qed.

End Steps.

End EditorSteps.

Section EditorEvents.
Import Js Task Dom Api Views ViewFacts Requests FrameFacts Notes NotesFacts.
Import NotesSteps EditorSteps Samples.

Variable StringToNumber : jsstring -> option Z.
Variable toLocaleDateString : json -> outcome jsstring.
Variable form_defaults : form.

Notation step := (Notes.step StringToNumber toLocaleDateString form_defaults).
Notation matches := (Notes.matches StringToNumber).

(** X14: when the list fetched for an edit click holds a note object
    with a string title and content whose id equals the clicked id, the
    first such note fills the form: each control holds the text assigned to
    it as a control of its kind keeps it (a one-line input without its line
    breaks, a textarea with CR LF and CR turned into LF), the tags being
    those of the note or empty when the note has none; [editingId] becomes
    the clicked id and the modal opens under the edit title, whatever the
    editor showed before.  Texts without a line break arrive unchanged. *)
Theorem edit_populates_form (s : state) (n : nat) (o : fetch_outcome)
  (req : http_request) (id : option jsstring) (r : jsobject)
  (l1 l2 : list json) (fields : props) (t c : jsstring) :
  nth_error (inflight s) n = Some (req, Edit_fetched id) ->
  request_settle o = Returns r ->
  fetched_notes r = Returns (l1 ++ JObj fields :: l2) ->
  Forall (fun y => matches id y = Returns false) l1 ->
  matches id (JObj fields) = Returns true ->
  lookup (utf16 "title") fields = Some (JStr t) ->
  lookup (utf16 "content") fields = Some (JStr c) ->
  match lookup (utf16 "tags") fields with
  | None | Some JNull | Some (JStr _) => True
  | _ => False
  end ->
  let g := text_or_empty (lookup (utf16 "tags") fields) in
  step s (Settled n o)
  = set_modal_open true
      (set_editorTitle title_edit
         (set_noteForm
            {| title := assigned (title_control (controls s)) t;
               content := assigned (content_control (controls s)) c;
               tags := assigned (tags_control (controls s)) g |}
            (set_editingId (of_dataset id)
               (set_inflight (remove_nth n (inflight s)) s)))) /\
  (one_line t = true -> one_line c = true -> one_line g = true ->
   noteForm (step s (Settled n o)) = {| title := t; content := c; tags := g |}).
Proof.
  intros N Hr Hl H1 Hx Ht Hc Hg g.
  rewrite (notes_settled_resumed _ _ _ _ _ _ _ _ _ N Hr).
  unfold Notes.resume.
  rewrite (edit_fetched_found StringToNumber id r l1 l2 fields t c)
    by assumption.
  split; [reflexivity|].
  intros Lt Lc Lg. simpl noteForm. simpl controls. fold g.
  rewrite !assigned_one_line by assumption. reflexivity.
Qed.

(** X15: a submit is an update or a creation by the truthiness of
    [editingId]: with a non-empty id it sends [PUT /api/notes/<id>], with
    [null] (and with an empty id) it sends [POST /api/notes]; the body is
    the JSON text of the three form values either way. *)
Theorem submit_routes (s : state) :
  (forall id, id <> [] -> editingId s = Some (JStr id) ->
   step s Submit
   = set_inflight
       (inflight s
        ++ [(json_request PUT (utf16 "/notes/" ++ id) (form_data (noteForm s)),
             Put_done)]) s) /\
  (truthy (editingId s) = false ->
   step s Submit
   = set_inflight
       (inflight s
        ++ [(json_request POST (utf16 "/notes") (form_data (noteForm s)),
             Post_done)]) s).
Proof.
  split.
  - intros id Hid He. rewrite submit_unfold, He.
    destruct id as [|ch id]; [contradiction|]. reflexivity.
  - intros He. rewrite submit_unfold, He. reflexivity.
Qed.


(** X17: after the new-note button a submit always creates: it sends
    [POST /api/notes] with the reset form, whatever note was being edited
    before the click. *)
Theorem new_then_submit (s : state) :
  step (step s Click_new) Submit
  = set_inflight
      (inflight s
       ++ [(json_request POST (utf16 "/notes") (form_data form_defaults),
            Post_done)])
      (step s Click_new).
Proof. rewrite submit_unfold. reflexivity. Qed.

(** X18: when an update, a creation or a deletion settles with a Result
    whose [ok] is true, the toast names the operation and the list is
    fetched again with the query the search field holds at that moment;
    after an update or a creation the modal is also closed, [editingId]
    null and the form reset. *)
Theorem note_mutation_reloads (s : state) (n : nat) (o : fetch_outcome)
  (req : http_request) (k : continuation) (r : jsobject) (x : jsstring) :
  nth_error (inflight s) n = Some (req, k) ->
  request_settle o = Returns r ->
  truthy (Get r k_ok) = true ->
  query_suffix (search_value s) = Returns x ->
  let reload :=
    remove_nth n (inflight s)
    ++ [(bare_request GET (utf16 "/notes" ++ x), Notes_fetched)] in
  let closed (msg : string) :=
    set_inflight reload
      (set_noteForm form_defaults
         (set_editingId null
            (set_modal_open false (set_toast (shown msg) s)))) in
  (k = Put_done -> step s (Settled n o) = closed "Заметка обновлена"%string) /\
  (k = Post_done -> step s (Settled n o) = closed "Заметка создана"%string) /\
  (k = Delete_done ->
   step s (Settled n o)
   = set_inflight reload (set_toast (shown "Заметка удалена") s)).
Proof.
  intros N Hr Hok Hq reload closed.
  rewrite (notes_settled_resumed _ _ _ _ _ _ _ _ _ N Hr).
  split; [|split]; intros ->; unfold Notes.resume.
  - rewrite submit_done_state by exact Hok.
    rewrite loadNotes_unfold. simpl search_value. rewrite Hq. reflexivity.
  - rewrite submit_done_state by exact Hok.
    rewrite loadNotes_unfold. simpl search_value. rewrite Hq. reflexivity.
  - rewrite delete_done_state by exact Hok.
    rewrite loadNotes_unfold. simpl search_value. rewrite Hq. reflexivity.
Qed.

(** X19: a settlement that fails leaves the notes page as it was, apart
    from the request leaving the list of those in flight: so when
    [request] itself throws (network failure), whatever was awaiting it,
    and so when an update, a creation or a deletion gets a Result whose
    [ok] is false.  The modal stays open with what the user typed, and no
    toast is shown. *)
Theorem notes_failure_is_silent (s : state) (n : nat) (o : fetch_outcome) :
  (forall e, request_settle o = Throws e ->
   step s (Settled n o) = set_inflight (remove_nth n (inflight s)) s) /\
  (forall req k r,
     nth_error (inflight s) n = Some (req, k) ->
     k = Put_done \/ k = Post_done \/ k = Delete_done ->
     request_settle o = Returns r -> truthy (Get r k_ok) = false ->
     step s (Settled n o) = set_inflight (remove_nth n (inflight s)) s).
Proof.
  split.
  - intros e H. apply (notes_settled_thrown _ _ _ s n o e H).
  - intros req k r N Hk Hr Hok.
    rewrite (notes_settled_resumed _ _ _ _ _ _ _ _ _ N Hr).
    destruct Hk as [-> | [-> | ->]];
      unfold Notes.resume, submit_done, delete_done, exec;
      rewrite Hok; reflexivity.
Qed.

End EditorEvents.

Module AdminFacts.
Import Js Task Dom Api Views ViewFacts Requests FrameFacts Notes NotesFacts.
Import NotesSteps EditorSteps Samples.

Section Admin.

Variable StringToNumber : jsstring -> option Z.
Variable toLocaleDateString : json -> outcome jsstring.
Variable form_defaults : form.

Notation step := (Notes.step StringToNumber toLocaleDateString form_defaults).

(** The link after one event. *)
Lemma admin_step (s : state) (e : event) :
  adminLink (step s e)
  = adminLink s
    || match e with
       | Settled n o =>
           match nth_error (inflight s) n, request_settle o with
           | Some (_, Me_fetched), Returns r => is_admin r
           | _, _ => false
           end
       | _ => false
       end.
Proof.
  destruct e as [| | | | |id|id b|v|f|n o];
    try (rewrite orb_false_r; reflexivity).
  - rewrite submit_unfold, orb_false_r.
    destruct (truthy (editingId s)); [|reflexivity].
    destruct (ToString (editingId s)); reflexivity.
  - rewrite orb_false_r. destruct b; [|reflexivity]. destruct id; reflexivity.
  - rewrite orb_false_r. unfold Notes.step, exec, Notes.handle.
    unfold tbind, modify, spawn. simpl snd. rewrite admin_loadNotes.
    reflexivity.
  - rewrite settled_unfold.
    destruct (nth_error (inflight s) n) as [[req k]|];
      [|rewrite orb_false_r; reflexivity].
    cbv zeta.
    destruct (request_settle o) as [r|err].
    2:{ destruct k; rewrite orb_false_r; reflexivity. }
    set (s1 := set_inflight (remove_nth n (inflight s)) s).
    change (adminLink s) with (adminLink s1).
    destruct k as [| | |id| |]; unfold Notes.resume, exec.
    + rewrite admin_loadNotes_render, orb_false_r. reflexivity.
    + rewrite admin_submit_done, orb_false_r. reflexivity.
    + rewrite admin_submit_done, orb_false_r. reflexivity.
    + rewrite admin_edit_fetched, orb_false_r. reflexivity.
    + rewrite admin_delete_done, orb_false_r. reflexivity.
    + apply me_fetched_admin.
Qed.

Ltac use_reload :=
  match goal with
  | reload : forall q s0, exists added, _ |- context [loadNotes ?q ?s0] =>
      let a := fresh "a" in
      let Ha := fresh "Ha" in
      let Hi := fresh "Hi" in
      destruct (reload q s0) as [a [Ha Hi]];
      exists a; split; [exact Ha | exact Hi]
  end.

(** The requests in flight after one event. *)
Lemma inflight_step (s : state) (e : event) :
  exists added,
    List.length added <= 1 /\
    inflight (step s e)
    = match e with
      | Settled n _ => remove_nth n (inflight s)
      | _ => inflight s
      end ++ added.
Proof.
  assert (none : forall l : list (http_request * continuation),
            exists added, List.length added <= 1 /\ l = l ++ added).
  { intros l. exists []. split; [simpl; lia | rewrite app_nil_r; reflexivity]. }
  assert (one : forall (l : list (http_request * continuation)) x,
            exists added, List.length added <= 1 /\ l ++ [x] = l ++ added).
  { intros l x. exists [x]. split; [simpl; lia | reflexivity]. }
  assert (reload : forall q s0,
            exists added, List.length added <= 1 /\
              inflight (snd (loadNotes q s0)) = inflight s0 ++ added).
  { intros q s0. rewrite loadNotes_unfold.
    destruct (query_suffix q); [apply one | apply none]. }
  destruct e as [| | | | |id|id b|v|f|n o];
    try apply none; try apply one.
  - rewrite submit_unfold. destruct (truthy (editingId s)); [|apply one].
    destruct (ToString (editingId s)); [apply one | apply none].
  - destruct b; [|apply none]. destruct id; apply one.
  - apply (reload v (set_search_value v s)).
  - destruct (request_settle o) as [r|err] eqn:Hr.
    2:{ rewrite (notes_settled_thrown _ _ _ _ _ _ _ Hr). apply none. }
    destruct (nth_error (inflight s) n) as [[req k]|] eqn:N.
    2:{ rewrite settled_unfold, N, (remove_nth_out _ _ N). apply none. }
    rewrite (notes_settled_resumed _ _ _ _ _ _ _ _ _ N Hr).
    set (s1 := set_inflight (remove_nth n (inflight s)) s).
    change (remove_nth n (inflight s)) with (inflight s1).
    destruct k as [| | |id| |]; unfold Notes.resume, exec.
    + rewrite inflight_loadNotes_render. apply none.
    + destruct (truthy (Get r k_ok)) eqn:Hok.
      * fold (exec (submit_done form_defaults (str "Заметка обновлена") r) s1).
        rewrite submit_done_state by exact Hok. use_reload.
      * unfold submit_done. rewrite Hok. apply none.
    + destruct (truthy (Get r k_ok)) eqn:Hok.
      * fold (exec (submit_done form_defaults (str "Заметка создана") r) s1).
        rewrite submit_done_state by exact Hok. use_reload.
      * unfold submit_done. rewrite Hok. apply none.
    + rewrite inflight_edit_fetched. apply none.
    + destruct (truthy (Get r k_ok)) eqn:Hok.
      * fold (exec (delete_done r) s1).
        rewrite delete_done_state by exact Hok. use_reload.
      * unfold delete_done. rewrite Hok. apply none.
    + rewrite inflight_me_fetched. apply none.
Qed.

End Admin.

End AdminFacts.

Section AdminLink.
Import Js Task Dom Api Requests Notes AdminFacts.

Variable StringToNumber : jsstring -> option Z.
Variable toLocaleDateString : json -> outcome jsstring.
Variable form_defaults : form.

Notation step := (Notes.step StringToNumber toLocaleDateString form_defaults).

(** X20: the admin link is a display-only gate on the answer of
    [/auth/me]: an event reveals it exactly when it settles that request
    with a Result whose [ok] is true and whose [user.role] is the string
    [admin]; no event hides it again. *)
Theorem admin_link_only_for_admin (s : state) (e : event) :
  (adminLink s = true -> adminLink (step s e) = true) /\
  (adminLink s = false ->
   (adminLink (step s e) = true <->
    exists n o req r user,
      e = Settled n o /\
      nth_error (inflight s) n = Some (req, Me_fetched) /\
      request_settle o = Returns r /\
      truthy (Get r k_ok) = true /\
      Get r (utf16 "user") = Some user /\ truthy (Some user) = true /\
      GetV (Some user) (utf16 "role") = Returns (Some (JStr (utf16 "admin"))))).
Proof.
  rewrite admin_step. split.
  - intros ->. reflexivity.
  - intros ->. rewrite orb_false_l. split.
    + destruct e as [| | | | |id|id b|v|f|n o]; try discriminate.
      destruct (nth_error (inflight s) n) as [[req [| | |id| |]]|] eqn:N;
        try discriminate.
      destruct (request_settle o) as [r|err] eqn:Hr; try discriminate.
      unfold is_admin. intros H.
      apply andb_true_iff in H. destruct H as [H Hrole].
      apply andb_true_iff in H. destruct H as [Hok Hu].
      destruct (Get r (utf16 "user")) as [user|] eqn:U; [|discriminate].
      exists n, o, req, r, user. repeat split; auto.
      destruct (GetV (Some user) (utf16 "role")) as [[[| | |role| |]|]|];
        try discriminate.
      apply JsFacts.str_eqb_eq in Hrole. rewrite Hrole. reflexivity.
    + intros (n & o & req & r & user & -> & N & Hr & Hok & U & Hu & Hrole).
      rewrite N, Hr. unfold is_admin. rewrite Hok, U, Hu, Hrole.
      reflexivity.
Qed.

(** X21: no handler of the notes page withdraws a request: a request
    leaves the list of those in flight only when it settles itself, and
    every event adds at most one request at the end of the list. *)
Theorem notes_never_cancels (s : state) (e : event) :
  exists added,
    List.length added <= 1 /\
    inflight (step s e)
    = match e with
      | Settled n _ => remove_nth n (inflight s)
      | _ => inflight s
      end ++ added.
Proof. apply inflight_step. Qed.

End AdminLink.

(* ------------------------------------------------------------------ *)
(** ** The query encoding                                              *)
(* ------------------------------------------------------------------ *)

Module UriFacts.
Import Js Samples Requests.

Lemma encode_cons (c : code_unit) (rest : jsstring) :
  encodeURIComponent (c :: rest)
  = if uri_unreserved c then
      r <- encodeURIComponent rest ;; Returns (c :: r)
    else if is_low_surrogate c then Throws MalformedURI
    else if is_high_surrogate c then
      match rest with
      | c2 :: rest2 =>
          if is_low_surrogate c2 then
            let cp := ((c - 55296) * 1024 + (c2 - 56320) + 65536)%N in
            r <- encodeURIComponent rest2 ;;
            Returns (flat_map percent (utf8 cp) ++ r)
          else Throws MalformedURI
      | [] => Throws MalformedURI
      end
    else
      r <- encodeURIComponent rest ;;
      Returns (flat_map percent (utf8 c) ++ r).
Proof. reflexivity. Qed.

Lemma in_range_spec (lo hi c : N) :
  in_range lo hi c = true <-> (lo <= c <= hi)%N.
Proof. unfold in_range. rewrite andb_true_iff, !N.leb_le. tauto. Qed.

Lemma hex_digit_unreserved (d : N) :
  (d < 16)%N -> uri_unreserved (hex_digit d) = true.
Proof.
  intros H. unfold hex_digit, uri_unreserved.
  destruct (d <? 10)%N eqn:E.
  - apply N.ltb_lt in E.
    assert (R : in_range 48 57 (48 + d) = true)
      by (apply in_range_spec; lia).
    rewrite R, orb_true_r. reflexivity.
  - apply N.ltb_ge in E.
    assert (R : in_range 65 90 (55 + d) = true)
      by (apply in_range_spec; lia).
    rewrite R. reflexivity.
Qed.

Lemma percent_plain (b : N) : (b < 256)%N -> Forall plain (percent b).
Proof.
  intros H. unfold percent.
  pose proof (N.Div0.div_lt_upper_bound b 16 16).
  pose proof (N.mod_upper_bound b 16).
  constructor; [right; reflexivity|].
  constructor; [left; apply hex_digit_unreserved; lia|].
  constructor; [left; apply hex_digit_unreserved; lia|].
  constructor.
Qed.

Lemma utf8_bytes (cp : N) :
  (cp < 1114112)%N -> Forall (fun b => (b < 256)%N) (utf8 cp).
Proof.
  intros H. unfold utf8.
  pose proof (N.mod_upper_bound cp 64).
  pose proof (N.mod_upper_bound (cp / 64) 64).
  pose proof (N.mod_upper_bound (cp / 4096) 64).
  destruct (cp <? 128)%N eqn:E1; [apply N.ltb_lt in E1; repeat constructor; lia|].
  destruct (cp <? 2048)%N eqn:E2.
  { apply N.ltb_lt in E2.
    pose proof (N.Div0.div_lt_upper_bound cp 64 32).
    repeat constructor; lia. }
  destruct (cp <? 65536)%N eqn:E3.
  { apply N.ltb_lt in E3.
    pose proof (N.Div0.div_lt_upper_bound cp 4096 16).
    repeat constructor; lia. }
  pose proof (N.Div0.div_lt_upper_bound cp 262144 5).
  repeat constructor; lia.
Qed.

Lemma escapes_plain (bytes : list N) :
  Forall (fun b => (b < 256)%N) bytes -> Forall plain (flat_map percent bytes).
Proof.
  induction 1 as [|b bytes Hb _ IH]; [constructor|].
  change (flat_map percent (b :: bytes))
    with (percent b ++ flat_map percent bytes).
  apply Forall_app. split; [apply percent_plain, Hb | exact IH].
Qed.

Lemma escapes_length (bytes : list N) :
  List.length (flat_map percent bytes) = 3 * List.length bytes.
Proof.
  induction bytes as [|b bytes IH]; simpl; [reflexivity|].
  rewrite IH. lia.
Qed.

Lemma utf8_nonempty (cp : N) : 1 <= List.length (utf8 cp).
Proof.
  unfold utf8. destruct (cp <? 128)%N; [simpl; lia|].
  destruct (cp <? 2048)%N; [simpl; lia|].
  destruct (cp <? 65536)%N; simpl; lia.
Qed.

Lemma pair_code_point (c c2 : N) :
  is_high_surrogate c = true -> is_low_surrogate c2 = true ->
  ((c - 55296) * 1024 + (c2 - 56320) + 65536 < 1114112)%N.
Proof.
  unfold is_high_surrogate, is_low_surrogate. rewrite !in_range_spec. lia.
Qed.

(** The alphabet of an encoding, by the length of the input. *)
Lemma encode_plain (n : nat) :
  forall q e, List.length q <= n ->
    Forall (fun c => (c < 65536)%N) q ->
    encodeURIComponent q = Returns e -> Forall plain e.
Proof.
  induction n as [|n IH]; intros q e Hn Hq He.
  - destruct q; [|simpl in Hn; lia]. injection He as <-. constructor.
  - destruct q as [|c rest]; [injection He as <-; constructor|].
    rewrite encode_cons in He. simpl in Hn.
    inversion Hq as [|? ? Hc Hrest]; subst.
    destruct (uri_unreserved c) eqn:U.
    { destruct (encodeURIComponent rest) as [r|] eqn:R; [|discriminate].
      injection He as <-. constructor; [left; exact U|].
      apply (IH rest r); [lia | exact Hrest | exact R]. }
    destruct (is_low_surrogate c); [discriminate|].
    destruct (is_high_surrogate c) eqn:Hh.
    + destruct rest as [|c2 rest2]; [discriminate|].
      destruct (is_low_surrogate c2) eqn:Hl; [|discriminate].
      cbv zeta in He.
      destruct (encodeURIComponent rest2) as [r|] eqn:R; [|discriminate].
      injection He as <-. apply Forall_app. split.
      * apply escapes_plain, utf8_bytes, pair_code_point; assumption.
      * inversion Hrest; subst. apply (IH rest2 r); [simpl in Hn; lia | assumption | exact R].
    + destruct (encodeURIComponent rest) as [r|] eqn:R; [|discriminate].
      injection He as <-. apply Forall_app. split.
      * apply escapes_plain, utf8_bytes. lia.
      * apply (IH rest r); [lia | exact Hrest | exact R].
Qed.

(** An encoding is never shorter than its input, and as long only when
    nothing was escaped. *)
Lemma encode_length (n : nat) :
  forall q e, List.length q <= n ->
    encodeURIComponent q = Returns e ->
    List.length q <= List.length e /\
    (List.length e = List.length q -> forallb uri_unreserved q = true).
Proof.
  induction n as [|n IH]; intros q e Hn He.
  - destruct q; [|simpl in Hn; lia]. injection He as <-. auto.
  - destruct q as [|c rest]; [injection He as <-; auto|].
    rewrite encode_cons in He. simpl in Hn.
    destruct (uri_unreserved c) eqn:U.
    { destruct (encodeURIComponent rest) as [r|] eqn:R; [|discriminate].
      injection He as <-. destruct (IH rest r) as [L1 L2]; [lia | exact R|].
      simpl. rewrite U. split; [lia|]. intros E. apply L2. lia. }
    destruct (is_low_surrogate c); [discriminate|].
    destruct (is_high_surrogate c) eqn:Hh.
    + destruct rest as [|c2 rest2]; [discriminate|].
      destruct (is_low_surrogate c2) eqn:Hl; [|discriminate].
      cbv zeta in He.
      destruct (encodeURIComponent rest2) as [r|] eqn:R; [|discriminate].
      injection He as <-.
      destruct (IH rest2 r) as [L1 _]; [simpl in Hn; lia | exact R|].
      rewrite length_app, escapes_length.
      pose proof (utf8_nonempty ((c - 55296) * 1024 + (c2 - 56320) + 65536)).
      simpl. split; [lia | intros E; lia].
    + destruct (encodeURIComponent rest) as [r|] eqn:R; [|discriminate].
      injection He as <-.
      destruct (IH rest r) as [L1 _]; [lia | exact R|].
      rewrite length_app, escapes_length.
      pose proof (utf8_nonempty c).
      simpl. split; [lia | intros E; lia].
Qed.

Lemma encode_unreserved (q : jsstring) :
  forallb uri_unreserved q = true -> encodeURIComponent q = Returns q.
Proof.
  induction q as [|c q IH]; [reflexivity|].
  simpl forallb. rewrite andb_true_iff. intros [Hc Hq].
  rewrite encode_cons, Hc, (IH Hq). reflexivity.
Qed.

Lemma encode_dangling (pre : jsstring) (c : code_unit) :
  no_surrogates pre = true ->
  is_high_surrogate c || is_low_surrogate c = true ->
  encodeURIComponent (pre ++ [c]) = Throws MalformedURI.
Proof.
  intros Hp Hc. induction pre as [|x pre IH].
  - simpl app. rewrite encode_cons.
    assert (U : uri_unreserved c = false).
    { unfold uri_unreserved. 
      unfold is_high_surrogate, is_low_surrogate in Hc.
      apply orb_true_iff in Hc. rewrite !in_range_spec in Hc.
      assert (A : in_range 65 90 c = false).
      { destruct (in_range 65 90 c) eqn:E; [|reflexivity].
        apply in_range_spec in E. lia. }
      assert (B : in_range 97 122 c = false).
      { destruct (in_range 97 122 c) eqn:E; [|reflexivity].
        apply in_range_spec in E. lia. }
      assert (D : in_range 48 57 c = false).
      { destruct (in_range 48 57 c) eqn:E; [|reflexivity].
        apply in_range_spec in E. lia. }
      rewrite A, B, D. simpl.
      repeat (match goal with
              | |- (?a =? ?b)%N || _ = false =>
                  replace (a =? b)%N with false
                    by (symmetry; apply N.eqb_neq; lia); simpl
              end).
      reflexivity. }
    rewrite U. destruct (is_low_surrogate c) eqn:L; [reflexivity|].
    rewrite orb_false_r in Hc. rewrite Hc. reflexivity.
  - simpl in Hp. apply andb_true_iff in Hp. destruct Hp as [Hx Hp].
    apply negb_true_iff, orb_false_iff in Hx. destruct Hx as [Hh Hl].
    simpl app. rewrite encode_cons, Hl, Hh, (IH Hp).
    destruct (uri_unreserved x); reflexivity.
Qed.

End UriFacts.

Section QueryEncoding.
Import Js Task Api Samples UriFacts.

(** X22: the encoded query holds only unreserved characters (letters,
    digits, [-_.!~*'()]) and percent signs, whatever the query: no space,
    [&], [=], [#], [?] or non-ASCII code unit reaches the request path. *)
Theorem encoded_query_alphabet (q e : jsstring) :
  Forall (fun c => (c < 65536)%N) q ->
  encodeURIComponent q = Returns e ->
  Forall (fun c => uri_unreserved c = true \/ c = 37%N) e.
Proof.
  intros Hq He. exact (encode_plain (List.length q) q e (le_n _) Hq He).
Qed.

(** X23: the encoding leaves a query as it is exactly when the query is
    made of unreserved characters only; any other query that can be
    encoded comes out longer. *)
Theorem encoding_identity_iff_unreserved (q : jsstring) :
  (encodeURIComponent q = Returns q <-> forallb uri_unreserved q = true) /\
  (forall e, encodeURIComponent q = Returns e ->
             List.length q <= List.length e).
Proof.
  split; [split|].
  - intros H.
    destruct (encode_length (List.length q) q q (le_n _) H) as [_ L].
    apply L. reflexivity.
  - apply encode_unreserved.
  - intros e H.
    destruct (encode_length (List.length q) q e (le_n _) H) as [L _].
    exact L.
Qed.

(** X24: a search value that cannot be encoded (one that ends in a lone
    surrogate, for one) sends no request: the input event only records the
    value of the field, on the catalog and on the notes page alike. *)
Theorem unencodable_search_sends_nothing (v : jsstring)
  (cs : Catalog.state) (ns : Notes.state)
  (StringToNumber : jsstring -> option Z)
  (toLocaleDateString : json -> outcome jsstring) (form_defaults : Notes.form) :
  (forall pre c, v = pre ++ [c] -> no_surrogates pre = true ->
     is_high_surrogate c || is_low_surrogate c = true ->
     encodeURIComponent v = Throws MalformedURI) /\
  (forall e, encodeURIComponent v = Throws e ->
     Catalog.step cs (Catalog.Input_search v) = Catalog.set_search_value v cs /\
     Notes.step StringToNumber toLocaleDateString form_defaults ns
       (Notes.Input_search v)
     = Notes.set_search_value v ns).
Proof.
  split.
  - intros pre c -> Hp Hc. apply encode_dangling; assumption.
  - intros e He.
    assert (Hs : exists e', query_suffix v = Throws e').
    { unfold query_suffix. destruct v as [|c v]; [discriminate|].
      rewrite He. eexists; reflexivity. }
    destruct Hs as [e' Hs]. split.
    + rewrite CatalogSteps.input_search_unfold, Hs. reflexivity.
    + unfold Notes.step, exec, Notes.handle, tbind, modify, spawn.
      simpl snd. rewrite NotesSteps.loadNotes_unfold, Hs. reflexivity.
Qed.

End QueryEncoding.

(* ------------------------------------------------------------------ *)
(** ** What [request] sends, and when it rejects                       *)
(* ------------------------------------------------------------------ *)

Section RequestShape.
Import Js Api JsFacts ApiFacts Requests.

(** X25: [request] always sends [Accept: application/json] and the given
    method.  Missing or falsy data sends no body; a [FormData] is handed to
    [fetch] as it is, with no [Content-Type]; any other truthy data is sent
    as JSON text with [Content-Type: application/json]. *)
Theorem request_body_and_headers (path : jsstring) (m : http_method)
  (data : option request_data) :
  url (fetch_call path m data) = utf16 "/api" ++ path /\
  method (options (fetch_call path m data)) = m /\
  (body (options (fetch_call path m data)) = None <->
   data = None \/ exists j, data = Some (JsonData j) /\ truthy (Some j) = false)
  /\
  (forall fd, data = Some (FormData fd) ->
     fetch_call path m data
     = {| url := utf16 "/api" ++ path;
          options := {| method := m;
                        headers := [(utf16 "Accept", mime_json)];
                        body := Some (Multipart fd) |} |}) /\
  (forall j, data = Some (JsonData j) -> truthy (Some j) = true ->
     fetch_call path m data = json_request m path j) /\
  (body (options (fetch_call path m data)) = None ->
   fetch_call path m data = bare_request m path).
Proof.
  unfold fetch_call, request_options.
  destruct data as [[j|fd]|]; cbn [data_truthy].
  - destruct (truthy (Some j)) eqn:T; cbn [url options method body headers];
      refine (conj eq_refl (conj eq_refl (conj _ (conj _ (conj _ _))))).
    + split; [discriminate|].
      intros [H | [j' [H1 H2]]]; [discriminate|].
      injection H1 as <-. congruence.
    + intros fd H. discriminate.
    + intros j' H _. injection H as <-. reflexivity.
    + discriminate.
    + split; [|reflexivity]. intros _. right. exists j. auto.
    + intros fd H. discriminate.
    + intros j' H H'. injection H as <-. congruence.
    + reflexivity.
  - refine (conj eq_refl (conj eq_refl (conj _ (conj _ (conj _ _))))).
    + split; [discriminate|]. intros [H | [j [H _]]]; discriminate.
    + intros fd' H. injection H as <-. reflexivity.
    + intros j H. discriminate.
    + discriminate.
  - refine (conj eq_refl (conj eq_refl (conj _ (conj _ (conj _ _))))).
    + split; auto.
    + intros fd H. discriminate.
    + intros j H. discriminate.
    + reflexivity.
Qed.

(** X26: a call of [request] rejects in exactly two cases: [fetch] itself
    rejected, or the response body is the JSON literal [null].  Every other
    response resolves, whatever its status and whether or not its body is
    JSON. *)
Theorem request_rejects_iff (fetch : http_request -> fetch_outcome)
  (path : jsstring) (m : http_method) (data : option request_data)
  (e : error) :
  request fetch path m data = Throws e <->
  (fetch (fetch_call path m data) = Rejected /\ e = FetchFailed) \/
  (exists res, fetch (fetch_call path m data) = Fulfilled res /\
               json_body res = Some JNull /\ e = NotAnObject).
Proof.
  unfold request. destruct (fetch (fetch_call path m data)) as [res|].
  - rewrite request_settle_tag. unfold parsed_body, Object_assign.
    destruct (json_body res) as [[| | | | |]|] eqn:B; simpl; split;
      try discriminate;
      try (intros [[H _] | [res' [H [H' _]]]];
           [discriminate | injection H as <-; congruence]).
    + intros H. injection H as <-. right. exists res. auto.
    + intros [[H _] | [res' [_ [_ ->]]]]; [discriminate | reflexivity].
  - simpl. split.
    + intros H. injection H as <-. left. auto.
    + intros [[_ ->] | [res [H _]]]; [reflexivity | discriminate].
Qed.

End RequestShape.

(* ------------------------------------------------------------------ *)
(** ** The classes of the modal                                        *)
(* ------------------------------------------------------------------ *)

Module ModalFacts.
Import Js Task ModalView.

Lemma remove_nth_keeps {A} (x y : A) (n : nat) (l : list A) :
  In x l -> nth_error l n = Some y -> In x (remove_nth n l) \/ y = x.
Proof.
  revert n. induction l as [|z l IH]; intros n Hin Hn; [destruct Hin|].
  destruct n as [|n]; simpl in *.
  - injection Hn as ->. destruct Hin; auto.
  - destruct Hin as [-> | Hin]; [auto|].
    destruct (IH n Hin Hn); auto.
Qed.

(** A class that is set or still to be set stays so when a timer fires. *)
Lemma fire_keeps (n : nat) (m : modal) :
  (hidden m = true \/ In Add_hidden (timers m) ->
   hidden (fire n m) = true \/ In Add_hidden (timers (fire n m))) /\
  (show m = true \/ In Add_show (timers m) ->
   show (fire n m) = true \/ In Add_show (timers (fire n m))).
Proof.
  unfold fire. destruct (nth_error (timers m) n) as [[|]|] eqn:N; simpl;
    split; auto; intros [H | H]; auto.
  - destruct (remove_nth_keeps _ _ _ _ H N); [auto | discriminate].
  - destruct (remove_nth_keeps _ _ _ _ H N); [auto | discriminate].
Qed.

Lemma fire_all_keeps (ns : list nat) (m : modal) :
  (hidden m = true \/ In Add_hidden (timers m) ->
   hidden (fire_all ns m) = true \/ In Add_hidden (timers (fire_all ns m))) /\
  (show m = true \/ In Add_show (timers m) ->
   show (fire_all ns m) = true \/ In Add_show (timers (fire_all ns m))).
Proof.
  revert m. induction ns as [|n ns IH]; intros m; [split; auto|].
  change (fire_all (n :: ns) m) with (fire_all ns (fire n m)).
  destruct (IH (fire n m)) as [I1 I2]. destruct (fire_keeps n m) as [F1 F2].
  split; auto.
Qed.

End ModalFacts.

Section ModalClasses.
Import Js Task ModalView ModalFacts.

(** X27: the classes of the modal once its timers have fired.  With no
    timer pending, opening ends with [show] and without [hidden], closing
    with [hidden] and without [show].  But when the hide timer of an
    earlier close is still pending while [openModal] runs, the modal ends
    with both classes, in whatever order the timers fire: it is marked
    hidden although it was opened last. *)
Theorem modal_classes_after_timers (m : modal) :
  (timers m = [] ->
   fire 0 (openModal m) = {| hidden := false; show := true; timers := [] |} /\
   fire 0 (closeModalFn m)
   = {| hidden := true; show := false; timers := [] |}) /\
  (forall ns,
     In Add_hidden (timers m) ->
     timers (fire_all ns (openModal m)) = [] ->
     hidden (fire_all ns (openModal m)) = true /\
     show (fire_all ns (openModal m)) = true).
Proof.
  split.
  - intros H. unfold fire, openModal, closeModalFn. simpl. rewrite H.
    split; reflexivity.
  - intros ns Hin Hdone.
    destruct (fire_all_keeps ns (openModal m)) as [I1 I2].
    destruct I1 as [H1 | H1].
    { right. simpl. apply in_or_app. left. exact Hin. }
    2:{ rewrite Hdone in H1. destruct H1. }
    destruct I2 as [H2 | H2].
    { right. simpl. apply in_or_app. right. left. reflexivity. }
    2:{ rewrite Hdone in H2. destruct H2. }
    auto.
Qed.

End ModalClasses.

(* ------------------------------------------------------------------ *)
(** ** The logout button                                               *)
(* ------------------------------------------------------------------ *)

Module LogoutFacts.
Import Js Task Dom Api Logout.

Lemma unconfirmed_step (p : page) (e : event) :
  confirmed e = false -> redirects p = 0 ->
  redirects (step p e) = 0 /\ location (step p e) = location p.
Proof.
  intros Hc Hr. destruct e as [|n o|]; simpl.
  - unfold click. destruct (listening p); auto.
  - destruct (nth_error (inflight p) n); [|auto].
    simpl in Hc. destruct (request_settle o) as [r|]; [|auto].
    unfold logged_out. rewrite Hc. auto.
  - rewrite Hr. auto.
Qed.

Lemma unconfirmed_run (es : list event) (p : page) :
  existsb confirmed es = false -> redirects p = 0 ->
  redirects (run es p) = 0 /\ location (run es p) = location p.
Proof.
  revert p. induction es as [|e es IH]; intros p Hc Hr; [auto|].
  simpl in Hc. apply orb_false_iff in Hc. destruct Hc as [He Hes].
  destruct (unconfirmed_step p e He Hr) as [R L].
  change (run (e :: es) p) with (run es (step p e)).
  destruct (IH (step p e) Hes R) as [R' L']. rewrite L'. auto.
Qed.

End LogoutFacts.

Section LogoutButton.
Import Js Task Dom Api Logout LogoutFacts Requests Samples.

(** X28: on a page without a logout button the load handler attaches
    nothing: whatever events follow, no logout request is sent, no redirect
    is scheduled and the page stays as it was. *)
Theorem no_button_no_logout (p : page) (es : list event) :
  button p = None -> listening p = false ->
  inflight p = [] -> redirects p = 0 ->
  run es (on_load p) = p.
Proof.
  intros Hb Hl Hi Hr. unfold on_load. rewrite Hb.
  induction es as [|e es IH]; [reflexivity|].
  change (run (e :: es) p) with (run es (step p e)).
  assert (E : step p e = p).
  { destruct e as [|n o|]; simpl.
    - unfold click. rewrite Hl. reflexivity.
    - rewrite Hi. destruct n; reflexivity.
    - rewrite Hr. reflexivity. }
  rewrite E. exact IH.
Qed.

(** X29: the address changes only after a logout that the server
    confirmed: on a page with the button, a click sends
    [POST /api/auth/logout] without a body, a Result whose [ok] is true
    shows the toast and schedules the redirect to [/]; and as long as no
    settlement brought such a Result, no redirect is pending and the
    address is the one the page had. *)
Theorem redirect_only_after_confirmed_logout (p : page) :
  (listening p = true ->
   inflight (step p Click)
   = inflight p ++ [bare_request POST (utf16 "/auth/logout")]) /\
  (forall o r,
     listening p = true -> inflight p = [] -> redirects p = 0 ->
     request_settle o = Returns r -> truthy (Get r k_ok) = true ->
     toast (run [Click; Settled 0 o] p) = shown "Вы вышли" /\
     location (run [Click; Settled 0 o; Redirect] p) = utf16 "/") /\
  (forall es,
     redirects p = 0 -> existsb confirmed es = false ->
     redirects (run es p) = 0 /\ location (run es p) = location p).
Proof.
  split; [|split].
  - intros H. simpl. unfold click. rewrite H. reflexivity.
  - intros o r Hl Hi Hr Ho Hok. unfold run. simpl.
    unfold click. rewrite Hl. simpl. rewrite Hi. simpl. rewrite Ho.
    unfold logged_out. rewrite Hok. simpl. split; reflexivity.
  - intros es Hr Hc. apply unconfirmed_run; assumption.
Qed.

End LogoutButton.

(* ------------------------------------------------------------------ *)
(** ** The properties above on the sample pages                        *)
(* ------------------------------------------------------------------ *)

Section CatalogSamples.
Import Js Task Dom Api Views ViewFacts CatalogViews Requests Samples MoreSamples.
Import Catalog.

Lemma products_rendered_in_order_witness :
  exists hs,
    List.length hs = 2 /\
    loadProducts_render (result_with "products" (JArr [widget; gadget]))
                        blank_catalog
    = (Returns tt,
       with_productsGrid (fun _ => showing (map product_element hs))
                         blank_catalog).
Proof.
  destruct (products_rendered_in_order
              (result_with "products" (JArr [widget; gadget]))
              [widget; gadget] blank_catalog eq_refl eq_refl) as [hs [HF H]].
  exists hs. split; [|exact H].
  apply Forall2_length in HF. symmetry. exact HF.
Defined.

Lemma products_render_stops_at_throw_witness :
  exists h,
    product_html widget = Returns h /\
    loadProducts_render
      (result_with "products" (JArr [widget; JNull; gadget])) blank_catalog
    = (Throws NotAnObject,
       with_productsGrid (fun _ => showing [product_element h]) blank_catalog).
Proof.
  destruct (product_html_flat widget eq_refl) as [h Hh].
  exists h. split; [exact Hh|].
  apply (products_render_stops_at_throw
           (result_with "products" (JArr [widget; JNull; gadget]))
           [widget] [gadget] JNull [h] NotAnObject blank_catalog).
  - reflexivity.
  - constructor; [exact Hh | constructor].
  - reflexivity.
Defined.

Lemma list_field_not_an_array_witness :
  loadProducts_render (result_with "products" (JObj [])) blank_catalog
  = (Throws NotAFunction,
     with_productsGrid (fun _ => showing []) blank_catalog) /\
  loadCart_render (result_with "items" JNull) blank_catalog
  = (Returns tt,
     set_cartTotal (utf16 "Итого: 0₽")
       (with_cartItems (fun _ => showing []) blank_catalog)).
Proof.
  split.
  - assert (H : forall l, JObj [] <> JArr l) by discriminate.
    destruct (list_field_not_an_array
                (result_with "products" (JObj [])) (JObj []) blank_catalog H)
      as [Hp _].
    exact (Hp eq_refl).
  - assert (H : forall l, JNull <> JArr l) by discriminate.
    destruct (list_field_not_an_array
                (result_with "items" JNull) JNull blank_catalog H)
      as [_ Hc].
    exact (Hc eq_refl eq_refl).
Defined.

Lemma cart_rendered_in_order_witness :
  loadCart_render (cart_of [widget_line]) blank_catalog
  = (Returns tt,
     set_cartTotal (utf16 "Итого: 10₽")
       (with_cartItems
          (fun _ => showing [cart_line_element (utf16 "Widget x 1 = 10₽")])
          blank_catalog)).
Proof.
  destruct (cart_rendered_in_order (cart_of [widget_line]) [widget_line]
              [utf16 "Widget x 1 = 10₽"] (utf16 "10") blank_catalog)
    as [H _].
  - reflexivity.
  - constructor; [reflexivity | constructor].
  - reflexivity.
  - exact H.
Defined.

Lemma cart_line_without_product_witness :
  loadCart_render (cart_of [widget_line; orphan_line]) blank_catalog
  = (Throws NotAnObject,
     set_cartTotal []
       (with_cartItems
          (fun _ => showing [cart_line_element (utf16 "Widget x 1 = 10₽")])
          blank_catalog)).
Proof.
  apply (cart_line_without_product (cart_of [widget_line; orphan_line])
           [widget_line] [] orphan_line [utf16 "Widget x 1 = 10₽"]
           blank_catalog).
  - reflexivity.
  - constructor; [reflexivity | constructor].
  - reflexivity.
Defined.

Lemma list_view_from_response_alone_witness :
  productsGrid
    (step (searching "a")
          (Settled 0 (answer 200 (JObj [(utf16 "products", JArr [widget])]))))
  = productsGrid
      (step (step (searching "b") (Input_search (utf16 "bc")))
            (Settled 1 (answer 200 (JObj [(utf16 "products",
                                           JArr [widget])])))).
Proof.
  destruct (list_view_from_response_alone
              (searching "a")
              (step (searching "b") (Input_search (utf16 "bc"))) 0 1
              (get_request (utf16 "/products?q=a"))
              (get_request (utf16 "/products?q=bc"))
              (answer 200 (JObj [(utf16 "products", JArr [widget])]))
              (result_with "products" (JArr [widget])) eq_refl) as [H _].
  apply H; reflexivity.
Defined.

Lemma cart_reloaded_after_success_witness :
  step adding (Settled 0 accepted)
  = set_inflight [(get_request (utf16 "/cart"), Cart_fetched)]
      (set_toast (shown "Добавлено") adding).
Proof.
  destruct (cart_reloaded_after_success adding 0
              (json_request POST (utf16 "/cart") (add_payload seven))
              Add_posted accepted
              {| kind := Plain; own := [(k_ok, JBool true)] |}
              eq_refl eq_refl eq_refl) as [H _].
  exact (H eq_refl).
Defined.

Lemma catalog_failure_is_silent_witness :
  step adding (Settled 0 Rejected) = blank_catalog /\
  step adding (Settled 0 not_json) = blank_catalog.
Proof.
  destruct (catalog_failure_is_silent adding 0 Rejected) as [H1 _].
  destruct (catalog_failure_is_silent adding 0 not_json) as [_ H2].
  split.
  - rewrite (H1 FetchFailed eq_refl). reflexivity.
  - rewrite (H2 (json_request POST (utf16 "/cart") (add_payload seven))
               Add_posted bare_failure eq_refl (or_introl eq_refl)
               eq_refl eq_refl).
    reflexivity.
Defined.

Lemma every_keystroke_requests_witness :
  inflight (fold_left step
              [Input_search (utf16 "a"); Input_search (utf16 "a b")]
              blank_catalog)
  = [(get_request (utf16 "/products?q=a"), Products_fetched);
     (get_request (utf16 "/products?q=a%20b"), Products_fetched)].
Proof.
  destruct (every_keystroke_requests [utf16 "a"; utf16 "a b"] blank_catalog)
    as [reqs [_ [H _]]].
  - repeat constructor.
  - reflexivity.
Defined.

End CatalogSamples.

Section NotesSamples.
Import Js Task Dom Api Views ViewFacts Requests Samples MoreSamples.
Import Notes.

Lemma no_date_total (j : json) :
  scalar j = true -> exists d, no_date j = Returns d.
Proof. intros _. exists []. reflexivity. Qed.

Lemma notes_rendered_in_order_witness :
  exists els,
    List.length els = 2 /\
    loadNotes_render decimal no_date
      (result_with "notes" (JArr [groceries; long_note])) blank_notes
    = (Returns tt, with_notesList (fun _ => showing els) blank_notes).
Proof.
  destruct (notes_rendered_in_order decimal no_date
              (result_with "notes" (JArr [groceries; long_note]))
              [groceries; long_note] blank_notes no_date_total eq_refl)
    as [_ H].
  - repeat constructor.
  - destruct H as [els [HF H]]; [discriminate|].
    exists els. split; [|exact H].
    apply Forall2_length in HF. symmetry. exact HF.
Defined.

Lemma note_without_content_stops_witness :
  exists el,
    note_card decimal no_date groceries = Returns el /\
    loadNotes_render decimal no_date
      (result_with "notes" (JArr [groceries; stub_note; long_note]))
      blank_notes
    = (Throws NotAnObject, with_notesList (fun _ => showing [el]) blank_notes).
Proof.
  eexists. split; [reflexivity|].
  apply (note_without_content_stops decimal no_date
           (result_with "notes" (JArr [groceries; stub_note; long_note]))
           [groceries] [long_note] stub_note).
  - reflexivity.
  - constructor; [reflexivity | constructor].
  - reflexivity.
Defined.

Lemma notes_view_from_response_alone_witness :
  notesList (notes_step (listing "a") (Settled 0 one_note))
  = notesList
      (notes_step (notes_step (listing "b") (Input_search (utf16 "bc")))
                  (Settled 1 one_note)).
Proof.
  destruct (notes_view_from_response_alone decimal no_date empty_form
              (listing "a")
              (notes_step (listing "b") (Input_search (utf16 "bc"))) 0 1
              (get_request (utf16 "/notes?q=a"))
              (get_request (utf16 "/notes?q=bc")) one_note
              (result_with "notes" (JArr [groceries]))
              eq_refl eq_refl eq_refl) as [H _].
  exact H.
Defined.

Lemma edit_populates_form_witness :
  noteForm (notes_step (edit_clicked seven) (Settled 2 two_lines_answer))
  = {| title := utf16 "Todo"; content := utf16 "a" ++ [LF] ++ utf16 "b";
       tags := [] |} /\
  noteForm editing_groceries
  = {| title := utf16 "Groceries"; content := utf16 "Milk, eggs";
       tags := utf16 "home" |}.
Proof.
  split.
  - destruct (edit_populates_form decimal no_date empty_form
                (edit_clicked seven) 2 two_lines_answer
                (get_request (utf16 "/notes")) seven
                (result_with "notes" (JArr [two_lines])) [] []
                [(utf16 "id", JNum 7);
                 (utf16 "title", JStr (utf16 "To" ++ [LF] ++ utf16 "do"));
                 (utf16 "content", JStr (utf16 "a" ++ [CR; LF] ++ utf16 "b"))]
                (utf16 "To" ++ [LF] ++ utf16 "do")
                (utf16 "a" ++ [CR; LF] ++ utf16 "b")) as [E _].
    + vm_compute; reflexivity.
    + vm_compute; reflexivity.
    + vm_compute; reflexivity.
    + constructor.
    + vm_compute; reflexivity.
    + vm_compute; reflexivity.
    + vm_compute; reflexivity.
    + exact I.
    + unfold notes_step. rewrite E. vm_compute; reflexivity.
  - destruct (edit_populates_form decimal no_date empty_form
                (edit_clicked seven) 2 one_note (get_request (utf16 "/notes"))
                seven (result_with "notes" (JArr [groceries])) [] []
                [(utf16 "id", JNum 7);
                 (utf16 "title", JStr (utf16 "Groceries"));
                 (utf16 "content", JStr (utf16 "Milk, eggs"));
                 (utf16 "tags", JStr (utf16 "home"))]
                (utf16 "Groceries") (utf16 "Milk, eggs")) as [_ E].
    + vm_compute; reflexivity.
    + vm_compute; reflexivity.
    + vm_compute; reflexivity.
    + constructor.
    + vm_compute; reflexivity.
    + vm_compute; reflexivity.
    + vm_compute; reflexivity.
    + exact I.
    + unfold editing_groceries, notes_step. rewrite E.
      * reflexivity.
      * vm_compute; reflexivity.
      * vm_compute; reflexivity.
      * vm_compute; reflexivity.
Defined.

Lemma submit_routes_witness :
  inflight (notes_step editing_groceries Submit)
  = inflight editing_groceries
    ++ [(json_request PUT (utf16 "/notes/7")
           (form_data (noteForm editing_groceries)), Put_done)] /\
  inflight (notes_step composing Submit)
  = [(json_request POST (utf16 "/notes") (form_data empty_form), Post_done)].
Proof.
  split.
  - destruct (submit_routes decimal no_date empty_form editing_groceries)
      as [H _].
    unfold notes_step at 1. rewrite (H (utf16 "7")).
    + reflexivity.
    + discriminate.
    + vm_compute; reflexivity.
  - destruct (submit_routes decimal no_date empty_form composing) as [_ H].
    unfold notes_step at 1. rewrite H.
    + vm_compute; reflexivity.
    + vm_compute; reflexivity.
Defined.


Lemma note_mutation_reloads_witness :
  modal_open (notes_step submitted (Settled 2 accepted)) = false /\
  toast (notes_step submitted (Settled 2 accepted))
  = shown "Заметка обновлена" /\
  inflight (notes_step submitted (Settled 2 accepted))
  = remove_nth 2 (inflight submitted)
    ++ [(bare_request GET (utf16 "/notes"), Notes_fetched)].
Proof.
  destruct (note_mutation_reloads decimal no_date empty_form submitted 2
              accepted
              (json_request PUT (utf16 "/notes/7")
                 (form_data (noteForm editing_groceries)))
              Put_done {| kind := Plain; own := [(k_ok, JBool true)] |} [])
    as [H _].
  - vm_compute; reflexivity.
  - vm_compute; reflexivity.
  - vm_compute; reflexivity.
  - vm_compute; reflexivity.
  - unfold notes_step. rewrite (H eq_refl). repeat split.
Defined.

Lemma notes_failure_is_silent_witness :
  notes_step submitted (Settled 2 Rejected)
  = set_inflight (remove_nth 2 (inflight submitted)) submitted /\
  notes_step submitted (Settled 2 not_json)
  = set_inflight (remove_nth 2 (inflight submitted)) submitted.
Proof.
  split.
  - destruct (notes_failure_is_silent decimal no_date empty_form submitted 2
                Rejected) as [H _].
    apply (H FetchFailed). reflexivity.
  - destruct (notes_failure_is_silent decimal no_date empty_form submitted 2
                not_json) as [_ H].
    apply (H (json_request PUT (utf16 "/notes/7")
                (form_data (noteForm editing_groceries)))
             Put_done bare_failure).
    + vm_compute; reflexivity.
    + left; reflexivity.
    + vm_compute; reflexivity.
    + vm_compute; reflexivity.
Defined.

Lemma admin_link_only_for_admin_witness :
  adminLink (notes_step (exec start blank_notes) (Settled 0 admin_answer))
  = true.
Proof.
  destruct (admin_link_only_for_admin decimal no_date empty_form
              (exec start blank_notes) (Settled 0 admin_answer)) as [_ H].
  apply H.
  - vm_compute; reflexivity.
  - exists 0, admin_answer, (get_request (utf16 "/auth/me")),
      (result_with "user" (JObj [(utf16 "role", JStr (utf16 "admin"))])),
      (JObj [(utf16 "role", JStr (utf16 "admin"))]).
    repeat split; vm_compute; reflexivity.
Defined.

End NotesSamples.

Section OtherSamples.
Import Js Task Dom Api Views Requests Samples MoreSamples.

Lemma encoded_query_alphabet_witness :
  Forall (fun c => uri_unreserved c = true \/ c = 37%N) (utf16 "a%20b%26c").
Proof.
  apply (encoded_query_alphabet (utf16 "a b&c") (utf16 "a%20b%26c")).
  - repeat constructor.
  - vm_compute; reflexivity.
Defined.

Lemma encoding_identity_iff_unreserved_witness :
  encodeURIComponent (utf16 "notes-2024") = Returns (utf16 "notes-2024").
Proof.
  apply (encoding_identity_iff_unreserved (utf16 "notes-2024")).
  vm_compute; reflexivity.
Defined.

Lemma unencodable_search_sends_nothing_witness :
  Catalog.step blank_catalog (Catalog.Input_search (utf16 "ab" ++ [55357%N]))
  = Catalog.set_search_value (utf16 "ab" ++ [55357%N]) blank_catalog.
Proof.
  destruct (unencodable_search_sends_nothing (utf16 "ab" ++ [55357%N])
              blank_catalog blank_notes decimal no_date empty_form)
    as [Hthrows Hnone].
  destruct (Hnone MalformedURI) as [H _]; [|exact H].
  apply (Hthrows (utf16 "ab") 55357%N); vm_compute; reflexivity.
Defined.

Lemma request_body_and_headers_witness :
  fetch_call (utf16 "/notes") POST
    (Some (JsonData (Notes.form_data empty_form)))
  = json_request POST (utf16 "/notes") (Notes.form_data empty_form) /\
  fetch_call (utf16 "/cart") POST (Some (JsonData (JNum 0)))
  = bare_request POST (utf16 "/cart").
Proof.
  split.
  - destruct (request_body_and_headers (utf16 "/notes") POST
                (Some (JsonData (Notes.form_data empty_form))))
      as (_ & _ & _ & _ & H & _).
    apply H; reflexivity.
  - destruct (request_body_and_headers (utf16 "/cart") POST
                (Some (JsonData (JNum 0)))) as (_ & _ & _ & _ & _ & H).
    apply H. reflexivity.
Defined.

Lemma request_rejects_iff_witness :
  request (fun _ => answer 200 JNull) (utf16 "/cart") GET None
  = Throws NotAnObject.
Proof.
  apply (request_rejects_iff (fun _ => answer 200 JNull)).
  right. exists {| status := 200; json_body := Some JNull |}.
  repeat split.
Defined.

Lemma modal_classes_after_timers_witness :
  ModalView.hidden
    (ModalView.fire_all [0; 0] (ModalView.openModal closing)) = true /\
  ModalView.show
    (ModalView.fire_all [0; 0] (ModalView.openModal closing)) = true.
Proof.
  destruct (modal_classes_after_timers closing) as [_ H].
  apply (H [0; 0]).
  - left. reflexivity.
  - reflexivity.
Defined.

Lemma no_button_no_logout_witness :
  Logout.run [Logout.Click; Logout.Settled 0 accepted; Logout.Redirect]
             (Logout.on_load (plain_page None))
  = plain_page None.
Proof.
  apply (no_button_no_logout (plain_page None)); reflexivity.
Defined.

Lemma redirect_only_after_confirmed_logout_witness :
  Logout.location
    (Logout.run [Logout.Click; Logout.Settled 0 accepted; Logout.Redirect]
                (Logout.on_load (plain_page (Some true))))
  = utf16 "/" /\
  Logout.location
    (Logout.run [Logout.Click; Logout.Settled 0 not_json; Logout.Redirect]
                (Logout.on_load (plain_page (Some true))))
  = utf16 "/dashboard".
Proof.
  destruct (redirect_only_after_confirmed_logout
              (Logout.on_load (plain_page (Some true)))) as (_ & H1 & H2).
  split.
  - apply (H1 accepted {| kind := Plain; own := [(k_ok, JBool true)] |});
      vm_compute; reflexivity.
  - apply (H2 [Logout.Click; Logout.Settled 0 not_json; Logout.Redirect]);
      vm_compute; reflexivity.
Defined.

End OtherSamples.
